(** * Admin account lifecycle: onboarding, login, profile update, tokens

    A shallow embedding of the service layer (adminOnboardingService.js),
    the JWT helper (utils/jwt.js), the error helpers (utils/errors.js), the
    error-code table (constants/errorCodes.js) and the update-input
    middleware (middleware/validateAdmin.js).

    JavaScript values are modelled by [JsVal]; thrown values by [Exn]; the
    PostgreSQL tables by lists of typed rows; objects handed back to the
    caller by [gmap string JsVal].  Asynchronous functions become functions
    in the state-and-exception monad [M] over a [World] that carries the
    committed tables, the tables of the open transaction and a trace of
    the external calls issued so far. *)

From Stdlib Require Import ZArith Ascii String List Bool Lia.
From stdpp Require Import base gmap strings list pretty.

Open Scope string_scope.
Open Scope list_scope.
Open Scope Z_scope.

(** ** JavaScript values *)

Inductive JsVal :=
| JUndefined
| JNull
| JBool (b : bool)
| JNum (z : Z)
| JStr (s : string)
| JDate (ms : Z).

(** ToBoolean, as used by [if (x)], [!x] and [x && y]. *)
Definition truthy (v : JsVal) : bool :=
  match v with
  | JUndefined | JNull => false
  | JBool b => b
  | JNum z => negb (z =? 0)
  | JStr s => negb (s =? EmptyString)%string
  | JDate _ => true
  end.

(** [x !== undefined && x !== null] *)
Definition provided (v : JsVal) : bool :=
  match v with
  | JUndefined | JNull => false
  | _ => true
  end.

(** A value read from an optional string property. *)
Definition of_opt_string (o : option string) : JsVal :=
  match o with Some s => JStr s | None => JUndefined end.

Definition of_opt_num (o : option Z) : JsVal :=
  match o with Some z => JNum z | None => JNull end.

(** ** constants/errorCodes.js *)

Module ERROR_CODES.
Definition INVALID_INPUT := "INVALID_INPUT".
Definition MISSING_FIELD := "MISSING_FIELD".
Definition INVALID_EMAIL := "INVALID_EMAIL".
Definition INVALID_PASSWORD := "INVALID_PASSWORD".
Definition INVALID_GRADUATION_YEAR := "INVALID_GRADUATION_YEAR".
Definition INVALID_PHONE := "INVALID_PHONE".
Definition UNAUTHORIZED := "UNAUTHORIZED".
Definition FORBIDDEN := "FORBIDDEN".
Definition DUPLICATE_STUDENT_ID := "DUPLICATE_STUDENT_ID".
Definition DUPLICATE_EMAIL := "DUPLICATE_EMAIL".
Definition INVALID_ROLE := "INVALID_ROLE".
Definition INVALID_BRANCH := "INVALID_BRANCH".
Definition INVALID_INVITATION_CODE := "INVALID_INVITATION_CODE".
Definition INVITATION_CODE_INACTIVE := "INVITATION_CODE_INACTIVE".
Definition INVITATION_CODE_EXPIRED := "INVITATION_CODE_EXPIRED".
Definition INVITATION_CODE_ALREADY_USED := "INVITATION_CODE_ALREADY_USED".
Definition DATABASE_ERROR := "DATABASE_ERROR".
Definition TRANSACTION_FAILED := "TRANSACTION_FAILED".
Definition INTERNAL_ERROR := "INTERNAL_ERROR".
End ERROR_CODES.

(** The code the 404 route handler of the error middleware answers with;
    it is not a member of the table above. *)
Definition NOT_FOUND := "NOT_FOUND".

(** ** utils/errors.js *)

(** [APIError]: the [details] field is [null] on every path modelled here
    and the [timestamp] field is the wall clock at construction; neither is
    carried. *)
Record APIError := mkAPIError {
  statusCode : Z;
  errorCode : string;
  message : string
}.

Definition createValidationError (code msg : string) : APIError :=
  mkAPIError 400 code msg.
Definition createUnauthorizedError (code msg : string) : APIError :=
  mkAPIError 401 code msg.
Definition createForbiddenError (code msg : string) : APIError :=
  mkAPIError 403 code msg.
Definition createNotFoundError (code msg : string) : APIError :=
  mkAPIError 404 code msg.
Definition createConflictError (code msg : string) : APIError :=
  mkAPIError 409 code msg.
Definition createServerError (code msg : string) : APIError :=
  mkAPIError 500 code msg.

(** What a [throw] carries: an [APIError]; an [Error] without a
    [statusCode] property (a driver or library failure, or
    [new Error(msg)]); or any other value, which is no [APIError] and has
    the given [statusCode] property. *)
Inductive Exn :=
| ApiErr (e : APIError)
| JsError (msg : string)
| Foreign (statusCode : JsVal) (msg : string).

(** [error.statusCode] as a condition. *)
Definition has_statusCode (e : Exn) : bool :=
  match e with
  | ApiErr a => negb (statusCode a =? 0)
  | JsError _ => false
  | Foreign sc _ => truthy sc
  end.

(** [error.message] *)
Definition exn_message (e : Exn) : string :=
  match e with
  | ApiErr a => message a
  | JsError m => m
  | Foreign _ m => m
  end.

(** ** Tables *)

Module Admin.
Record row := mk {
  AdminID : Z;
  StudentID : string;
  FullName : string;
  Email : string;
  PasswordHash : string;
  Phone : string;
  RoleID : Z;
  BranchID : option Z;
  GraduationYear : Z;
  CurrentYear : Z;
  InvitationCode : string;
  CreatedAt : Z;
  UpdatedAt : Z
}.

(** The value of a column of a row, as the driver hands it to
    JavaScript. *)
Definition col (a : row) (c : string) : option JsVal :=
  if (c =? "AdminID")%string then Some (JNum (AdminID a))
  else if (c =? "StudentID")%string then Some (JStr (StudentID a))
  else if (c =? "FullName")%string then Some (JStr (FullName a))
  else if (c =? "Email")%string then Some (JStr (Email a))
  else if (c =? "PasswordHash")%string then Some (JStr (PasswordHash a))
  else if (c =? "Phone")%string then Some (JStr (Phone a))
  else if (c =? "RoleID")%string then Some (JNum (RoleID a))
  else if (c =? "BranchID")%string then Some (of_opt_num (BranchID a))
  else if (c =? "GraduationYear")%string then Some (JNum (GraduationYear a))
  else if (c =? "CurrentYear")%string then Some (JNum (CurrentYear a))
  else if (c =? "InvitationCode")%string then Some (JStr (InvitationCode a))
  else if (c =? "CreatedAt")%string then Some (JDate (CreatedAt a))
  else if (c =? "UpdatedAt")%string then Some (JDate (UpdatedAt a))
  else None.
End Admin.

Module InvitationCode.
Record row := mk {
  CodeID : Z;
  Code : string;
  RoleID : Z;
  IsActive : bool;
  IsUsed : bool;
  ExpiresAt : option Z;
  UsedByAdminID : option Z;
  UpdatedAt : Z
}.
End InvitationCode.

Module Role.
Record row := mk {
  RoleID : Z;
  RoleName : string;
  AccessLevel : Z
}.
End Role.

Module Branch.
Record row := mk {
  BranchID : Z;
  BranchName : string
}.
End Branch.

Record Store := mkStore {
  tblAdmin : list Admin.row;
  tblInvitationCode : list InvitationCode.row;
  tblRole : list Role.row;
  tblBranch : list Branch.row
}.

(** A JavaScript object: property name to value. *)
Abbreviation JsObj := (gmap string JsVal).

(** [RETURNING c1, ..., cn] (or a [SELECT] list) applied to an Admin row. *)
Definition returning (cols : list string) (a : Admin.row) : JsObj :=
  list_to_map (omap (fun c => pair c <$> Admin.col a c) cols).
Arguments returning : simpl never.

(** ** External calls and the world *)

Inductive Sql :=
| SelInvitationCode (code : string)
| SelAdminByStudentID (studentID : string)
| SelAdminByEmail (email : string)
| SelRole (roleID : Z)
| SelBranch (branchID : Z)
| SelLogin (email : string)
| SelAdminHash (adminID : Z)
| UpdAdmin (adminID : Z)
| TxBegin
| InsAdmin (studentID email : string)
| UpdInvitationCode (codeID : Z)
| TxCommit
| TxRollback.

Inductive Event :=
| Query (q : Sql)
| BcryptHash (password : string)
| BcryptCompare (data : JsVal) (hash : string).

(** [db] holds the committed tables, which every client of the pool reads;
    [tx] holds the tables as the open transaction of the client of
    [createAdminWithTransaction] has made them ([None]: that client has no
    transaction open); [trace] is the list of external calls issued so far,
    oldest first. *)
Record World := mkWorld {
  db : Store;
  tx : option Store;
  trace : list Event
}.

(** ** Injected collaborators *)

(** The calls on the pool and on its client in
    [createAdminWithTransaction]. *)
Inductive Stmt :=
| CONNECT
| BEGIN
| INSERT_ADMIN
| UPDATE_CODE
| COMMIT
| ROLLBACK.

(** A PostgreSQL integer type. *)
Inductive IntType := int4 | int8.

(** The numbers a column of the type holds and a parameter compared with
    it may be. *)
Definition fits (t : IntType) (z : Z) : bool :=
  match t with
  | int4 => (-2147483648 <=? z) && (z <=? 2147483647)
  | int8 => (-9223372036854775808 <=? z) && (z <=? 9223372036854775807)
  end.

(** What the code takes from outside: the clock, the bcrypt primitive, the
    storage layer's generated values, the failures the driver may report
    for a call of the transaction ([Some msg]: the call rejects with an
    error whose message is [msg]) and the integer type of the AdminID
    column (the schema is not among the sources). *)
Record Env := mkEnv {
  clock : Z;
  bcrypt_hash : string -> Z -> option string;
  bcrypt_compare : string -> string -> bool;
  fresh_AdminID : Z;
  derive_CurrentYear : Z -> Z -> Z;
  fault : Stmt -> option string;
  AdminID_type : IntType
}.

(** ** The monad of asynchronous service functions *)

Definition M (A : Type) : Type := World -> (Exn + A) * World.

Definition ret {A} (a : A) : M A := fun w => (inr a, w).

Definition throw {A} (e : Exn) : M A := fun w => (inl e, w).

Definition bind {A B} (m : M A) (k : A -> M B) : M B :=
  fun w =>
    match m w with
    | (inr a, w') => k a w'
    | (inl e, w') => (inl e, w')
    end.

(** [try { m } catch (error) { h error }] *)
Definition try_catch {A} (m : M A) (h : Exn -> M A) : M A :=
  fun w =>
    match m w with
    | (inl e, w') => h e w'
    | (inr a, w') => (inr a, w')
    end.

(** [try { m } finally { f }], for an [f] that does not throw. *)
Definition finally {A} (m : M A) (f : World -> World) : M A :=
  fun w => let '(r, w') := m w in (r, f w').

Declare Scope svc_scope.
Delimit Scope svc_scope with svc.
Notation "x <- m ;; k" := (bind m (fun x => k))
  (at level 62, m at next level, right associativity) : svc_scope.
Notation "m ;;; k" := (bind m (fun _ => k))
  (at level 62, right associativity) : svc_scope.
Open Scope svc_scope.

Definition emit (e : Event) : M unit :=
  fun w => (inr tt, mkWorld (db w) (tx w) (trace w ++ [e])).

Definition get_db : M Store := fun w => (inr (db w), w).

Definition put_db (s : Store) : M unit :=
  fun w => (inr tt, mkWorld s (tx w) (trace w)).

(** The tables a statement of the client acts on: those of its open
    transaction, the committed ones when it has none. *)
Definition get_client : M Store :=
  fun w => (inr (match tx w with Some s => s | None => db w end), w).

Definition put_client (s : Store) : M unit :=
  fun w =>
    (inr tt,
     match tx w with
     | Some _ => mkWorld (db w) (Some s) (trace w)
     | None => mkWorld s None (trace w)
     end).

(** [if (c) throw e;] *)
Definition throw_if (c : bool) (e : Exn) : M unit :=
  if c then throw e else ret tt.

(** [obj.k] *)
Definition get (o : JsObj) (k : string) : JsVal := default JUndefined (o !! k).
Arguments get : simpl never.

(** A JavaScript value bound to an integer parameter of a statement. *)
Definition sql_int (v : JsVal) : option Z :=
  match v with JNum z => Some z | _ => None end.

(** ** bcrypt *)

Definition SALT_ROUNDS : Z := 12.

(** [bcrypt.hash(password, rounds)]; [None] of the primitive is a rejected
    promise. *)
Definition bcrypt_hash_call (env : Env) (password : string) (rounds : Z)
  : M string :=
  emit (BcryptHash password) ;;;
  match bcrypt_hash env password rounds with
  | Some h => ret h
  | None => throw (JsError "bcrypt.hash failed")
  end.

(** [bcrypt.compare(data, hash)]: rejects unless both arguments are
    strings. *)
Definition bcrypt_compare_call (env : Env) (data hash : JsVal) : M bool :=
  match hash with
  | JStr h =>
      emit (BcryptCompare data h) ;;;
      match data with
      | JStr d => ret (bcrypt_compare env d h)
      | _ => throw (JsError "data and hash must be strings")
      end
  | _ => throw (JsError "data and hash must be strings")
  end.

(** ** pool.query: the statements of the service layer *)

Module InvitationView.
(** A row of the join of InvitationCode with Role. *)
Record row := mk {
  CodeID : Z;
  Code : string;
  RoleID : Z;
  IsActive : bool;
  IsUsed : bool;
  ExpiresAt : option Z;
  RoleName : string
}.
End InvitationView.

Definition join_role (ic : InvitationCode.row) (r : Role.row)
  : InvitationView.row :=
  InvitationView.mk (InvitationCode.CodeID ic) (InvitationCode.Code ic)
    (InvitationCode.RoleID ic) (InvitationCode.IsActive ic)
    (InvitationCode.IsUsed ic) (InvitationCode.ExpiresAt ic)
    (Role.RoleName r).

(** SELECT ... FROM InvitationCode ic JOIN Role r ON ic.RoleID = r.RoleID
    WHERE ic.Code = $1 *)
Definition select_invitation (s : Store) (code : string)
  : list InvitationView.row :=
  flat_map
    (fun ic =>
       map (join_role ic)
         (List.filter (fun r => Role.RoleID r =? InvitationCode.RoleID ic)
            (tblRole s)))
    (List.filter (fun ic => (InvitationCode.Code ic =? code)%string)
       (tblInvitationCode s)).

(** SELECT AdminID FROM Admin WHERE StudentID = $1 LIMIT 1 *)
Definition select_admin_by_studentID (s : Store) (studentID : string)
  : list JsObj :=
  firstn 1
    (map (returning ["AdminID"])
       (List.filter (fun a => (Admin.StudentID a =? studentID)%string)
          (tblAdmin s))).

(** SELECT AdminID FROM Admin WHERE Email = $1 LIMIT 1 *)
Definition select_admin_by_email (s : Store) (email : string) : list JsObj :=
  firstn 1
    (map (returning ["AdminID"])
       (List.filter (fun a => (Admin.Email a =? email)%string) (tblAdmin s))).

(** SELECT RoleID, RoleName, AccessLevel FROM Role WHERE RoleID = $1 *)
Definition select_role (s : Store) (roleID : Z) : list Role.row :=
  List.filter (fun r => Role.RoleID r =? roleID) (tblRole s).

(** SELECT BranchID, BranchName FROM Branch WHERE BranchID = $1 *)
Definition select_branch (s : Store) (branchID : Z) : list Branch.row :=
  List.filter (fun b => Branch.BranchID b =? branchID) (tblBranch s).

(** [await pool.query(q, params)] for a read: the call is traced and
    answers with the rows the statement selects from the committed tables.
    A lost connection during a read is outside the model; a statement
    whose parameter the driver cannot bind rejects where the caller says
    so ([query_admin_hash]).  The [catch] clauses that wrap a driver
    failure of a read are kept in the functions as the code has them. *)
Definition pool_query {R} (q : Sql) (rows : Store -> list R) : M (list R) :=
  emit (Query q) ;;;
  s <- get_db ;;
  ret (rows s).

(** [if (error.statusCode) throw error; throw createServerError(code, msg)] *)
Definition rethrow_api {A} (code msg : string) (error : Exn) : M A :=
  if has_statusCode error then throw error
  else throw (ApiErr (createServerError code msg)).

(** ** adminOnboardingService.js *)

Import ERROR_CODES.

(** [invitationCode.ExpiresAt && new Date(invitationCode.ExpiresAt) < new Date()] *)
Definition is_expired (env : Env) (ic : InvitationView.row) : bool :=
  match InvitationView.ExpiresAt ic with
  | Some t => t <? clock env
  | None => false
  end.

Definition validateInvitationCode (env : Env) (code : string)
  : M InvitationView.row :=
  try_catch
    (rows <- pool_query (SelInvitationCode code)
               (fun s => select_invitation s code) ;;
     match rows with
     | [] =>
         throw (ApiErr (createNotFoundError INVALID_INVITATION_CODE
                          "Invitation code does not exist"))
     | invitationCode :: _ =>
         throw_if (negb (InvitationView.IsActive invitationCode))
           (ApiErr (createValidationError INVITATION_CODE_INACTIVE
                      "Invitation code is inactive")) ;;;
         throw_if (InvitationView.IsUsed invitationCode)
           (ApiErr (createValidationError INVITATION_CODE_ALREADY_USED
                      "Invitation code has already been used")) ;;;
         throw_if (is_expired env invitationCode)
           (ApiErr (createValidationError INVITATION_CODE_EXPIRED
                      "Invitation code has expired")) ;;;
         ret invitationCode
     end)
    (rethrow_api DATABASE_ERROR "Error validating invitation code").

Definition checkStudentIDExists (studentID : string) : M bool :=
  try_catch
    (rows <- pool_query (SelAdminByStudentID studentID)
               (fun s => select_admin_by_studentID s studentID) ;;
     ret (0 <? Z.of_nat (length rows)))
    (fun _ => throw (ApiErr (createServerError DATABASE_ERROR
                               "Error checking student ID"))).

Definition checkEmailExists (email : string) : M bool :=
  try_catch
    (rows <- pool_query (SelAdminByEmail email)
               (fun s => select_admin_by_email s email) ;;
     ret (0 <? Z.of_nat (length rows)))
    (fun _ => throw (ApiErr (createServerError DATABASE_ERROR
                               "Error checking email"))).

Definition validateRole (roleID : Z) : M Role.row :=
  try_catch
    (rows <- pool_query (SelRole roleID) (fun s => select_role s roleID) ;;
     match rows with
     | [] => throw (ApiErr (createValidationError INVALID_ROLE
                              "Invalid Role ID"))
     | r :: _ => ret r
     end)
    (rethrow_api DATABASE_ERROR "Error validating role").

(** [branchID] as a condition: absent and [0] are falsy. *)
Definition branch_given (branchID : option Z) : option Z :=
  match branchID with
  | Some b => if b =? 0 then None else Some b
  | None => None
  end.

Definition validateBranch (branchID : option Z) : M (option Branch.row) :=
  match branch_given branchID with
  | None => ret None
  | Some b =>
      try_catch
        (rows <- pool_query (SelBranch b) (fun s => select_branch s b) ;;
         match rows with
         | [] => throw (ApiErr (createValidationError INVALID_BRANCH
                                  "Invalid Branch ID"))
         | r :: _ => ret (Some r)
         end)
        (rethrow_api DATABASE_ERROR "Error validating branch")
  end.

Definition hashPassword (env : Env) (password : string) : M string :=
  try_catch
    (bcrypt_hash_call env password SALT_ROUNDS)
    (fun _ => throw (ApiErr (createServerError INTERNAL_ERROR
                               "Error hashing password"))).

(** The validated onboarding payload ([req.validated]); [branchID] is
    absent unless the request supplied one. *)
Module Candidate.
Record t := mk {
  studentID : string;
  fullName : string;
  email : string;
  password : string;
  phone : string;
  roleID : Z;
  graduationYear : Z;
  invitationCode : string;
  branchID : option Z
}.
End Candidate.

(** [{ ...validatedData, passwordHash }] *)
Record AdminData := mkAdminData {
  validatedData : Candidate.t;
  passwordHash : string
}.

(** *** The client of a transaction *)

Definition driver_fault (env : Env) (st : Stmt) : M unit :=
  match fault env st with
  | Some msg => throw (JsError msg)
  | None => ret tt
  end.

(** [await pool.connect()]: rejects, or answers with a client on which no
    transaction is open. *)
Definition pool_connect (env : Env) : M unit :=
  driver_fault env CONNECT ;;;
  fun w => (inr tt, mkWorld (db w) None (trace w)).

(** [client.release()]: the client goes back to the pool; what a
    transaction it left open has written is not committed. *)
Definition client_release (w : World) : World :=
  mkWorld (db w) None (trace w).

(** BEGIN opens a transaction on the committed tables. *)
Definition client_BEGIN (env : Env) : M unit :=
  emit (Query TxBegin) ;;;
  driver_fault env BEGIN ;;;
  fun w =>
    (inr tt,
     mkWorld (db w)
       (match tx w with Some s => Some s | None => Some (db w) end)
       (trace w)).

(** COMMIT makes the tables of the transaction the committed ones. *)
Definition client_COMMIT (env : Env) : M unit :=
  emit (Query TxCommit) ;;;
  driver_fault env COMMIT ;;;
  fun w =>
    (inr tt,
     mkWorld (match tx w with Some s => s | None => db w end) None
       (trace w)).

(** ROLLBACK drops the tables of the transaction; it is a no-op when no
    transaction is open.  Like every call on the client it may reject. *)
Definition client_ROLLBACK (env : Env) : M unit :=
  emit (Query TxRollback) ;;;
  driver_fault env ROLLBACK ;;;
  fun w => (inr tt, mkWorld (db w) None (trace w)).

(** The row the INSERT of [createAdminWithTransaction] builds from its nine
    parameters; AdminID, CurrentYear, CreatedAt and UpdatedAt are filled in
    by the storage layer. *)
Definition new_admin_row (env : Env) (adminData : AdminData) : Admin.row :=
  let v := validatedData adminData in
  Admin.mk (fresh_AdminID env)
    (Candidate.studentID v)
    (Candidate.fullName v)
    (Candidate.email v)
    (passwordHash adminData)
    (Candidate.phone v)
    (Candidate.roleID v)
    (branch_given (Candidate.branchID v))
    (Candidate.graduationYear v)
    (derive_CurrentYear env (Candidate.graduationYear v) (clock env))
    (Candidate.invitationCode v)
    (clock env)
    (clock env).

(** Modelled from the spec: the schema of the Admin table is not among the
    sources; the spec requires the storage layer to enforce uniqueness of
    the student identifier and of the email independently, next to the
    generated numeric key. *)
Definition unique_violation (s : Store) (r : Admin.row) : bool :=
  existsb
    (fun a =>
       (Admin.AdminID a =? Admin.AdminID r)
       || (Admin.StudentID a =? Admin.StudentID r)%string
       || (Admin.Email a =? Admin.Email r)%string)
    (tblAdmin s).

Definition RETURNING_created : list string :=
  ["AdminID"; "StudentID"; "FullName"; "Email"; "Phone"; "RoleID";
   "BranchID"; "GraduationYear"; "CurrentYear"; "CreatedAt"].

(** INSERT INTO Admin (...) VALUES ($1, ..., $9) RETURNING ... *)
Definition insert_admin (env : Env) (adminData : AdminData) : M (list JsObj) :=
  let r := new_admin_row env adminData in
  emit (Query (InsAdmin (Admin.StudentID r) (Admin.Email r))) ;;;
  driver_fault env INSERT_ADMIN ;;;
  s <- get_client ;;
  if unique_violation s r
  then throw (JsError "duplicate key value violates unique constraint")
  else
    put_client (mkStore (tblAdmin s ++ [r]) (tblInvitationCode s) (tblRole s)
                  (tblBranch s)) ;;;
    ret [returning RETURNING_created r].

(** SET IsUsed = TRUE, UsedByAdminID = $1, UpdatedAt = CURRENT_TIMESTAMP *)
Definition mark_used (env : Env) (usedBy : option Z) (c : InvitationCode.row)
  : InvitationCode.row :=
  InvitationCode.mk (InvitationCode.CodeID c) (InvitationCode.Code c)
    (InvitationCode.RoleID c) (InvitationCode.IsActive c) true
    (InvitationCode.ExpiresAt c) usedBy (clock env).

Definition mark_used_where (env : Env) (usedBy : option Z) (codeID : Z)
    (c : InvitationCode.row) : InvitationCode.row :=
  if InvitationCode.CodeID c =? codeID then mark_used env usedBy c else c.

(** UPDATE InvitationCode SET ... WHERE CodeID = $2 RETURNING CodeID *)
Definition update_invitation (env : Env) (adminID : JsVal) (codeID : Z)
  : M (list Z) :=
  emit (Query (UpdInvitationCode codeID)) ;;;
  driver_fault env UPDATE_CODE ;;;
  s <- get_client ;;
  put_client (mkStore (tblAdmin s)
                (map (mark_used_where env (sql_int adminID) codeID)
                   (tblInvitationCode s))
                (tblRole s) (tblBranch s)) ;;;
  ret (map InvitationCode.CodeID
         (List.filter (fun c => InvitationCode.CodeID c =? codeID)
            (tblInvitationCode s))).

Definition createAdminWithTransaction (env : Env) (adminData : AdminData)
    (invitationCodeData : InvitationView.row) : M JsObj :=
  pool_connect env ;;;
  finally
    (try_catch
       (client_BEGIN env ;;;
        adminResult <- insert_admin env adminData ;;
        match adminResult with
        | [] => throw (JsError "Failed to create admin")
        | createdAdmin :: _ =>
            codeResult <- update_invitation env (get createdAdmin "AdminID")
                            (InvitationView.CodeID invitationCodeData) ;;
            match codeResult with
            | [] => throw (JsError "Failed to mark invitation code as used")
            | _ :: _ =>
                client_COMMIT env ;;;
                ret createdAdmin
            end
        end)
       (fun error =>
          client_ROLLBACK env ;;;
          throw (ApiErr (createServerError TRANSACTION_FAILED
                           (exn_message error)))))
    client_release.

(** *** Login *)

Definition SELECT_login : list string :=
  ["AdminID"; "StudentID"; "Email"; "FullName"; "Phone"; "RoleID";
   "BranchID"; "GraduationYear"; "CurrentYear"; "PasswordHash"; "CreatedAt"].

(** SELECT ... FROM Admin WHERE Email = $1 *)
Definition select_login (s : Store) (email : string) : list JsObj :=
  map (returning SELECT_login)
    (List.filter (fun a => (Admin.Email a =? email)%string) (tblAdmin s)).

(** The object literal [loginAdmin] returns. *)
Definition login_result (admin : JsObj) : JsObj :=
  list_to_map
    [("AdminID", get admin "AdminID");
     ("StudentID", get admin "StudentID");
     ("Email", get admin "Email");
     ("FullName", get admin "FullName");
     ("Phone", get admin "Phone");
     ("RoleID", get admin "RoleID");
     ("BranchID", get admin "BranchID");
     ("GraduationYear", get admin "GraduationYear");
     ("CurrentYear", get admin "CurrentYear");
     ("CreatedAt", get admin "CreatedAt")].

Definition loginAdmin (env : Env) (email password : string) : M JsObj :=
  try_catch
    (rows <- pool_query (SelLogin email) (fun s => select_login s email) ;;
     match rows with
     | [] =>
         throw (ApiErr (createValidationError INVALID_INPUT
                          "Invalid email or password"))
     | admin :: _ =>
         isPasswordValid <- bcrypt_compare_call env (JStr password)
                              (get admin "PasswordHash") ;;
         throw_if (negb isPasswordValid)
           (ApiErr (createValidationError INVALID_INPUT
                      "Invalid email or password")) ;;;
         ret (login_result admin)
     end)
    (rethrow_api DATABASE_ERROR "Error during login").

(** *** Profile update *)

(** [req.validated] of the update route: the three validated fields are
    strings when present; [oldPassword] is copied from the body as it came. *)
Module UpdateData.
Record t := mk {
  fullName : option string;
  phone : option string;
  password : option string;
  oldPassword : JsVal
}.
End UpdateData.

(** One entry of [updateFields]. *)
Inductive Assign :=
| SetFullName (v : string)
| SetPhone (v : string)
| SetPasswordHash (v : string)
| SetUpdatedAtNow.

Definition assign (env : Env) (a : Admin.row) (f : Assign) : Admin.row :=
  match f with
  | SetFullName v =>
      Admin.mk (Admin.AdminID a) (Admin.StudentID a) v (Admin.Email a)
        (Admin.PasswordHash a) (Admin.Phone a) (Admin.RoleID a)
        (Admin.BranchID a) (Admin.GraduationYear a) (Admin.CurrentYear a)
        (Admin.InvitationCode a) (Admin.CreatedAt a) (Admin.UpdatedAt a)
  | SetPhone v =>
      Admin.mk (Admin.AdminID a) (Admin.StudentID a) (Admin.FullName a)
        (Admin.Email a) (Admin.PasswordHash a) v (Admin.RoleID a)
        (Admin.BranchID a) (Admin.GraduationYear a) (Admin.CurrentYear a)
        (Admin.InvitationCode a) (Admin.CreatedAt a) (Admin.UpdatedAt a)
  | SetPasswordHash v =>
      Admin.mk (Admin.AdminID a) (Admin.StudentID a) (Admin.FullName a)
        (Admin.Email a) v (Admin.Phone a) (Admin.RoleID a)
        (Admin.BranchID a) (Admin.GraduationYear a) (Admin.CurrentYear a)
        (Admin.InvitationCode a) (Admin.CreatedAt a) (Admin.UpdatedAt a)
  | SetUpdatedAtNow =>
      Admin.mk (Admin.AdminID a) (Admin.StudentID a) (Admin.FullName a)
        (Admin.Email a) (Admin.PasswordHash a) (Admin.Phone a)
        (Admin.RoleID a) (Admin.BranchID a) (Admin.GraduationYear a)
        (Admin.CurrentYear a) (Admin.InvitationCode a) (Admin.CreatedAt a)
        (clock env)
  end.

(** [if (x) { updateFields.push(...) }] *)
Definition push_if (x : option string) (mk : string -> Assign)
    (updateFields : list Assign) : list Assign :=
  match x with
  | Some v => if truthy (JStr v) then updateFields ++ [mk v] else updateFields
  | None => updateFields
  end.

(** SELECT AdminID, PasswordHash FROM Admin WHERE AdminID = $1 *)
Definition select_admin_hash (s : Store) (adminID : Z) : list JsObj :=
  map (returning ["AdminID"; "PasswordHash"])
    (List.filter (fun a => Admin.AdminID a =? adminID) (tblAdmin s)).

Definition RETURNING_updated : list string :=
  ["AdminID"; "StudentID"; "FullName"; "Email"; "Phone"; "RoleID";
   "BranchID"; "GraduationYear"; "CurrentYear"; "CreatedAt"; "UpdatedAt"].

Definition apply_set (env : Env) (sets : list Assign) (adminID : Z)
    (a : Admin.row) : Admin.row :=
  if Admin.AdminID a =? adminID then fold_left (assign env) sets a else a.

(** The lookup of [updateAdmin].  The driver rejects the statement when
    the number bound to $1 is outside the integer type of the AdminID
    column; a key found in the table is one the column holds. *)
Definition query_admin_hash (env : Env) (AdminID : Z) : M (list JsObj) :=
  rows <- pool_query (SelAdminHash AdminID)
            (fun s => select_admin_hash s AdminID) ;;
  match rows with
  | [] =>
      if fits (AdminID_type env) AdminID then ret []
      else throw (JsError "value out of range for type integer")
  | _ :: _ => ret rows
  end.

(** UPDATE Admin SET <updateFields> WHERE AdminID = $n RETURNING ... *)
Definition update_admin (env : Env) (sets : list Assign) (adminID : Z)
  : M (list JsObj) :=
  emit (Query (UpdAdmin adminID)) ;;;
  s <- get_db ;;
  put_db (mkStore (map (apply_set env sets adminID) (tblAdmin s))
            (tblInvitationCode s) (tblRole s) (tblBranch s)) ;;;
  ret (map (fun a => returning RETURNING_updated (fold_left (assign env) sets a))
         (List.filter (fun a => Admin.AdminID a =? adminID) (tblAdmin s))).

Definition updateAdmin (env : Env) (AdminID : Z) (updateData : UpdateData.t)
  : M JsObj :=
  let fullName := UpdateData.fullName updateData in
  let phone := UpdateData.phone updateData in
  let password := UpdateData.password updateData in
  let oldPassword := UpdateData.oldPassword updateData in
  try_catch
    (adminResult <- query_admin_hash env AdminID ;;
     match adminResult with
     | [] =>
         throw (ApiErr (createNotFoundError INVALID_INPUT "Admin not found"))
     | admin :: _ =>
         (if truthy (of_opt_string password)
          then
            isOldPasswordValid <- bcrypt_compare_call env oldPassword
                                    (get admin "PasswordHash") ;;
            throw_if (negb isOldPasswordValid)
              (ApiErr (createValidationError INVALID_INPUT
                         "Current password is incorrect"))
          else ret tt) ;;;
         let updateFields := [] in
         let updateFields := push_if fullName SetFullName updateFields in
         let updateFields := push_if phone SetPhone updateFields in
         updateFields <-
           match password with
           | Some p =>
               if truthy (JStr p)
               then
                 newPasswordHash <- hashPassword env p ;;
                 ret (updateFields ++ [SetPasswordHash newPasswordHash])
               else ret updateFields
           | None => ret updateFields
           end ;;
         let updateFields := updateFields ++ [SetUpdatedAtNow] in
         result <- update_admin env updateFields AdminID ;;
         match result with
         | [] =>
             throw (ApiErr (createServerError DATABASE_ERROR
                              "Failed to update admin"))
         | r :: _ => ret r
         end
     end)
    (rethrow_api DATABASE_ERROR "Error updating admin details").

(** *** Onboarding *)

Definition onboardAdmin (env : Env) (validatedData : Candidate.t) : M JsObj :=
  invitationCode <- validateInvitationCode env
                      (Candidate.invitationCode validatedData) ;;
  throw_if
    (negb (Candidate.roleID validatedData
           =? InvitationView.RoleID invitationCode))
    (ApiErr (createValidationError INVALID_ROLE
               ("RoleID must match invitation code (expected: "
                ++ pretty (InvitationView.RoleID invitationCode)
                ++ ")")%string)) ;;;
  studentIDExists <- checkStudentIDExists (Candidate.studentID validatedData) ;;
  throw_if studentIDExists
    (ApiErr (createConflictError DUPLICATE_STUDENT_ID
               "Student ID already exists")) ;;;
  emailExists <- checkEmailExists (Candidate.email validatedData) ;;
  throw_if emailExists
    (ApiErr (createConflictError DUPLICATE_EMAIL
               "Email already registered")) ;;;
  validateRole (Candidate.roleID validatedData) ;;;
  match branch_given (Candidate.branchID validatedData) with
  | Some _ => validateBranch (Candidate.branchID validatedData) ;;; ret tt
  | None => ret tt
  end ;;;
  passwordHash <- hashPassword env (Candidate.password validatedData) ;;
  admin <- createAdminWithTransaction env
             (mkAdminData validatedData passwordHash) invitationCode ;;
  ret admin.

(** ** middleware/validateAdmin.js: the update route *)

(** [req.body] of PUT /admin/:adminId, destructured. *)
Module Body.
Record t := mk {
  fullName : JsVal;
  phone : JsVal;
  password : JsVal;
  oldPassword : JsVal
}.
End Body.

(** utils/validators.js is not among the sources: the three validators the
    update route calls are taken as parameters.  Each returns the validated
    string or throws. *)
Record Validators := mkValidators {
  validateFullName : JsVal -> Exn + string;
  validatePhone : JsVal -> Exn + string;
  validatePassword : JsVal -> Exn + string
}.

(** [if (x !== undefined && x !== null) validated.k = validate(x)] *)
Definition validate_optional (validate : JsVal -> Exn + string) (x : JsVal)
  : Exn + option string :=
  if provided x
  then match validate x with
       | inr v => inr (Some v)
       | inl e => inl e
       end
  else inr None.

(** [Object.keys(validated).length] *)
Definition keys_length (v : UpdateData.t) : Z :=
  (match UpdateData.fullName v with Some _ => 1 | None => 0 end)
  + (match UpdateData.phone v with Some _ => 1 | None => 0 end)
  + (match UpdateData.password v with Some _ => 2 | None => 0 end).

(** The body of the [try] of [validateAdminUpdateInput]. *)
Definition validate_update_body (V : Validators) (body : Body.t)
  : Exn + UpdateData.t :=
  match validate_optional (validateFullName V) (Body.fullName body) with
  | inl e => inl e
  | inr fullName =>
      match validate_optional (validatePhone V) (Body.phone body) with
      | inl e => inl e
      | inr phone =>
          let password_part : Exn + (option string * JsVal) :=
            if provided (Body.password body)
            then
              if negb (truthy (Body.oldPassword body))
              then inl (ApiErr (createValidationError MISSING_FIELD
                                  "Old password is required to set new password"))
              else
                match validatePassword V (Body.password body) with
                | inl e => inl e
                | inr p => inr (Some p, Body.oldPassword body)
                end
            else inr (None, JUndefined)
          in
          match password_part with
          | inl e => inl e
          | inr (password, oldPassword) =>
              let validated :=
                UpdateData.mk fullName phone password oldPassword in
              if keys_length validated =? 0
              then inl (ApiErr (createValidationError INVALID_INPUT
                                  "At least one field (fullName, phone, or password) must be provided"))
              else inr validated
          end
      end
  end.

(** [inl e]: the middleware called [next(e)]; [inr v]: it stored [v] in
    [req.validated] and called [next()]. *)
Definition validateAdminUpdateInput (V : Validators) (body : Body.t)
  : Exn + UpdateData.t :=
  match validate_update_body V body with
  | inr validated => inr validated
  | inl error =>
      if has_statusCode error then inl error
      else inl (ApiErr (createValidationError INVALID_INPUT
                          (exn_message error)))
  end.

(** controllers/adminController.js, [updateAdminHandler], up to the call of
    the service: [id] is [parseInt(adminId, 10)], [None] standing for NaN. *)
Definition updateAdminHandler (env : Env) (id : option Z)
    (validatedData : UpdateData.t) : M JsObj :=
  match id with
  | None =>
      throw (ApiErr (createValidationError INVALID_INPUT "Invalid admin ID"))
  | Some n =>
      if n <=? 0
      then throw (ApiErr (createValidationError INVALID_INPUT
                            "Invalid admin ID"))
      else updateAdmin env n validatedData
  end.

(** The update operation as the route runs it once the request is
    authenticated: input validation, then the handler. *)
Definition update_route (V : Validators) (env : Env) (id : option Z)
    (body : Body.t) : M JsObj :=
  match validateAdminUpdateInput V body with
  | inl e => throw e
  | inr validated => updateAdminHandler env id validated
  end.

(** ** utils/jwt.js *)

Module Jwt.
(** The decoded payload of a token issued by [generateJWT]. *)
Record claims := mkClaims {
  adminID : JsVal;
  studentID : JsVal;
  email : JsVal;
  roleID : JsVal;
  fullName : JsVal;
  iss : string;
  aud : string;
  sub : string;
  exp : Z
}.

(** A token string: not a JWT at all, or claims signed with some
    secret. *)
Inductive token :=
| Malformed
| Signed (secret : string) (c : claims).

(** Modelled from the spec: the jsonwebtoken library is not among the
    sources.  Its [verify] is modelled by the checks the spec names:
    the signature, the expiry (in seconds, against the clock in
    milliseconds), the audience and the issuer; [inl msg] is a thrown
    error with message [msg]. *)
Definition verify (t : token) (secret : string) (now : Z)
    (issuer audience : string) : string + claims :=
  match t with
  | Malformed => inl "jwt malformed"
  | Signed k c =>
      if negb (k =? secret)%string then inl "invalid signature"
      else if exp c <=? now / 1000 then inl "jwt expired"
      else if negb (aud c =? audience)%string
           then inl ("jwt audience invalid. expected: " ++ audience)%string
      else if negb (iss c =? issuer)%string
           then inl ("jwt issuer invalid. expected: " ++ issuer)%string
      else inr c
  end.
End Jwt.

(** [JWT_SECRET] is [process.env.JWT_SECRET]. *)
Definition verifyJWT (JWT_SECRET : option string) (now : Z) (token : Jwt.token)
  : Exn + Jwt.claims :=
  if negb (truthy (of_opt_string JWT_SECRET))
  then inl (ApiErr (createServerError INTERNAL_ERROR
                      "JWT_SECRET not configured"))
  else
    match Jwt.verify token (default EmptyString JWT_SECRET) now
            "gfg-event-management" "admin-api" with
    | inr decoded => inr decoded
    | inl error_message =>
        inl (ApiErr (createServerError INTERNAL_ERROR
                       ("JWT verification failed: " ++ error_message)%string))
    end.


(** ** Vocabulary of the properties *)

(** The world after the external calls [evs] were issued and nothing else
    changed. *)
Definition logged (w : World) (evs : list Event) : World :=
  mkWorld (db w) (tx w) (trace w ++ evs).

Ltac unfold_monad :=
  unfold pool_query, rethrow_api, throw_if, try_catch, finally, bind, ret,
    throw, emit, get_db, put_db, get_client, put_client in *.

Inductive Verdict := not_found | inactive | already_used | expired | eligible.

(** What the result of [validateInvitationCode] tells its caller. *)
Definition reports (r : Exn + InvitationView.row) (v : Verdict) : Prop :=
  match v with
  | not_found =>
      exists e, r = inl (ApiErr e) /\ errorCode e = INVALID_INVITATION_CODE
  | inactive =>
      exists e, r = inl (ApiErr e) /\ errorCode e = INVITATION_CODE_INACTIVE
  | already_used =>
      exists e, r = inl (ApiErr e)
                /\ errorCode e = INVITATION_CODE_ALREADY_USED
  | expired =>
      exists e, r = inl (ApiErr e) /\ errorCode e = INVITATION_CODE_EXPIRED
  | eligible => exists ic, r = inr ic
  end.

(** The ledger check read as a function of the tables. *)
Definition invitation_result (env : Env) (s : Store) (code : string)
  : Exn + InvitationView.row :=
  fst (validateInvitationCode env code (mkWorld s None [])).

(** The external calls of an onboarding that reaches the atomic write, in
    the order they are issued. *)
Definition branch_events (v : Candidate.t) : list Event :=
  match branch_given (Candidate.branchID v) with
  | Some b => [Query (SelBranch b)]
  | None => []
  end.

Definition read_events (v : Candidate.t) : list Event :=
  [Query (SelInvitationCode (Candidate.invitationCode v));
   Query (SelAdminByStudentID (Candidate.studentID v));
   Query (SelAdminByEmail (Candidate.email v));
   Query (SelRole (Candidate.roleID v))]
  ++ branch_events v.

(** A field of a patch that is supplied and non-empty. *)
Definition supplied (x : option string) : option string :=
  match x with
  | Some v => if truthy (JStr v) then Some v else None
  | None => None
  end.

(** The profile-update rule in the words of the specification: only the
    supplied, non-empty fields change ([newHash] is the digest of the
    supplied password), the update timestamp is refreshed, every other
    field is kept. *)
Definition patched (env : Env) (d : UpdateData.t) (newHash : option string)
    (a : Admin.row) : Admin.row :=
  Admin.mk (Admin.AdminID a) (Admin.StudentID a)
    (default (Admin.FullName a) (supplied (UpdateData.fullName d)))
    (Admin.Email a)
    (default (Admin.PasswordHash a) newHash)
    (default (Admin.Phone a) (supplied (UpdateData.phone d)))
    (Admin.RoleID a) (Admin.BranchID a) (Admin.GraduationYear a)
    (Admin.CurrentYear a) (Admin.InvitationCode a) (Admin.CreatedAt a)
    (clock env).

Definition patched_where (env : Env) (id : Z) (d : UpdateData.t)
    (newHash : option string) (a : Admin.row) : Admin.row :=
  if Admin.AdminID a =? id then patched env d newHash a else a.

(** The digest staged by an update: that of the supplied password. *)
Definition staged_hash (env : Env) (d : UpdateData.t) : option string :=
  match supplied (UpdateData.password d) with
  | Some p => bcrypt_hash env p SALT_ROUNDS
  | None => None
  end.

(** The world after a profile update wrote [newHash] and the supplied
    fields of [d] into the rows of admin [id]. *)
Definition updated_world (env : Env) (id : Z) (d : UpdateData.t)
    (newHash : option string) (w : World) (evs : list Event) : World :=
  mkWorld
    (mkStore (map (patched_where env id d newHash) (tblAdmin (db w)))
       (tblInvitationCode (db w)) (tblRole (db w)) (tblBranch (db w)))
    (tx w) (trace w ++ evs).

(** What a profile update may do to a row [a] of the Admin table, [a']
    being the row after it: the rows of other admins are kept; in the rows
    of admin [id] the name, the phone and the password hash change only
    when supplied and non-empty, the update timestamp is refreshed, and no
    other column changes. *)
Definition update_frame (env : Env) (id : Z) (d : UpdateData.t)
    (newHash : option string) (a a' : Admin.row) : Prop :=
  Admin.AdminID a' = Admin.AdminID a
  /\ Admin.StudentID a' = Admin.StudentID a
  /\ Admin.Email a' = Admin.Email a
  /\ Admin.RoleID a' = Admin.RoleID a
  /\ Admin.BranchID a' = Admin.BranchID a
  /\ Admin.GraduationYear a' = Admin.GraduationYear a
  /\ Admin.CurrentYear a' = Admin.CurrentYear a
  /\ Admin.InvitationCode a' = Admin.InvitationCode a
  /\ Admin.CreatedAt a' = Admin.CreatedAt a
  /\ if Admin.AdminID a =? id
     then
       Admin.FullName a'
       = default (Admin.FullName a) (supplied (UpdateData.fullName d))
       /\ Admin.Phone a'
          = default (Admin.Phone a) (supplied (UpdateData.phone d))
       /\ Admin.PasswordHash a' = default (Admin.PasswordHash a) newHash
       /\ Admin.UpdatedAt a' = clock env
     else a' = a.

(** ** Validators for concrete runs *)

Module SpecValidators.
Definition is_digit (c : Ascii.ascii) : bool :=
  let n := Z.of_nat (Ascii.nat_of_ascii c) in (48 <=? n) && (n <=? 57).
Definition is_upper (c : Ascii.ascii) : bool :=
  let n := Z.of_nat (Ascii.nat_of_ascii c) in (65 <=? n) && (n <=? 90).
Definition is_lower (c : Ascii.ascii) : bool :=
  let n := Z.of_nat (Ascii.nat_of_ascii c) in (97 <=? n) && (n <=? 122).

Fixpoint all_chars (p : Ascii.ascii -> bool) (s : string) : bool :=
  match s with
  | EmptyString => true
  | String c r => p c && all_chars p r
  end.

Fixpoint some_char (p : Ascii.ascii -> bool) (s : string) : bool :=
  match s with
  | EmptyString => false
  | String c r => p c || some_char p r
  end.

(** REGEX_PATTERNS.PHONE of constants/errorCodes.js: an optional plus
    sign, a digit from 1 to 9, then 1 to 14 digits. *)
Definition matches_PHONE (s : string) : bool :=
  let s' := match s with
            | String "+"%char r => r
            | _ => s
            end in
  match s' with
  | String c r =>
      is_digit c && negb (Ascii.eqb c "0"%char) && all_chars is_digit r
      && (1 <=? Z.of_nat (String.length r))
      && (Z.of_nat (String.length r) <=? 14)
  | EmptyString => false
  end.

(** PASSWORD_RULES of constants/errorCodes.js: minimum length 8, an
    uppercase letter, a lowercase letter, a digit and a special character. *)
Definition meets_PASSWORD_RULES (s : string) : bool :=
  (8 <=? Z.of_nat (String.length s))
  && some_char is_upper s && some_char is_lower s && some_char is_digit s
  && some_char (fun c => negb (is_upper c || is_lower c || is_digit c)) s.

(** Modelled from the spec: utils/validators.js is not among the sources.
    The validation layer enforces a phone in international-dialing format;
    a violation is answered with the error code and message the table of
    constants/errorCodes.js reserves for the field. *)
Definition validatePhone (v : JsVal) : Exn + string :=
  match v with
  | JStr s =>
      if matches_PHONE s then inr s
      else inl (ApiErr (createValidationError INVALID_PHONE
                          "Invalid phone number format"))
  | _ => inl (ApiErr (createValidationError INVALID_PHONE
                        "Invalid phone number format"))
  end.

(** Modelled from the spec: utils/validators.js is not among the sources.
    The validation layer enforces a password composed of lowercase,
    uppercase, digit and special characters with a minimum length. *)
Definition validatePassword (v : JsVal) : Exn + string :=
  match v with
  | JStr s =>
      if meets_PASSWORD_RULES s then inr s
      else inl (ApiErr (createValidationError INVALID_PASSWORD
                          "Password does not meet security requirements"))
  | _ => inl (ApiErr (createValidationError INVALID_PASSWORD
                        "Password does not meet security requirements"))
  end.

(** Modelled from the spec: utils/validators.js is not among the sources.
    The validation layer enforces the presence of the field: a name is a
    non-empty string. *)
Definition validateFullName (v : JsVal) : Exn + string :=
  match v with
  | JStr s =>
      if truthy (JStr s) then inr s
      else inl (ApiErr (createValidationError INVALID_INPUT
                          "Invalid input provided"))
  | _ => inl (ApiErr (createValidationError INVALID_INPUT
                        "Invalid input provided"))
  end.

Definition validators : Validators :=
  mkValidators validateFullName validatePhone validatePassword.
End SpecValidators.

(** ** A concrete deployment for runs of the code *)

Module Sample.
(** A stand-in for the bcrypt primitive: the digest is the plaintext
    behind a fixed prefix. *)
Definition toy_hash (p : string) (rounds : Z) : option string :=
  Some ("$2b$12$" ++ p)%string.
Definition toy_compare (d h : string) : bool :=
  (("$2b$12$" ++ d) =? h)%string.

Definition no_fault (st : Stmt) : option string := None.

Definition env : Env :=
  mkEnv 1700000000000 toy_hash toy_compare 2
    (fun graduationYear now => 3) no_fault int4.

(** The driver loses the connection at COMMIT. *)
Definition env_commit_fails : Env :=
  mkEnv 1700000000000 toy_hash toy_compare 2
    (fun graduationYear now => 3)
    (fun st => match st with
               | COMMIT => Some "Connection terminated unexpectedly"
               | _ => None
               end)
    int4.


(** The pool hands out no client. *)
Definition env_no_client : Env :=
  mkEnv 1700000000000 toy_hash toy_compare 2
    (fun graduationYear now => 3)
    (fun st => match st with
               | CONNECT => Some "timeout exceeded when trying to connect"
               | _ => None
               end)
    int4.

(** The deployment with a bigint AdminID column. *)
Definition env_bigint : Env :=
  mkEnv 1700000000000 toy_hash toy_compare 2
    (fun graduationYear now => 3) no_fault int8.

(** An admin key that passes the checks of the update handler and that
    no integer column holds. *)
Definition huge_id : Z := 100000000000000000000.

Definition roles : list Role.row :=
  [Role.mk 1 "Super Admin" 10; Role.mk 2 "Event Manager" 5].
Definition branches : list Branch.row := [Branch.mk 1 "CSE"].

Definition alice : Admin.row :=
  Admin.mk 1 "CS2023007" "Alice Roe" "alice@example.com"
    "$2b$12$SecurePass@123" "+919876500000" 2 (Some 1) 2025 4
    "INVITE2023XYZ" 1600000000000 1600000000000.

Definition invite : InvitationCode.row :=
  InvitationCode.mk 7 "INVITE2024ABC" 1 true false None None
    1650000000000.
(** Inactive, used and expired at once. *)
Definition spent : InvitationCode.row :=
  InvitationCode.mk 8 "INVITE2022OLD" 2 false true (Some 1640000000000)
    (Some 1) 1650000000000.

Definition store : Store :=
  mkStore [alice] [invite; spent] roles branches.
Definition world : World := mkWorld store None [].

Definition john : Candidate.t :=
  Candidate.mk "CS2024001" "John Doe" "john@example.com" "SecurePass@123"
    "+919876543210" 1 2026 "INVITE2024ABC" (Some 1).

(** John asking for role 2 with a code bound to role 1. *)
Definition john_as_manager : Candidate.t :=
  Candidate.mk "CS2024001" "John Doe" "john@example.com" "SecurePass@123"
    "+919876543210" 2 2026 "INVITE2024ABC" (Some 1).

(** Alice's student identifier and email, with the fresh code. *)
Definition alice_again : Candidate.t :=
  Candidate.mk "CS2023007" "Alice Roe" "alice@example.com"
    "SecurePass@123" "+919876500000" 1 2025 "INVITE2024ABC" None.


(** The row John's onboarding inserts. *)
Definition john_row : Admin.row :=
  new_admin_row env (mkAdminData john "$2b$12$SecurePass@123").

Definition rename : UpdateData.t :=
  UpdateData.mk (Some "Alice R. Roe") None None JUndefined.

(** Alice's row after [rename]. *)
Definition alice_renamed : Admin.row :=
  Admin.mk 1 "CS2023007" "Alice R. Roe" "alice@example.com"
    "$2b$12$SecurePass@123" "+919876500000" 2 (Some 1) 2025 4
    "INVITE2023XYZ" 1600000000000 1700000000000.

Definition change_password : UpdateData.t :=
  UpdateData.mk None (Some "+14155552671") (Some "NewSecure@Pass789")
    (JStr "SecurePass@123").

(** Alice's row after [change_password]. *)
Definition alice_changed : Admin.row :=
  Admin.mk 1 "CS2023007" "Alice Roe" "alice@example.com"
    "$2b$12$NewSecure@Pass789" "+14155552671" 2 (Some 1) 2025 4
    "INVITE2023XYZ" 1600000000000 1700000000000.

(** A new password without the old one, and a malformed phone. *)
Definition body_bad_phone : Body.t :=
  Body.mk JUndefined (JStr "abc") (JStr "NewSecure@Pass789") JUndefined.

(** A new password without the old one, nothing else. *)
Definition body_password_only : Body.t :=
  Body.mk JUndefined JUndefined (JStr "NewSecure@Pass789") JUndefined.

Definition alice_claims : Jwt.claims :=
  Jwt.mkClaims (JNum 1) (JStr "CS2023007") (JStr "alice@example.com")
    (JNum 2) (JStr "Alice Roe") "gfg-event-management" "admin-api"
    "admin-1" 1700086400.

Definition good_token : Jwt.token := Jwt.Signed "s3cret" alice_claims.
Definition forged_token : Jwt.token := Jwt.Signed "guess" alice_claims.
End Sample.


(** * The rest of the cited files: token issuing, handlers, middleware *)

(** ** The runtime and the libraries, taken from outside *)

(** [timespan] is the reading jsonwebtoken gives to an [expiresIn] string,
    in seconds ([None]: the string is no time span and [sign] throws);
    [date_toString] is [String(new Date(ms))]; [toISOString] is
    [new Date(ms).toISOString()]. *)
Record Runtime := mkRuntime {
  timespan : string -> option Z;
  date_toString : Z -> string;
  toISOString : Z -> string
}.

(** [process.env] *)
Record ProcessEnv := mkProcessEnv {
  JWT_SECRET : option string;
  JWT_EXPIRY : option string;
  NODE_ENV : option string
}.

(** A value inside a template literal. *)
Definition template (rt : Runtime) (v : JsVal) : string :=
  match v with
  | JUndefined => "undefined"
  | JNull => "null"
  | JBool true => "true"
  | JBool false => "false"
  | JNum z => pretty z
  | JStr s => s
  | JDate ms => date_toString rt ms
  end.

(** [x || d] for an environment variable. *)
Definition env_or (x : option string) (d : string) : string :=
  match x with
  | Some s => if truthy (JStr s) then s else d
  | None => d
  end.

(** ** utils/jwt.js: issuing *)

(** Modelled from the spec: the jsonwebtoken library is not among the
    sources.  Its [sign] embeds the payload, the issuer, the audience and
    the subject, and an expiry that lies the given time span after the
    moment of signing, in seconds; [inl msg] is a thrown error. *)
Definition jwt_sign (rt : Runtime)
    (adminID studentID email roleID fullName : JsVal) (secret : string)
    (now : Z) (expiresIn issuer audience subject : string)
  : string + Jwt.token :=
  match timespan rt expiresIn with
  | Some span =>
      inr (Jwt.Signed secret
             (Jwt.mkClaims adminID studentID email roleID fullName
                issuer audience subject (now / 1000 + span)))
  | None => inl "expiresIn should be a number of seconds or string representing a timespan"
  end.

(** Modelled from the spec: jsonwebtoken's [decode] reads the payload
    without checking anything; it answers [null] for a string that is no
    token. *)
Definition jwt_decode (t : Jwt.token) : option Jwt.claims :=
  match t with
  | Jwt.Signed _ c => Some c
  | Jwt.Malformed => None
  end.

Definition generateJWT (rt : Runtime) (penv : ProcessEnv) (now : Z)
    (adminData : JsObj) : Exn + Jwt.token :=
  let JWT_EXPIRY := env_or (JWT_EXPIRY penv) "24h" in
  if negb (truthy (of_opt_string (JWT_SECRET penv)))
  then inl (ApiErr (createServerError INTERNAL_ERROR
                      "JWT_SECRET not configured in environment variables"))
  else
    match jwt_sign rt
            (get adminData "AdminID") (get adminData "StudentID")
            (get adminData "Email") (get adminData "RoleID")
            (get adminData "FullName")
            (default EmptyString (JWT_SECRET penv)) now JWT_EXPIRY
            "gfg-event-management" "admin-api"
            ("admin-" ++ template rt (get adminData "AdminID"))%string with
    | inr token => inr token
    | inl _ =>
        inl (ApiErr (createServerError INTERNAL_ERROR
                       "Error generating JWT token"))
    end.

Module TokenResponse.
Record t := mk {
  token : Jwt.token;
  type : string;
  expiresAt : string
}.
End TokenResponse.

(** [decoded.exp] of a [null] is a TypeError. *)
Definition createTokenResponse (rt : Runtime) (token : Jwt.token)
    (type : string) : Exn + TokenResponse.t :=
  match jwt_decode token with
  | Some decoded =>
      inr (TokenResponse.mk token type
             (toISOString rt (Jwt.exp decoded * 1000)))
  | None => inl (JsError "Cannot read properties of null (reading 'exp')")
  end.

(** ** controllers/adminController.js *)

(** What [res.status(s).json(...)] sends on success. *)
Record Response := mkResponse {
  res_status : Z;
  res_success : bool;
  res_message : string;
  res_admin : JsObj;
  res_token : option TokenResponse.t
}.

(** The [admin] object of the responses of onboarding and login. *)
Definition admin_json (admin : JsObj) : JsObj :=
  list_to_map
    [("adminID", get admin "AdminID");
     ("studentID", get admin "StudentID");
     ("fullName", get admin "FullName");
     ("email", get admin "Email");
     ("phone", get admin "Phone");
     ("roleID", get admin "RoleID");
     ("branchID", get admin "BranchID");
     ("graduationYear", get admin "GraduationYear");
     ("currentYear", get admin "CurrentYear");
     ("createdAt", get admin "CreatedAt")].
Arguments admin_json : simpl never.

(** The [admin] object of the response of the update. *)
Definition admin_json_updated (admin : JsObj) : JsObj :=
  list_to_map
    [("adminID", get admin "AdminID");
     ("studentID", get admin "StudentID");
     ("fullName", get admin "FullName");
     ("email", get admin "Email");
     ("phone", get admin "Phone");
     ("roleID", get admin "RoleID");
     ("branchID", get admin "BranchID");
     ("graduationYear", get admin "GraduationYear");
     ("currentYear", get admin "CurrentYear");
     ("createdAt", get admin "CreatedAt");
     ("updatedAt", get admin "UpdatedAt")].
Arguments admin_json_updated : simpl never.

(** A synchronous call inside an asynchronous function. *)
Definition sync {A} (r : Exn + A) : M A :=
  match r with
  | inr a => ret a
  | inl e => throw e
  end.

(** [inl e] is [next(e)]. *)
Definition onboardAdminHandler (rt : Runtime) (penv : ProcessEnv) (env : Env)
    (validatedData : Candidate.t) : M Response :=
  admin <- onboardAdmin env validatedData ;;
  jwtToken <- sync (generateJWT rt penv (clock env) admin) ;;
  tokenResponse <- sync (createTokenResponse rt jwtToken "Bearer") ;;
  ret (mkResponse 201 true "Admin onboarded successfully"
         (admin_json admin) (Some tokenResponse)).

(** [req.validated] of the login route. *)
Module LoginData.
Record t := mk {
  email : string;
  password : string
}.
End LoginData.

Definition loginAdminHandler (rt : Runtime) (penv : ProcessEnv) (env : Env)
    (validatedData : LoginData.t) : M Response :=
  admin <- loginAdmin env (LoginData.email validatedData)
             (LoginData.password validatedData) ;;
  jwtToken <- sync (generateJWT rt penv (clock env) admin) ;;
  tokenResponse <- sync (createTokenResponse rt jwtToken "Bearer") ;;
  ret (mkResponse 200 true "Login successful"
         (admin_json admin) (Some tokenResponse)).

(** [updateAdminHandler] to its end: the response built from the result of
    the service. *)
Definition updateAdminHandler_json (env : Env) (id : option Z)
    (validatedData : UpdateData.t) : M Response :=
  admin <- updateAdminHandler env id validatedData ;;
  ret (mkResponse 200 true "Admin details updated successfully"
         (admin_json_updated admin) None).

(** ** middleware/validateAdmin.js: the other middlewares *)

(** [req.body]: an object, or a value that is none (arrays are not
    modelled). *)
Inductive ReqBody :=
| BodyObject (o : JsObj)
| BodyValue (v : JsVal).

(** [!req.body] *)
Definition body_falsy (b : ReqBody) : bool :=
  match b with
  | BodyObject _ => false
  | BodyValue v => negb (truthy v)
  end.

(** [typeof req.body !== 'object'] *)
Definition body_not_object (b : ReqBody) : bool :=
  match b with
  | BodyObject _ => false
  | BodyValue JNull => false
  | BodyValue (JDate _) => false
  | BodyValue _ => true
  end.

(** [Object.keys(req.body).length] *)
Definition body_keys_length (b : ReqBody) : Z :=
  match b with
  | BodyObject o => Z.of_nat (size o)
  | BodyValue _ => 0
  end.

(** [inr tt] is [next()], [inl e] is [next(e)]. *)
Definition sanitizeAdminInput (b : ReqBody) : Exn + unit :=
  if body_falsy b || body_not_object b
  then inl (ApiErr (createValidationError INVALID_INPUT
                      "Request body must be a valid JSON object"))
  else if body_keys_length b =? 0
  then inl (ApiErr (createValidationError MISSING_FIELD
                      "Request body cannot be empty"))
  else inr tt.

(** [const { fullName, phone, password, oldPassword } = req.body] for an
    object. *)
Definition update_body (o : JsObj) : Body.t :=
  Body.mk (get o "fullName") (get o "phone") (get o "password")
    (get o "oldPassword").

(** [catch (error)] of the validating middlewares. *)
Definition next_error {A} (error : Exn) : Exn + A :=
  if has_statusCode error then inl error
  else inl (ApiErr (createValidationError INVALID_INPUT (exn_message error))).

(** [req.body] of the login route, destructured. *)
Module LoginBody.
Record t := mk {
  email : JsVal;
  password : JsVal
}.
End LoginBody.

(** [typeof x !== 'string'] *)
Definition not_string (v : JsVal) : bool :=
  match v with
  | JStr _ => false
  | _ => true
  end.

(** [x.length] of a string. *)
Definition js_length (v : JsVal) : Z :=
  match v with
  | JStr s => Z.of_nat (String.length s)
  | _ => 0
  end.

(** The body of the [try] of [validateAdminLoginInput]; [validateEmail] of
    utils/validators.js is not among the sources and is a parameter. *)
Definition validate_login_body (validateEmail : JsVal -> Exn + string)
    (body : LoginBody.t) : Exn + LoginData.t :=
  match validateEmail (LoginBody.email body) with
  | inl e => inl e
  | inr validatedEmail =>
      let password := LoginBody.password body in
      if negb (truthy password) || not_string password
      then inl (ApiErr (createValidationError MISSING_FIELD
                          "Password is required"))
      else if js_length password =? 0
      then inl (ApiErr (createValidationError MISSING_FIELD
                          "Password cannot be empty"))
      else
        match password with
        | JStr p => inr (LoginData.mk validatedEmail p)
        | _ => inr (LoginData.mk validatedEmail EmptyString)
        end
  end.

Definition validateAdminLoginInput (validateEmail : JsVal -> Exn + string)
    (body : LoginBody.t) : Exn + LoginData.t :=
  match validate_login_body validateEmail body with
  | inr validated => inr validated
  | inl error => next_error error
  end.

(** [req.body] of the onboarding route, destructured. *)
Module OnboardBody.
Record t := mk {
  studentID : JsVal;
  fullName : JsVal;
  email : JsVal;
  password : JsVal;
  phone : JsVal;
  roleID : JsVal;
  branchID : JsVal;
  graduationYear : JsVal;
  invitationCode : JsVal
}.
End OnboardBody.

(** The validators of utils/validators.js the onboarding route calls, as
    parameters: each returns the validated value or throws. *)
Module Onboarding.
Record validators := mk {
  validateStudentID : JsVal -> Exn + string;
  validateFullName : JsVal -> Exn + string;
  validateEmail : JsVal -> Exn + string;
  validatePassword : JsVal -> Exn + string;
  validatePhone : JsVal -> Exn + string;
  validatePositiveInteger : JsVal -> string -> Exn + Z;
  validateGraduationYear : JsVal -> Exn + Z;
  validateInvitationCodeFormat : JsVal -> Exn + string
}.
End Onboarding.

(** [r] then [k], an exception of [r] ending the [try]. *)
Definition and_then {A B} (r : Exn + A) (k : A -> Exn + B) : Exn + B :=
  match r with
  | inr a => k a
  | inl e => inl e
  end.

(** The body of the [try] of [validateAdminOnboardingInput]. *)
Definition validate_onboarding_body (V : Onboarding.validators)
    (body : OnboardBody.t) : Exn + Candidate.t :=
  and_then (Onboarding.validateStudentID V (OnboardBody.studentID body))
    (fun studentID =>
  and_then (Onboarding.validateFullName V (OnboardBody.fullName body))
    (fun fullName =>
  and_then (Onboarding.validateEmail V (OnboardBody.email body))
    (fun email =>
  and_then (Onboarding.validatePassword V (OnboardBody.password body))
    (fun password =>
  and_then (Onboarding.validatePhone V (OnboardBody.phone body))
    (fun phone =>
  and_then (Onboarding.validatePositiveInteger V (OnboardBody.roleID body)
              "RoleID")
    (fun roleID =>
  and_then (Onboarding.validateGraduationYear V
              (OnboardBody.graduationYear body))
    (fun graduationYear =>
  and_then (Onboarding.validateInvitationCodeFormat V
              (OnboardBody.invitationCode body))
    (fun invitationCode =>
  and_then
    (if provided (OnboardBody.branchID body)
     then and_then (Onboarding.validatePositiveInteger V
                      (OnboardBody.branchID body) "BranchID")
            (fun b => inr (Some b))
     else inr None)
    (fun branchID =>
  inr (Candidate.mk studentID fullName email password phone roleID
         graduationYear invitationCode branchID)))))))))).

Definition validateAdminOnboardingInput (V : Onboarding.validators)
    (body : OnboardBody.t) : Exn + Candidate.t :=
  match validate_onboarding_body V body with
  | inr validated => inr validated
  | inl error => next_error error
  end.

(** ** The error middleware *)

(** What the error middleware looks at in the value it is given:
    [err instanceof APIError] (and then the error itself), [err.code],
    [err instanceof SyntaxError], [err.status], ['body' in err],
    [err.message]. *)
Record Thrown := mkThrown {
  as_APIError : option APIError;
  err_code : JsVal;
  is_SyntaxError : bool;
  err_status : JsVal;
  has_body : bool;
  err_message : string
}.

(** The values the service layer throws, as the middleware sees them.  An
    error of the driver that reaches the middleware is that of a refused
    client or of a rejected ROLLBACK: its [code], if it has one, is not the
    SQLSTATE of a constraint violation. *)
Definition thrown_of (e : Exn) : Thrown :=
  match e with
  | ApiErr a => mkThrown (Some a) JUndefined false JUndefined false (message a)
  | JsError m => mkThrown None JUndefined false JUndefined false m
  | Foreign _ m => mkThrown None JUndefined false JUndefined false m
  end.

(** The [details] property of an error response. *)
Inductive Details :=
| DetailsNull
| PostgresCode (code : JsVal)
| OriginalError (message : string).

(** [res.status(s).json(err.toResponse())]: [success] is [false]; the
    [timestamp] is not carried. *)
Record ErrorResponse := mkErrorResponse {
  er_status : Z;
  er_code : string;
  er_message : string;
  er_details : Details
}.

(** [x === s] for a string literal [s]. *)
Definition strict_eq_string (x : JsVal) (s : string) : bool :=
  match x with
  | JStr t => (t =? s)%string
  | _ => false
  end.

(** [x === n] for a number literal [n]. *)
Definition strict_eq_num (x : JsVal) (n : Z) : bool :=
  match x with
  | JNum z => z =? n
  | _ => false
  end.

Definition globalErrorHandler (penv : ProcessEnv) (err : Thrown)
  : ErrorResponse :=
  match as_APIError err with
  | Some a =>
      mkErrorResponse (statusCode a) (errorCode a) (message a) DetailsNull
  | None =>
      if strict_eq_string (err_code err) "23505"
      then mkErrorResponse 409 DATABASE_ERROR
             "Resource already exists (duplicate entry)"
             (PostgresCode (err_code err))
      else if strict_eq_string (err_code err) "23503"
      then mkErrorResponse 400 DATABASE_ERROR
             "Invalid reference to related resource"
             (PostgresCode (err_code err))
      else if is_SyntaxError err && strict_eq_num (err_status err) 400
              && has_body err
      then mkErrorResponse 400 INVALID_INPUT "Invalid JSON in request body"
             DetailsNull
      else mkErrorResponse 500 INTERNAL_ERROR "Internal server error"
             (if strict_eq_string (of_opt_string (NODE_ENV penv))
                   "development"
              then OriginalError (err_message err)
              else DetailsNull)
  end.

(** ** constants/errorCodes.js: the message table *)

Definition ERROR_MESSAGES : list (string * string) :=
  [(INVALID_INPUT, "Invalid input provided");
   (MISSING_FIELD, "Required field is missing");
   (INVALID_EMAIL, "Invalid email format");
   (INVALID_PASSWORD, "Password does not meet security requirements");
   (INVALID_GRADUATION_YEAR, "Graduation year must be between 2020 and 2035");
   (INVALID_PHONE, "Invalid phone number format");
   (UNAUTHORIZED, "Unauthorized - Missing or invalid authentication");
   (FORBIDDEN,
    "Forbidden - You do not have permission to access this resource");
   (DUPLICATE_STUDENT_ID, "Student ID already exists");
   (DUPLICATE_EMAIL, "Email already registered");
   (INVALID_ROLE, "Invalid Role ID");
   (INVALID_BRANCH, "Invalid Branch ID");
   (INVALID_INVITATION_CODE, "Invitation code does not exist");
   (INVITATION_CODE_INACTIVE, "Invitation code is inactive");
   (INVITATION_CODE_EXPIRED, "Invitation code has expired");
   (INVITATION_CODE_ALREADY_USED, "Invitation code has already been used");
   (DATABASE_ERROR, "Database error occurred");
   (TRANSACTION_FAILED, "Transaction could not be completed");
   (INTERNAL_ERROR, "Internal server error")].

(** [ERROR_MESSAGES[code]] *)
Fixpoint assoc (k : string) (l : list (string * string)) : option string :=
  match l with
  | [] => None
  | (k', v) :: l' => if (k' =? k)%string then Some v else assoc k l'
  end.

(** ** Vocabulary of the further properties *)

(** No two rows of the Admin table share the numeric key, the student
    identifier or the email. *)
Definition unique_admins (s : Store) : Prop :=
  NoDup (map Admin.AdminID (tblAdmin s))
  /\ NoDup (map Admin.StudentID (tblAdmin s))
  /\ NoDup (map Admin.Email (tblAdmin s)).

(** The tables after the atomic creation committed row [a] and consumed
    the code [codeID]. *)
Definition committed (env : Env) (a : Admin.row) (codeID : Z) (s : Store)
  : Store :=
  mkStore (tblAdmin s ++ [a])
    (map (mark_used_where env (Some (Admin.AdminID a)) codeID)
       (tblInvitationCode s))
    (tblRole s) (tblBranch s).

(** A row of the ledger join after the code [codeID] was consumed. *)
Definition view_used (codeID : Z) (ic : InvitationView.row)
  : InvitationView.row :=
  if InvitationView.CodeID ic =? codeID
  then InvitationView.mk (InvitationView.CodeID ic) (InvitationView.Code ic)
         (InvitationView.RoleID ic) (InvitationView.IsActive ic) true
         (InvitationView.ExpiresAt ic) (InvitationView.RoleName ic)
  else ic.

(** The statuses the service layer answers with. *)
Definition service_statuses : list Z := [400; 404; 409; 500].

(** A failure of the service layer and the answer the error middleware
    gives to it: the error's own status, code and message. *)
Definition answered_in_kind (penv : ProcessEnv) (e : Exn) : Prop :=
  exists a,
    e = ApiErr a
    /\ In (statusCode a) service_statuses
    /\ globalErrorHandler penv (thrown_of e)
       = mkErrorResponse (statusCode a) (errorCode a) (message a) DetailsNull.

(** [err] with another [message]. *)
Definition with_message (m : string) (err : Thrown) : Thrown :=
  mkThrown (as_APIError err) (err_code err) (is_SyntaxError err)
    (err_status err) (has_body err) m.

(** ** A concrete process for runs of the handlers *)

Module Deployment.
(** Stand-ins for the library's time spans and the runtime's date
    formats. *)
Definition runtime : Runtime :=
  mkRuntime
    (fun s => if (s =? "24h")%string then Some 86400
              else if (s =? "1h")%string then Some 3600
              else None)
    (fun ms => ("Date(" ++ pretty ms ++ ")")%string)
    (fun ms => ("ISO(" ++ pretty ms ++ ")")%string).

Definition penv : ProcessEnv :=
  mkProcessEnv (Some "s3cret") None (Some "production").

(** The process started without JWT_SECRET. *)
Definition penv_no_secret : ProcessEnv :=
  mkProcessEnv None None (Some "production").

(** A driver error the service layer did not wrap. *)
Definition connection_lost : Thrown :=
  mkThrown None (JStr "ECONNRESET") false JUndefined false
    "read ECONNRESET 10.0.0.5:5432".

(** A request to change the password with a number as the old one. *)
Definition body_numeric_old : Body.t :=
  Body.mk JUndefined JUndefined (JStr "NewSecure@Pass789") (JNum 123).
End Deployment.

Module Replay.
(** The ledger row of the sample code that admin 1 has already used, as a
    caller holding a stale read would pass it to the atomic creation. *)
Definition stale_row : InvitationView.row :=
  InvitationView.mk 8 "INVITE2022OLD" 2 true false (Some 1640000000000)
    "Event Manager".

Definition john_data : AdminData :=
  mkAdminData Sample.john "$2b$12$SecurePass@123".
End Replay.

(** [res.data.admin.updatedAt] of a handler's outcome. *)
Definition res_admin_updatedAt_of (r : Exn + Response) : option JsVal :=
  match r with
  | inr res => res_admin res !! "updatedAt"
  | inl _ => None
  end.
(** * Properties *)

Lemma logged_nil w : logged w [] = w.
Proof. destruct w; unfold logged; simpl. by rewrite app_nil_r. Qed.

Lemma logged_logged w l1 l2 : logged (logged w l1) l2 = logged w (l1 ++ l2).
Proof. unfold logged; simpl. by rewrite app_assoc. Qed.

(** ** The invitation ledger check *)

Lemma validateInvitationCode_run env code w :
  validateInvitationCode env code w
  = (invitation_result env (db w) code,
     logged w [Query (SelInvitationCode code)]).
Proof.
  unfold invitation_result, validateInvitationCode, logged. unfold_monad.
  simpl. destruct (select_invitation (db w) code) as [|ic rows]; simpl.
  - reflexivity.
  - destruct (InvitationView.IsActive ic); simpl; [|reflexivity].
    destruct (InvitationView.IsUsed ic); simpl; [reflexivity|].
    destruct (is_expired env ic); reflexivity.
Qed.

Lemma reports_functional r v1 v2 : reports r v1 -> reports r v2 -> v1 = v2.
Proof.
  destruct v1, v2; simpl; try reflexivity;
    intros [e1 H1] [e2 H2]; exfalso;
    repeat match goal with
           | H : _ /\ _ |- _ => destruct H
           end;
    subst; try discriminate;
    match goal with
    | H : inl _ = inl _ |- _ => injection H as ->
    end;
    unfold INVALID_INVITATION_CODE, INVITATION_CODE_INACTIVE,
      INVITATION_CODE_ALREADY_USED, INVITATION_CODE_EXPIRED in *;
    congruence.
Qed.

Lemma invitation_result_cases env s code :
  let r := invitation_result env s code in
  match select_invitation s code with
  | [] =>
      r = inl (ApiErr (createNotFoundError INVALID_INVITATION_CODE
                         "Invitation code does not exist"))
  | ic :: _ =>
      if negb (InvitationView.IsActive ic)
      then r = inl (ApiErr (createValidationError INVITATION_CODE_INACTIVE
                              "Invitation code is inactive"))
      else if InvitationView.IsUsed ic
      then r = inl (ApiErr (createValidationError
                              INVITATION_CODE_ALREADY_USED
                              "Invitation code has already been used"))
      else if is_expired env ic
      then r = inl (ApiErr (createValidationError INVITATION_CODE_EXPIRED
                              "Invitation code has expired"))
      else r = inr ic
  end.
Proof.
  unfold invitation_result, validateInvitationCode. unfold_monad. simpl.
  destruct (select_invitation s code) as [|ic rows]; simpl; [reflexivity|].
  destruct (InvitationView.IsActive ic); simpl; [|reflexivity].
  destruct (InvitationView.IsUsed ic); simpl; [reflexivity|].
  destruct (is_expired env ic); reflexivity.
Qed.

(** C2: the ledger check reports exactly one of not-found, inactive,
    already-used, expired and eligible; the checks run in the order
    existence, active flag, used flag, expiry; each failure carries its own
    error code and hides the checks after it; the check only reads. *)
Theorem validateInvitationCode_check_order env code w :
  let r := fst (validateInvitationCode env code w) in
  let rows := select_invitation (db w) code in
  (exists! v, reports r v)
  /\ (rows = [] ->
      r = inl (ApiErr (createNotFoundError INVALID_INVITATION_CODE
                         "Invitation code does not exist")))
  /\ (forall ic rest, rows = ic :: rest ->
      InvitationView.IsActive ic = false ->
      r = inl (ApiErr (createValidationError INVITATION_CODE_INACTIVE
                         "Invitation code is inactive")))
  /\ (forall ic rest, rows = ic :: rest ->
      InvitationView.IsActive ic = true ->
      InvitationView.IsUsed ic = true ->
      r = inl (ApiErr (createValidationError INVITATION_CODE_ALREADY_USED
                         "Invitation code has already been used")))
  /\ (forall ic rest, rows = ic :: rest ->
      InvitationView.IsActive ic = true ->
      InvitationView.IsUsed ic = false ->
      is_expired env ic = true ->
      r = inl (ApiErr (createValidationError INVITATION_CODE_EXPIRED
                         "Invitation code has expired")))
  /\ (forall ic rest, rows = ic :: rest ->
      InvitationView.IsActive ic = true ->
      InvitationView.IsUsed ic = false ->
      is_expired env ic = false ->
      r = inr ic)
  /\ snd (validateInvitationCode env code w)
     = logged w [Query (SelInvitationCode code)].
Proof.
  intros r rows. subst r rows.
  rewrite validateInvitationCode_run. simpl.
  pose proof (invitation_result_cases env (db w) code) as Hc. simpl in Hc.
  split.
  - assert (exists v, reports (invitation_result env (db w) code) v)
      as [v Hv].
    { destruct (select_invitation (db w) code) as [|ic rows].
      - exists not_found. rewrite Hc. simpl. eauto.
      - destruct (InvitationView.IsActive ic); simpl in Hc.
        + destruct (InvitationView.IsUsed ic).
          * exists already_used. rewrite Hc. simpl. eauto.
          * destruct (is_expired env ic).
            -- exists expired. rewrite Hc. simpl. eauto.
            -- exists eligible. rewrite Hc. simpl. eauto.
        + exists inactive. rewrite Hc. simpl. eauto. }
    exists v. split; [exact Hv|].
    intros v' Hv'. eapply reports_functional; eassumption.
  - repeat split.
    + intros E. rewrite E in Hc. exact Hc.
    + intros ic rest E Ha. rewrite E, Ha in Hc. exact Hc.
    + intros ic rest E Ha Hu. rewrite E, Ha, Hu in Hc. exact Hc.
    + intros ic rest E Ha Hu He. rewrite E, Ha, Hu, He in Hc. exact Hc.
    + intros ic rest E Ha Hu He. rewrite E, Ha, Hu, He in Hc. exact Hc.
Qed.

(** A code that is inactive, used and expired at once is reported as
    inactive. *)
Lemma validateInvitationCode_check_order_witness :
  fst (validateInvitationCode Sample.env "INVITE2022OLD" Sample.world)
  = inl (ApiErr (createValidationError INVITATION_CODE_INACTIVE
                   "Invitation code is inactive")).
Proof.
  destruct (validateInvitationCode_check_order Sample.env "INVITE2022OLD"
              Sample.world) as (_ & _ & H & _).
  eapply H; reflexivity.
Defined.

(** ** The atomic creation *)

(** Closes the goal of a run that reached the catch clause, where the
    ROLLBACK goes through or is rejected. *)
Ltac rolled_back env :=
  destruct (fault env ROLLBACK); simpl;
  solve [discriminate | eauto 8].

Lemma get_created_AdminID r :
  get (returning RETURNING_created r) "AdminID" = JNum (Admin.AdminID r).
Proof. reflexivity. Qed.




(** ** Runs of the read-only steps *)

Lemma nonempty_length {A} (l : list A) :
  (0 <? Z.of_nat (length l)) = match l with [] => false | _ :: _ => true end.
Proof. destruct l; reflexivity. Qed.

Lemma checkStudentIDExists_run studentID w :
  checkStudentIDExists studentID w
  = (inr (match select_admin_by_studentID (db w) studentID with
          | [] => false
          | _ :: _ => true
          end),
     logged w [Query (SelAdminByStudentID studentID)]).
Proof.
  unfold checkStudentIDExists. unfold_monad. cbn -[select_admin_by_studentID].
  by rewrite nonempty_length.
Qed.

Lemma checkEmailExists_run email w :
  checkEmailExists email w
  = (inr (match select_admin_by_email (db w) email with
          | [] => false
          | _ :: _ => true
          end),
     logged w [Query (SelAdminByEmail email)]).
Proof.
  unfold checkEmailExists. unfold_monad. cbn -[select_admin_by_email].
  by rewrite nonempty_length.
Qed.

Lemma validateRole_run roleID w :
  validateRole roleID w
  = (match select_role (db w) roleID with
     | [] => inl (ApiErr (createValidationError INVALID_ROLE
                            "Invalid Role ID"))
     | r :: _ => inr r
     end,
     logged w [Query (SelRole roleID)]).
Proof.
  unfold validateRole. unfold_monad. cbn -[select_role].
  destruct (select_role (db w) roleID); reflexivity.
Qed.

Lemma validateBranch_run branchID b w :
  branch_given branchID = Some b ->
  validateBranch branchID w
  = (match select_branch (db w) b with
     | [] => inl (ApiErr (createValidationError INVALID_BRANCH
                            "Invalid Branch ID"))
     | r :: _ => inr (Some r)
     end,
     logged w [Query (SelBranch b)]).
Proof.
  intros Hb. unfold validateBranch. rewrite Hb. unfold_monad.
  cbn -[select_branch].
  destruct (select_branch (db w) b); reflexivity.
Qed.

Lemma hashPassword_run env password w :
  hashPassword env password w
  = (match bcrypt_hash env password SALT_ROUNDS with
     | Some h => inr h
     | None => inl (ApiErr (createServerError INTERNAL_ERROR
                              "Error hashing password"))
     end,
     logged w [BcryptHash password]).
Proof.
  unfold hashPassword, bcrypt_hash_call. unfold_monad. simpl.
  destruct (bcrypt_hash env password SALT_ROUNDS); reflexivity.
Qed.

(** The role bound to an eligible code exists: the ledger check joins the
    code with its role. *)
Lemma eligible_role_exists env s code ic :
  invitation_result env s code = inr ic ->
  select_role s (InvitationView.RoleID ic) <> [].
Proof.
  intros H.
  pose proof (invitation_result_cases env s code) as Hc. simpl in Hc.
  destruct (select_invitation s code) as [|ic0 rest] eqn:Es.
  { rewrite Hc in H. discriminate. }
  assert (ic0 = ic) as ->.
  { destruct (InvitationView.IsActive ic0); simpl in Hc;
      [|rewrite Hc in H; discriminate].
    destruct (InvitationView.IsUsed ic0);
      [rewrite Hc in H; discriminate|].
    destruct (is_expired env ic0); rewrite Hc in H;
      [discriminate|congruence]. }
  assert (In ic (select_invitation s code)) as Hin
      by (rewrite Es; left; reflexivity).
  unfold select_invitation in Hin.
  apply in_flat_map in Hin as (c & _ & Hin).
  apply in_map_iff in Hin as (r & <- & Hr).
  unfold select_role. simpl.
  intros Hnil. rewrite Hnil in Hr. destruct Hr.
Qed.

(** ** The onboarding orchestrator *)

Lemma bind_ret_r {A} (m : M A) w : bind m (fun a => ret a) w = m w.
Proof. unfold bind, ret. destruct (m w) as [[e|a] w']; reflexivity. Qed.

(** The orchestrator, step by step: what it returns and which external
    calls it has issued when it stops. *)
Lemma onboardAdmin_run env v w :
  onboardAdmin env v w
  = let E1 := Query (SelInvitationCode (Candidate.invitationCode v)) in
    let E2 := Query (SelAdminByStudentID (Candidate.studentID v)) in
    let E3 := Query (SelAdminByEmail (Candidate.email v)) in
    let E4 := Query (SelRole (Candidate.roleID v)) in
    match invitation_result env (db w) (Candidate.invitationCode v) with
    | inl e => (inl e, logged w [E1])
    | inr ic =>
        if negb (Candidate.roleID v =? InvitationView.RoleID ic)
        then (inl (ApiErr (createValidationError INVALID_ROLE
                             ("RoleID must match invitation code (expected: "
                              ++ pretty (InvitationView.RoleID ic)
                              ++ ")")%string)),
              logged w [E1])
        else
          match select_admin_by_studentID (db w) (Candidate.studentID v) with
          | _ :: _ =>
              (inl (ApiErr (createConflictError DUPLICATE_STUDENT_ID
                              "Student ID already exists")),
               logged w [E1; E2])
          | [] =>
              match select_admin_by_email (db w) (Candidate.email v) with
              | _ :: _ =>
                  (inl (ApiErr (createConflictError DUPLICATE_EMAIL
                                  "Email already registered")),
                   logged w [E1; E2; E3])
              | [] =>
                  match select_role (db w) (Candidate.roleID v) with
                  | [] =>
                      (inl (ApiErr (createValidationError INVALID_ROLE
                                      "Invalid Role ID")),
                       logged w [E1; E2; E3; E4])
                  | _ :: _ =>
                      match branch_given (Candidate.branchID v) with
                      | Some b =>
                          match select_branch (db w) b with
                          | [] =>
                              (inl (ApiErr (createValidationError
                                              INVALID_BRANCH
                                              "Invalid Branch ID")),
                               logged w (read_events v))
                          | _ :: _ =>
                              match bcrypt_hash env (Candidate.password v)
                                      SALT_ROUNDS with
                              | None =>
                                  (inl (ApiErr (createServerError
                                                  INTERNAL_ERROR
                                                  "Error hashing password")),
                                   logged w
                                     (read_events v
                                      ++ [BcryptHash (Candidate.password v)]))
                              | Some h =>
                                  createAdminWithTransaction env
                                    (mkAdminData v h) ic
                                    (logged w
                                       (read_events v
                                        ++ [BcryptHash
                                              (Candidate.password v)]))
                              end
                          end
                      | None =>
                          match bcrypt_hash env (Candidate.password v)
                                  SALT_ROUNDS with
                          | None =>
                              (inl (ApiErr (createServerError INTERNAL_ERROR
                                              "Error hashing password")),
                               logged w
                                 (read_events v
                                  ++ [BcryptHash (Candidate.password v)]))
                          | Some h =>
                              createAdminWithTransaction env
                                (mkAdminData v h) ic
                                (logged w
                                   (read_events v
                                    ++ [BcryptHash (Candidate.password v)]))
                          end
                      end
                  end
              end
          end
    end.
Proof.
  cbv zeta. unfold onboardAdmin, read_events, branch_events.
  unfold bind at 1. rewrite validateInvitationCode_run.
  destruct (invitation_result env (db w) (Candidate.invitationCode v))
    as [e|ic]; [reflexivity|].
  unfold bind at 1, throw_if at 1.
  destruct (negb (Candidate.roleID v =? InvitationView.RoleID ic));
    [reflexivity|].
  unfold ret at 1.
  unfold bind at 1. rewrite checkStudentIDExists_run.
  rewrite logged_logged. cbn [db logged app].
  destruct (select_admin_by_studentID (db w) (Candidate.studentID v));
    [|reflexivity].
  unfold bind at 1, throw_if at 1, ret at 1.
  unfold bind at 1. rewrite checkEmailExists_run.
  rewrite logged_logged. cbn [db logged app].
  destruct (select_admin_by_email (db w) (Candidate.email v));
    [|reflexivity].
  unfold bind at 1, throw_if at 1, ret at 1.
  unfold bind at 1. rewrite validateRole_run.
  rewrite logged_logged. cbn [db logged app].
  destruct (select_role (db w) (Candidate.roleID v)); [reflexivity|].
  unfold bind at 1.
  destruct (branch_given (Candidate.branchID v)) as [b|] eqn:Eb.
  - unfold bind at 1. rewrite (validateBranch_run _ b) by exact Eb.
    rewrite logged_logged. cbn [db logged app].
    destruct (select_branch (db w) b); [reflexivity|].
    unfold ret at 1.
    unfold bind at 1. rewrite hashPassword_run.
    rewrite logged_logged. cbn [db logged app].
    destruct (bcrypt_hash env (Candidate.password v) SALT_ROUNDS);
      [|reflexivity].
    apply bind_ret_r.
  - unfold ret at 1.
    unfold bind at 1. rewrite hashPassword_run.
    rewrite logged_logged. cbn [db logged app].
    destruct (bcrypt_hash env (Candidate.password v) SALT_ROUNDS);
      [|reflexivity].
    apply bind_ret_r.
Qed.

(** C3: with an eligible invitation code, a submitted role that differs
    from the role bound to the code is answered with INVALID_ROLE, the
    message naming the expected role, whether or not the submitted role
    exists in the Role table; the only external call issued is the lookup
    of the code, and no table changes. *)
Theorem onboardAdmin_role_mismatch env v w ic :
  fst (validateInvitationCode env (Candidate.invitationCode v) w) = inr ic ->
  Candidate.roleID v <> InvitationView.RoleID ic ->
  onboardAdmin env v w
  = (inl (ApiErr (createValidationError INVALID_ROLE
                    ("RoleID must match invitation code (expected: "
                     ++ pretty (InvitationView.RoleID ic) ++ ")")%string)),
     logged w [Query (SelInvitationCode (Candidate.invitationCode v))])
  /\ db (snd (onboardAdmin env v w)) = db w.
Proof.
  intros Hic Hne. rewrite validateInvitationCode_run in Hic. simpl in Hic.
  rewrite onboardAdmin_run. cbv zeta. rewrite Hic.
  apply Z.eqb_neq in Hne. rewrite Hne. simpl. split; reflexivity.
Qed.

(** John presents a code bound to role 1 and asks for role 2, which exists
    in the Role table. *)
Lemma onboardAdmin_role_mismatch_witness :
  select_role Sample.store 2 <> []
  /\ onboardAdmin Sample.env Sample.john_as_manager Sample.world
     = (inl (ApiErr (createValidationError INVALID_ROLE
                       "RoleID must match invitation code (expected: 1)")),
        mkWorld Sample.store None [Query (SelInvitationCode "INVITE2024ABC")]).
Proof.
  split; [discriminate|].
  refine (proj1 (onboardAdmin_role_mismatch Sample.env Sample.john_as_manager
                   Sample.world
                   (InvitationView.mk 7 "INVITE2024ABC" 1 true false None
                      "Super Admin") _ _)).
  - reflexivity.
  - discriminate.
Defined.

(** C4: the orchestrator runs its steps in the order invitation check, role
    match, student-identifier uniqueness, email uniqueness, role reference,
    branch reference (only when a branch is given), password hashing,
    atomic write, and stops at the first step that fails: the error is that
    step's, and the external calls issued are those of the steps up to it.
    A taken student identifier is reported as DUPLICATE_STUDENT_ID whatever
    the state of the email.  The role lookup is the fourth call of
    [read_events]; once the role match has passed it finds the role the
    ledger check joined to the code ([eligible_role_exists]). *)
Theorem onboardAdmin_step_order env v w :
  let code := Candidate.invitationCode v in
  let E1 := Query (SelInvitationCode code) in
  let E2 := Query (SelAdminByStudentID (Candidate.studentID v)) in
  let E3 := Query (SelAdminByEmail (Candidate.email v)) in
  let EH := BcryptHash (Candidate.password v) in
  (forall e,
      fst (validateInvitationCode env code w) = inl e ->
      onboardAdmin env v w = (inl e, logged w [E1]))
  /\ (forall ic,
      fst (validateInvitationCode env code w) = inr ic ->
      (Candidate.roleID v <> InvitationView.RoleID ic ->
       exists msg,
         onboardAdmin env v w
         = (inl (ApiErr (createValidationError INVALID_ROLE msg)),
            logged w [E1]))
      /\ (Candidate.roleID v = InvitationView.RoleID ic ->
          (select_admin_by_studentID (db w) (Candidate.studentID v) <> [] ->
           onboardAdmin env v w
           = (inl (ApiErr (createConflictError DUPLICATE_STUDENT_ID
                             "Student ID already exists")),
              logged w [E1; E2]))
          /\ (select_admin_by_studentID (db w) (Candidate.studentID v) = [] ->
              (select_admin_by_email (db w) (Candidate.email v) <> [] ->
               onboardAdmin env v w
               = (inl (ApiErr (createConflictError DUPLICATE_EMAIL
                                 "Email already registered")),
                  logged w [E1; E2; E3]))
              /\ (select_admin_by_email (db w) (Candidate.email v) = [] ->
                  (forall b,
                      branch_given (Candidate.branchID v) = Some b ->
                      select_branch (db w) b = [] ->
                      onboardAdmin env v w
                      = (inl (ApiErr (createValidationError INVALID_BRANCH
                                        "Invalid Branch ID")),
                         logged w (read_events v)))
                  /\ ((forall b,
                          branch_given (Candidate.branchID v) = Some b ->
                          select_branch (db w) b <> []) ->
                      (bcrypt_hash env (Candidate.password v) SALT_ROUNDS
                       = None ->
                       onboardAdmin env v w
                       = (inl (ApiErr (createServerError INTERNAL_ERROR
                                         "Error hashing password")),
                          logged w (read_events v ++ [EH])))
                      /\ (forall h,
                             bcrypt_hash env (Candidate.password v)
                               SALT_ROUNDS = Some h ->
                             onboardAdmin env v w
                             = createAdminWithTransaction env
                                 (mkAdminData v h) ic
                                 (logged w (read_events v ++ [EH])))))))).
Proof.
  cbv zeta. rewrite validateInvitationCode_run. cbn [fst].
  pose proof (onboardAdmin_run env v w) as Hrun. cbv zeta in Hrun.
  split.
  { intros e He. rewrite He in Hrun. exact Hrun. }
  intros ic Hic. rewrite Hic in Hrun.
  pose proof (eligible_role_exists _ _ _ _ Hic) as Hrole.
  split.
  { intros Hne. apply Z.eqb_neq in Hne. rewrite Hne in Hrun.
    simpl in Hrun. eauto. }
  intros Heq. rewrite <- Heq in Hrole.
  apply Z.eqb_eq in Heq. rewrite Heq in Hrun. simpl in Hrun.
  split.
  { intros Hs.
    destruct (select_admin_by_studentID (db w) (Candidate.studentID v));
      [congruence|exact Hrun]. }
  intros Hs. rewrite Hs in Hrun.
  split.
  { intros Hm.
    destruct (select_admin_by_email (db w) (Candidate.email v));
      [congruence|exact Hrun]. }
  intros Hm. rewrite Hm in Hrun.
  destruct (select_role (db w) (Candidate.roleID v)) as [|r rs];
    [congruence|].
  split.
  { intros b Hb Hnone. rewrite Hb, Hnone in Hrun. exact Hrun. }
  intros Hbranch.
  destruct (branch_given (Candidate.branchID v)) as [b|].
  - specialize (Hbranch b eq_refl).
    destruct (select_branch (db w) b); [congruence|].
    split.
    + intros Hh. rewrite Hh in Hrun. exact Hrun.
    + intros h Hh. rewrite Hh in Hrun. exact Hrun.
  - split.
    + intros Hh. rewrite Hh in Hrun. exact Hrun.
    + intros h Hh. rewrite Hh in Hrun. exact Hrun.
Qed.

(** A candidate whose student identifier and email are both taken is
    answered with DUPLICATE_STUDENT_ID. *)
Lemma onboardAdmin_step_order_witness :
  select_admin_by_studentID Sample.store "CS2023007" <> []
  /\ select_admin_by_email Sample.store "alice@example.com" <> []
  /\ onboardAdmin Sample.env Sample.alice_again Sample.world
     = (inl (ApiErr (createConflictError DUPLICATE_STUDENT_ID
                       "Student ID already exists")),
        mkWorld Sample.store None
          [Query (SelInvitationCode "INVITE2024ABC");
           Query (SelAdminByStudentID "CS2023007")]).
Proof.
  split; [discriminate|]. split; [discriminate|].
  destruct (onboardAdmin_step_order Sample.env Sample.alice_again
              Sample.world) as [_ H].
  destruct (H (InvitationView.mk 7 "INVITE2024ABC" 1 true false None
                 "Super Admin") eq_refl) as [_ H1].
  destruct (H1 eq_refl) as [H2 _].
  apply H2. discriminate.
Defined.

(** ** Runs of login and of the profile update *)

Lemma get_login_PasswordHash a :
  get (returning SELECT_login a) "PasswordHash" = JStr (Admin.PasswordHash a).
Proof. reflexivity. Qed.

Lemma get_admin_PasswordHash a :
  get (returning ["AdminID"; "PasswordHash"] a) "PasswordHash"
  = JStr (Admin.PasswordHash a).
Proof. reflexivity. Qed.

Lemma loginAdmin_run env email password w :
  loginAdmin env email password w
  = match List.filter (fun a => (Admin.Email a =? email)%string)
            (tblAdmin (db w)) with
    | [] =>
        (inl (ApiErr (createValidationError INVALID_INPUT
                        "Invalid email or password")),
         logged w [Query (SelLogin email)])
    | a :: _ =>
        (if bcrypt_compare env password (Admin.PasswordHash a)
         then inr (login_result (returning SELECT_login a))
         else inl (ApiErr (createValidationError INVALID_INPUT
                             "Invalid email or password")),
         logged w [Query (SelLogin email);
                   BcryptCompare (JStr password) (Admin.PasswordHash a)])
    end.
Proof.
  unfold loginAdmin, select_login, bcrypt_compare_call, logged.
  unfold_monad. cbn -[returning get login_result List.filter].
  destruct (List.filter (fun a => (Admin.Email a =? email)%string)
              (tblAdmin (db w))) as [|a rest];
    cbn -[returning get login_result]; [reflexivity|].
  rewrite get_login_PasswordHash. cbn -[returning get login_result].
  rewrite <- app_assoc.
  destruct (bcrypt_compare env password (Admin.PasswordHash a));
    reflexivity.
Qed.

Lemma fold_assign_patched env d newHash a :
  fold_left (assign env)
    ((push_if (UpdateData.phone d) SetPhone
        (push_if (UpdateData.fullName d) SetFullName [])
      ++ match newHash with Some h => [SetPasswordHash h] | None => [] end)
     ++ [SetUpdatedAtNow]) a
  = patched env d newHash a.
Proof.
  unfold patched, push_if, supplied.
  destruct (UpdateData.fullName d) as [f|]; [destruct (truthy (JStr f))|];
    (destruct (UpdateData.phone d) as [p|]; [destruct (truthy (JStr p))|]);
    destruct newHash; reflexivity.
Qed.

Lemma map_apply_set_patched env d newHash id (l : list Admin.row) :
  map (apply_set env
         ((push_if (UpdateData.phone d) SetPhone
             (push_if (UpdateData.fullName d) SetFullName [])
           ++ match newHash with Some h => [SetPasswordHash h] | None => [] end)
          ++ [SetUpdatedAtNow]) id) l
  = map (patched_where env id d newHash) l.
Proof.
  apply map_ext. intros a. unfold apply_set, patched_where.
  by rewrite fold_assign_patched.
Qed.

Lemma updateAdmin_run env id d w :
  updateAdmin env id d w
  = let Q := Query (SelAdminHash id) in
    let U := Query (UpdAdmin id) in
    match List.filter (fun a => Admin.AdminID a =? id) (tblAdmin (db w)) with
    | [] =>
        (inl (ApiErr (if fits (AdminID_type env) id
                      then createNotFoundError INVALID_INPUT
                             "Admin not found"
                      else createServerError DATABASE_ERROR
                             "Error updating admin details")),
         logged w [Q])
    | a :: _ =>
        match supplied (UpdateData.password d) with
        | None =>
            (inr (returning RETURNING_updated (patched env d None a)),
             updated_world env id d None w [Q; U])
        | Some p =>
            let C := BcryptCompare (UpdateData.oldPassword d)
                       (Admin.PasswordHash a) in
            match UpdateData.oldPassword d with
            | JStr old =>
                if bcrypt_compare env old (Admin.PasswordHash a)
                then
                  match bcrypt_hash env p SALT_ROUNDS with
                  | Some h =>
                      (inr (returning RETURNING_updated
                              (patched env d (Some h) a)),
                       updated_world env id d (Some h) w
                         [Q; C; BcryptHash p; U])
                  | None =>
                      (inl (ApiErr (createServerError INTERNAL_ERROR
                                      "Error hashing password")),
                       logged w [Q; C; BcryptHash p])
                  end
                else
                  (inl (ApiErr (createValidationError INVALID_INPUT
                                  "Current password is incorrect")),
                   logged w [Q; C])
            | _ =>
                (inl (ApiErr (createServerError DATABASE_ERROR
                                "Error updating admin details")),
                 logged w [Q; C])
            end
        end
    end.
Proof.
  cbv zeta.
  unfold updateAdmin, query_admin_hash, select_admin_hash, update_admin,
    supplied.
  unfold_monad.
  cbn -[returning get List.filter map fold_left push_if apply_set truthy
        hashPassword bcrypt_compare_call fits].
  destruct (List.filter (fun a => Admin.AdminID a =? id) (tblAdmin (db w)))
    as [|a rest] eqn:Ef; cbn [map];
    [destruct (fits (AdminID_type env) id); reflexivity|].
  destruct (UpdateData.password d) as [p|] eqn:Ep; cbn [of_opt_string].
  2:{ cbn -[returning get List.filter map fold_left push_if apply_set].
      rewrite Ef. cbn [map].
      pose proof (fold_assign_patched env d None a) as Hf.
      pose proof (map_apply_set_patched env d None id (tblAdmin (db w)))
        as Hm.
      cbn [app] in Hf, Hm. rewrite app_nil_r in Hf, Hm.
      rewrite Hf, Hm. unfold updated_world.
      rewrite <- app_assoc. reflexivity. }
  destruct (truthy (JStr p)) eqn:Et.
  2:{ cbn -[returning get List.filter map fold_left push_if apply_set].
      rewrite Ef. cbn [map].
      pose proof (fold_assign_patched env d None a) as Hf.
      pose proof (map_apply_set_patched env d None id (tblAdmin (db w)))
        as Hm.
      cbn [app] in Hf, Hm. rewrite app_nil_r in Hf, Hm.
      rewrite Hf, Hm. unfold updated_world.
      rewrite <- app_assoc. reflexivity. }
  rewrite get_admin_PasswordHash. unfold bcrypt_compare_call. unfold_monad.
  destruct (UpdateData.oldPassword d) as [| |b|z|old|ms] eqn:Eo;
    try (cbn [db tx trace has_statusCode]; unfold logged;
         rewrite <- app_assoc; reflexivity).
  cbn [db tx trace].
  destruct (bcrypt_compare env old (Admin.PasswordHash a)).
  2:{ cbn. unfold logged. rewrite <- app_assoc. reflexivity. }
  cbn [negb]. rewrite hashPassword_run.
  destruct (bcrypt_hash env p SALT_ROUNDS) as [h|] eqn:Eh.
  2:{ cbn. unfold logged. cbn.
      repeat rewrite <- app_assoc. reflexivity. }
  cbn [db tx trace logged]. rewrite Ef. cbn [map].
  pose proof (fold_assign_patched env d (Some h) a) as Hf.
  pose proof (map_apply_set_patched env d (Some h) id (tblAdmin (db w)))
    as Hm.
  rewrite Hf, Hm. unfold updated_world.
  repeat rewrite <- app_assoc. reflexivity.
Qed.

(** ** What the caller gets back *)

Lemma createAdminWithTransaction_returns env adminData ic w o w' :
  createAdminWithTransaction env adminData ic w = (inr o, w') ->
  o = returning RETURNING_created (new_admin_row env adminData).
Proof.
  unfold createAdminWithTransaction, pool_connect, client_BEGIN,
    client_COMMIT, client_ROLLBACK, client_release, insert_admin,
    update_invitation, driver_fault.
  unfold_monad.
  destruct (fault env CONNECT); simpl; [discriminate|].
  destruct (fault env BEGIN); simpl; [rolled_back env|].
  destruct (fault env INSERT_ADMIN); simpl; [rolled_back env|].
  destruct (unique_violation (db w) (new_admin_row env adminData));
    cbn -[returning get]; [rolled_back env|].
  destruct (fault env UPDATE_CODE); cbn -[returning get]; [rolled_back env|].
  destruct (List.filter _ (tblInvitationCode (db w)));
    cbn -[returning get]; [rolled_back env|].
  destruct (fault env COMMIT); cbn -[returning get]; [rolled_back env|].
  congruence.
Qed.

Lemma created_omits_PasswordHash a :
  returning RETURNING_created a !! "PasswordHash" = None.
Proof. reflexivity. Qed.

Lemma login_result_omits_PasswordHash admin :
  login_result admin !! "PasswordHash" = None.
Proof. reflexivity. Qed.

Lemma updated_omits_PasswordHash a :
  returning RETURNING_updated a !! "PasswordHash" = None.
Proof. reflexivity. Qed.

Ltac split_run H :=
  repeat match type of H with
         | context [match ?x with _ => _ end] =>
             destruct x eqn:?; try discriminate H
         | context [if ?x then _ else _] =>
             destruct x eqn:?; try discriminate H
         end.

(** C5: the Admin object a successful onboarding, login or profile update
    hands back has no PasswordHash property. *)
Theorem returned_admin_omits_PasswordHash env w :
  (forall v o w',
      onboardAdmin env v w = (inr o, w') -> o !! "PasswordHash" = None)
  /\ (forall email password o w',
         loginAdmin env email password w = (inr o, w') ->
         o !! "PasswordHash" = None)
  /\ (forall id d o w',
         updateAdmin env id d w = (inr o, w') ->
         o !! "PasswordHash" = None).
Proof.
  split; [|split].
  - intros v o w' H. rewrite onboardAdmin_run in H. cbv zeta in H.
    split_run H;
      apply createAdminWithTransaction_returns in H; subst o;
      apply created_omits_PasswordHash.
  - intros email password o w' H. rewrite loginAdmin_run in H.
    split_run H. injection H as <- _.
    apply login_result_omits_PasswordHash.
  - intros id d o w' H. rewrite updateAdmin_run in H. cbv zeta in H.
    split_run H; injection H as <- _; apply updated_omits_PasswordHash.
Qed.

(** John is onboarded, Alice logs in, Alice is renamed: none of the three
    objects handed back has a PasswordHash property, while each has an
    Email. *)
Lemma returned_admin_omits_PasswordHash_witness :
  let o1 := returning RETURNING_created Sample.john_row in
  let o2 := login_result (returning SELECT_login Sample.alice) in
  let o3 := returning RETURNING_updated Sample.alice_renamed in
  (fst (onboardAdmin Sample.env Sample.john Sample.world) = inr o1
   /\ o1 !! "Email" = Some (JStr "john@example.com")
   /\ o1 !! "PasswordHash" = None)
  /\ (fst (loginAdmin Sample.env "alice@example.com" "SecurePass@123"
             Sample.world) = inr o2
      /\ o2 !! "Email" = Some (JStr "alice@example.com")
      /\ o2 !! "PasswordHash" = None)
  /\ (fst (updateAdmin Sample.env 1 Sample.rename Sample.world) = inr o3
      /\ o3 !! "Email" = Some (JStr "alice@example.com")
      /\ o3 !! "PasswordHash" = None).
Proof.
  intros o1 o2 o3.
  destruct (returned_admin_omits_PasswordHash Sample.env Sample.world)
    as (H1 & H2 & H3).
  assert (fst (onboardAdmin Sample.env Sample.john Sample.world) = inr o1)
    as E1 by (lazy -[returning get]; reflexivity).
  assert (fst (loginAdmin Sample.env "alice@example.com" "SecurePass@123"
                 Sample.world) = inr o2)
    as E2 by (rewrite loginAdmin_run; reflexivity).
  assert (fst (updateAdmin Sample.env 1 Sample.rename Sample.world) = inr o3)
    as E3 by (rewrite updateAdmin_run; reflexivity).
  split; [|split]; (split; [assumption|]); (split; [reflexivity|]).
  - apply (H1 Sample.john o1
             (snd (onboardAdmin Sample.env Sample.john Sample.world))).
    rewrite <- E1. apply surjective_pairing.
  - apply (H2 "alice@example.com" "SecurePass@123" o2
             (snd (loginAdmin Sample.env "alice@example.com"
                     "SecurePass@123" Sample.world))).
    rewrite <- E2. apply surjective_pairing.
  - apply (H3 1 Sample.rename o3
             (snd (updateAdmin Sample.env 1 Sample.rename Sample.world))).
    rewrite <- E3. apply surjective_pairing.
Defined.

(** ** Login failures *)

(** C6: a login with an email no admin has and a login with an existing
    email and a password that does not verify fail with the same error:
    same status, same code, same message. *)
Theorem loginAdmin_failure_indistinguishable env w1 w2 email1 password1
    email2 password2 a rest :
  List.filter (fun x => (Admin.Email x =? email1)%string) (tblAdmin (db w1))
  = [] ->
  List.filter (fun x => (Admin.Email x =? email2)%string) (tblAdmin (db w2))
  = a :: rest ->
  bcrypt_compare env password2 (Admin.PasswordHash a) = false ->
  fst (loginAdmin env email1 password1 w1)
  = fst (loginAdmin env email2 password2 w2)
  /\ fst (loginAdmin env email1 password1 w1)
     = inl (ApiErr (createValidationError INVALID_INPUT
                      "Invalid email or password")).
Proof.
  intros H1 H2 Hc. rewrite !loginAdmin_run, H1, H2, Hc. split; reflexivity.
Qed.

(** Nobody has bob@example.com; Alice's password is not WrongPass@123. *)
Lemma loginAdmin_failure_indistinguishable_witness :
  fst (loginAdmin Sample.env "bob@example.com" "SecurePass@123" Sample.world)
  = fst (loginAdmin Sample.env "alice@example.com" "WrongPass@123"
           Sample.world)
  /\ fst (loginAdmin Sample.env "bob@example.com" "SecurePass@123"
            Sample.world)
     = inl (ApiErr (createValidationError INVALID_INPUT
                      "Invalid email or password")).
Proof.
  apply (loginAdmin_failure_indistinguishable Sample.env Sample.world
           Sample.world "bob@example.com" "SecurePass@123"
           "alice@example.com" "WrongPass@123" Sample.alice []);
    reflexivity.
Defined.

(** ** Profile update *)

Lemma filter_absent id (l : list Admin.row) :
  (forall a, In a l -> Admin.AdminID a <> id) ->
  List.filter (fun a => Admin.AdminID a =? id) l = [].
Proof.
  induction l as [|a l IH]; simpl; [reflexivity|].
  intros H. destruct (Admin.AdminID a =? id) eqn:E.
  - apply Z.eqb_eq in E. exfalso. apply (H a); auto.
  - apply IH. intros a' Ha'. apply H. auto.
Qed.

(** C7 as the code has it: for an adminId that no row of the Admin table
    carries, the profile update issues the lookup only and changes no
    table.  When the key is one the AdminID column can hold, it fails with
    the status of a missing resource (404), the error code INVALID_INPUT
    and the message "Admin not found"; when it is not, the driver rejects
    the lookup and the failure is DATABASE_ERROR (500). *)
Theorem updateAdmin_absent_admin env id d w :
  (forall a, In a (tblAdmin (db w)) -> Admin.AdminID a <> id) ->
  updateAdmin env id d w
  = (inl (ApiErr
            (if fits (AdminID_type env) id
             then mkAPIError 404 INVALID_INPUT "Admin not found"
             else mkAPIError 500 DATABASE_ERROR
                    "Error updating admin details")),
     logged w [Query (SelAdminHash id)])
  /\ db (snd (updateAdmin env id d w)) = db w.
Proof.
  intros H. rewrite updateAdmin_run. cbv zeta.
  rewrite (filter_absent id _ H). split; reflexivity.
Qed.

Lemma updateAdmin_absent_admin_witness :
  updateAdmin Sample.env 9999 Sample.rename Sample.world
  = (inl (ApiErr (mkAPIError 404 INVALID_INPUT "Admin not found")),
     mkWorld Sample.store None [Query (SelAdminHash 9999)]).
Proof.
  refine (proj1 (updateAdmin_absent_admin Sample.env 9999 Sample.rename
                   Sample.world _)).
  intros a [<-|[]]. discriminate.
Defined.

(** C7 as stated fails: admin 100000000000000000000 is absent from the
    table and positive, as the update handler requires; whether the
    AdminID column is an integer or a bigint, the failure is
    DATABASE_ERROR with status 500: its status is not 404 and its error
    code is not NOT_FOUND. *)
Lemma updateAdmin_absent_admin_counterexample :
  let run := updateAdmin Sample.env Sample.huge_id Sample.rename
               Sample.world in
  let run_bigint := updateAdmin Sample.env_bigint Sample.huge_id
                      Sample.rename Sample.world in
  List.filter (fun a => Admin.AdminID a =? Sample.huge_id)
    (tblAdmin (db Sample.world)) = []
  /\ 0 < Sample.huge_id
  /\ fst run
     = inl (ApiErr (mkAPIError 500 DATABASE_ERROR
                      "Error updating admin details"))
  /\ fst run_bigint = fst run
  /\ db (snd run) = db Sample.world
  /\ ~ (exists e,
          fst run = inl (ApiErr e)
          /\ (statusCode e = 404 \/ errorCode e = NOT_FOUND)).
Proof.
  cbv zeta. rewrite !updateAdmin_run.
  repeat (split; [reflexivity|]).
  intros (e & He & Hk). simpl in He. injection He as <-.
  destruct Hk as [Hk|Hk]; discriminate Hk.
Qed.

Lemma patched_where_frame env id d newHash (l : list Admin.row) :
  Forall2 (update_frame env id d newHash) l
    (map (patched_where env id d newHash) l).
Proof.
  induction l as [|a l IH]; simpl; constructor; [|exact IH].
  unfold update_frame, patched_where.
  destruct (Admin.AdminID a =? id); simpl; repeat split; reflexivity.
Qed.

(** C10: a successful profile update changes, in the rows of the admin it
    addresses, the name, the phone and the password hash only where the
    patch supplies a non-empty value (the hash becoming the digest of the
    supplied password), sets the update timestamp to the clock, and leaves
    every other column, every other row and every other table as it was;
    the object handed back is the updated row. *)
Theorem updateAdmin_frame env id d w o w' :
  updateAdmin env id d w = (inr o, w') ->
  let newHash := staged_hash env d in
  (supplied (UpdateData.password d) <> None -> newHash <> None)
  /\ Forall2 (update_frame env id d newHash)
       (tblAdmin (db w)) (tblAdmin (db w'))
  /\ tblInvitationCode (db w') = tblInvitationCode (db w)
  /\ tblRole (db w') = tblRole (db w)
  /\ tblBranch (db w') = tblBranch (db w)
  /\ exists a rest,
       List.filter (fun x => Admin.AdminID x =? id) (tblAdmin (db w))
       = a :: rest
       /\ o = returning RETURNING_updated (patched env d newHash a).
Proof.
  intros H newHash. subst newHash. unfold staged_hash.
  rewrite updateAdmin_run in H. cbv zeta in H.
  destruct (List.filter (fun a => Admin.AdminID a =? id) (tblAdmin (db w)))
    as [|a rest]; [discriminate|].
  destruct (supplied (UpdateData.password d)) as [p|].
  - destruct (UpdateData.oldPassword d); try discriminate.
    destruct (bcrypt_compare env s (Admin.PasswordHash a));
      [|discriminate].
    destruct (bcrypt_hash env p SALT_ROUNDS) as [h|]; [|discriminate].
    injection H as <- <-. unfold updated_world. cbn [db tblAdmin
      tblInvitationCode tblRole tblBranch].
    repeat split; try reflexivity; try discriminate.
    + apply patched_where_frame.
    + eauto.
  - injection H as <- <-. unfold updated_world. cbn [db tblAdmin
      tblInvitationCode tblRole tblBranch].
    repeat split; try reflexivity; try congruence.
    + apply patched_where_frame.
    + eauto.
Qed.

(** Alice changes her phone and her password, giving the old one: her name
    and every other column stay, the hash becomes the digest of the new
    password, the timestamp is the clock. *)
Lemma updateAdmin_frame_witness :
  let w' := snd (updateAdmin Sample.env 1 Sample.change_password
                   Sample.world) in
  Forall2
    (update_frame Sample.env 1 Sample.change_password
       (Some "$2b$12$NewSecure@Pass789"))
    [Sample.alice] (tblAdmin (db w'))
  /\ tblAdmin (db w') = [Sample.alice_changed]
  /\ tblInvitationCode (db w') = tblInvitationCode Sample.store.
Proof.
  intros w'.
  assert (updateAdmin Sample.env 1 Sample.change_password Sample.world
          = (inr (returning RETURNING_updated Sample.alice_changed), w'))
    as E by (subst w'; rewrite updateAdmin_run; reflexivity).
  destruct (updateAdmin_frame Sample.env 1 Sample.change_password
              Sample.world _ _ E) as (_ & Hf & Hc & _).
  split; [exact Hf|]. split; [reflexivity|exact Hc].
Defined.

(** ** The update route: a new password without the old one *)

Lemma validate_optional_ok validate x :
  (provided x = true -> exists s, validate x = inr s) ->
  exists o, validate_optional validate x = inr o.
Proof.
  intros H. unfold validate_optional.
  destruct (provided x); [|eauto].
  destruct (H eq_refl) as [s ->]. eauto.
Qed.

Lemma validateAdminUpdateInput_rejects V body :
  provided (Body.password body) = true ->
  truthy (Body.oldPassword body) = false ->
  exists e, validateAdminUpdateInput V body = inl e.
Proof.
  intros Hp Ho. unfold validateAdminUpdateInput, validate_update_body.
  rewrite Hp, Ho. simpl.
  destruct (validate_optional (validateFullName V) (Body.fullName body))
    as [e|f].
  { destruct (has_statusCode e); eauto. }
  destruct (validate_optional (validatePhone V) (Body.phone body)) as [e|p].
  { destruct (has_statusCode e); eauto. }
  simpl. eauto.
Qed.

(** C8 as the code has it: a body with a password and no old password
    never reaches the service, so no external call is issued (no hashing, no
    statement) and no table changes; the error is MISSING_FIELD whenever the
    name and the phone sent along with it, if any, pass their validators,
    which run first. *)
Theorem update_route_password_without_old V env id body w :
  provided (Body.password body) = true ->
  truthy (Body.oldPassword body) = false ->
  (exists e, update_route V env id body w = (inl e, w))
  /\ ((provided (Body.fullName body) = true ->
       exists s, validateFullName V (Body.fullName body) = inr s) ->
      (provided (Body.phone body) = true ->
       exists s, validatePhone V (Body.phone body) = inr s) ->
      update_route V env id body w
      = (inl (ApiErr (createValidationError MISSING_FIELD
                        "Old password is required to set new password")),
         w)).
Proof.
  intros Hp Ho. split.
  - destruct (validateAdminUpdateInput_rejects V body Hp Ho) as [e He].
    exists e. unfold update_route. rewrite He. reflexivity.
  - intros Hf Hph. unfold update_route, validateAdminUpdateInput,
      validate_update_body.
    destruct (validate_optional_ok _ _ Hf) as [f ->].
    destruct (validate_optional_ok _ _ Hph) as [p ->].
    rewrite Hp, Ho. reflexivity.
Qed.

Lemma update_route_password_without_old_witness :
  update_route SpecValidators.validators Sample.env (Some 1)
    Sample.body_password_only Sample.world
  = (inl (ApiErr (createValidationError MISSING_FIELD
                    "Old password is required to set new password")),
     Sample.world).
Proof.
  refine (proj2 (update_route_password_without_old
                   SpecValidators.validators Sample.env (Some 1)
                   Sample.body_password_only Sample.world _ _) _ _).
  - reflexivity.
  - reflexivity.
  - discriminate.
  - discriminate.
Defined.

(** C8 as stated fails: a body with a new password, no old password and a
    malformed phone is answered with the phone's error, not with
    MISSING_FIELD. *)
Lemma update_route_missing_field_counterexample :
  update_route SpecValidators.validators Sample.env (Some 1)
    Sample.body_bad_phone Sample.world
  = (inl (ApiErr (createValidationError INVALID_PHONE
                    "Invalid phone number format")),
     Sample.world)
  /\ ~ (exists e w',
           update_route SpecValidators.validators Sample.env (Some 1)
             Sample.body_bad_phone Sample.world = (inl (ApiErr e), w')
           /\ errorCode e = MISSING_FIELD).
Proof.
  split; [reflexivity|].
  intros (e & w' & He & Hk).
  assert (update_route SpecValidators.validators Sample.env (Some 1)
            Sample.body_bad_phone Sample.world
          = (inl (ApiErr (createValidationError INVALID_PHONE
                            "Invalid phone number format")),
             Sample.world)) as E by reflexivity.
  rewrite E in He. injection He as <- _. discriminate Hk.
Qed.

(** ** Token verification *)

Lemma verify_rejects k c secret now :
  k <> secret \/ Jwt.exp c <= now / 1000
  \/ Jwt.aud c <> "admin-api" \/ Jwt.iss c <> "gfg-event-management" ->
  exists msg,
    Jwt.verify (Jwt.Signed k c) secret now "gfg-event-management" "admin-api"
    = inl msg.
Proof.
  intros H. unfold Jwt.verify.
  destruct (k =? secret)%string eqn:Ek; simpl; [|eauto].
  destruct (Jwt.exp c <=? now / 1000) eqn:Ee; [eauto|].
  destruct (Jwt.aud c =? "admin-api")%string eqn:Ea; simpl; [|eauto].
  destruct (Jwt.iss c =? "gfg-event-management")%string eqn:Ei; simpl;
    [|eauto].
  exfalso. apply String.eqb_eq in Ek, Ea, Ei. apply Z.leb_gt in Ee.
  destruct H as [H|[H|[H|H]]]; [congruence|lia|congruence|congruence].
Qed.

(** C9 as the code has it: with the secret configured, a token whose
    signature is invalid, which is expired, or whose issuer or audience is
    not the fixed pair, and a string that is no token at all, are rejected
    with status 500 and code INTERNAL_ERROR, the message carrying the
    library's reason; any other token yields its decoded claims. *)
Theorem verifyJWT_outcomes secret now token :
  truthy (JStr secret) = true ->
  (forall k c,
      token = Jwt.Signed k c ->
      k <> secret \/ Jwt.exp c <= now / 1000
      \/ Jwt.aud c <> "admin-api" \/ Jwt.iss c <> "gfg-event-management" ->
      exists msg,
        verifyJWT (Some secret) now token
        = inl (ApiErr (mkAPIError 500 INTERNAL_ERROR
                         ("JWT verification failed: " ++ msg)%string)))
  /\ (token = Jwt.Malformed ->
      verifyJWT (Some secret) now token
      = inl (ApiErr (mkAPIError 500 INTERNAL_ERROR
                       "JWT verification failed: jwt malformed")))
  /\ (forall c,
         token = Jwt.Signed secret c ->
         now / 1000 < Jwt.exp c ->
         Jwt.aud c = "admin-api" ->
         Jwt.iss c = "gfg-event-management" ->
         verifyJWT (Some secret) now token = inr c).
Proof.
  intros Hs. unfold verifyJWT.
  change (default EmptyString (Some secret)) with secret.
  cbn [of_opt_string]. rewrite Hs. cbn [negb]. split; [|split].
  - intros k c -> H. destruct (verify_rejects k c secret now H) as [msg ->].
    eauto.
  - intros ->. reflexivity.
  - intros c -> He Ha Hi. unfold Jwt.verify.
    rewrite String.eqb_refl, Ha, Hi. cbn [negb].
    apply Z.leb_gt in He. rewrite He. reflexivity.
Qed.

(** Alice's token verifies under the configured secret; the same claims
    signed with another secret are rejected with INTERNAL_ERROR. *)
Lemma verifyJWT_outcomes_witness :
  verifyJWT (Some "s3cret") (clock Sample.env) Sample.good_token
  = inr Sample.alice_claims
  /\ exists msg,
       verifyJWT (Some "s3cret") (clock Sample.env) Sample.forged_token
       = inl (ApiErr (mkAPIError 500 INTERNAL_ERROR
                        ("JWT verification failed: " ++ msg)%string)).
Proof.
  split.
  - refine (proj2 (proj2 (verifyJWT_outcomes "s3cret" (clock Sample.env)
                            Sample.good_token _)) Sample.alice_claims _ _ _ _);
      reflexivity.
  - refine (proj1 (verifyJWT_outcomes "s3cret" (clock Sample.env)
                     Sample.forged_token _) "guess" Sample.alice_claims _ _).
    + reflexivity.
    + reflexivity.
    + left. discriminate.
Defined.

(** C9 as stated fails: the token signed with a wrong secret is not
    rejected with UNAUTHORIZED. *)
Lemma verifyJWT_unauthorized_counterexample :
  verifyJWT (Some "s3cret") (clock Sample.env) Sample.forged_token
  = inl (ApiErr (createServerError INTERNAL_ERROR
                   "JWT verification failed: invalid signature"))
  /\ ~ (exists e,
           verifyJWT (Some "s3cret") (clock Sample.env) Sample.forged_token
           = inl (ApiErr e)
           /\ errorCode e = UNAUTHORIZED).
Proof.
  split; [reflexivity|].
  intros (e & He & Hk).
  assert (verifyJWT (Some "s3cret") (clock Sample.env) Sample.forged_token
          = inl (ApiErr (createServerError INTERNAL_ERROR
                           "JWT verification failed: invalid signature")))
    as E by reflexivity.
  rewrite E in He. injection He as <-. discriminate Hk.
Qed.

(** ** Further runs of the atomic creation *)

(** John's onboarding commits his row together with the consumption of his
    code. *)
Example john_onboarded :
  let w' := snd (onboardAdmin Sample.env Sample.john Sample.world) in
  tblAdmin (db w') = [Sample.alice; Sample.john_row]
  /\ tblInvitationCode (db w')
     = [InvitationCode.mk 7 "INVITE2024ABC" 1 true true None (Some 2)
          1700000000000;
        Sample.spent].
Proof. split; reflexivity. Qed.

(** When the COMMIT fails the tables are as before and the failure is
    TRANSACTION_FAILED. *)
Example john_commit_fails :
  onboardAdmin Sample.env_commit_fails Sample.john Sample.world
  = (inl (ApiErr (createServerError TRANSACTION_FAILED
                    "Connection terminated unexpectedly")),
     mkWorld Sample.store None
       [Query (SelInvitationCode "INVITE2024ABC");
        Query (SelAdminByStudentID "CS2024001");
        Query (SelAdminByEmail "john@example.com");
        Query (SelRole 1);
        Query (SelBranch 1);
        BcryptHash "SecurePass@123";
        Query TxBegin;
        Query (InsAdmin "CS2024001" "john@example.com");
        Query (UpdInvitationCode 7);
        Query TxCommit;
        Query TxRollback]).
Proof. reflexivity. Qed.

(** * Further properties of the service layer *)

(** ** The atomic creation, by outcome *)

(** A run that reached the catch clause: TRANSACTION_FAILED when the
    ROLLBACK goes through, the driver's error when it is rejected. *)
Ltac tx_failed env :=
  let Er := fresh "Er" in
  destruct (fault env ROLLBACK) eqn:Er; simpl;
  refine (ex_intro _ _ (ex_intro _ _ (conj eq_refl (conj eq_refl _))));
  solve [left; eauto | right; eauto].

Lemma createAdminWithTransaction_cases env adminData ic w :
  let a := new_admin_row env adminData in
  (exists e w',
      createAdminWithTransaction env adminData ic w = (inl e, w')
      /\ db w' = db w
      /\ ((exists msg,
              e = ApiErr (createServerError TRANSACTION_FAILED msg))
          \/ (exists m,
                 e = JsError m
                 /\ (fault env CONNECT = Some m
                     \/ fault env ROLLBACK = Some m))))
  \/ (unique_violation (db w) a = false
      /\ List.filter
           (fun c => InvitationCode.CodeID c =? InvitationView.CodeID ic)
           (tblInvitationCode (db w)) <> []
      /\ exists w',
          createAdminWithTransaction env adminData ic w
          = (inr (returning RETURNING_created a), w')
          /\ db w' = committed env a (InvitationView.CodeID ic) (db w)).
Proof.
  intros a.
  unfold createAdminWithTransaction, pool_connect, client_BEGIN,
    client_COMMIT, client_ROLLBACK, client_release, insert_admin,
    update_invitation, driver_fault, committed.
  unfold_monad.
  destruct (fault env CONNECT) as [mc|] eqn:Ec; simpl.
  { left. refine (ex_intro _ _ (ex_intro _ _ _)).
    split; [reflexivity|]. split; [reflexivity|]. right. eauto. }
  destruct (fault env BEGIN) as [m0|]; simpl; [left; tx_failed env|].
  destruct (fault env INSERT_ADMIN) as [m1|]; simpl; [left; tx_failed env|].
  fold a.
  destruct (unique_violation (db w) a); cbn -[returning get];
    [left; tx_failed env|].
  rewrite get_created_AdminID.
  destruct (fault env UPDATE_CODE) as [m2|]; simpl; [left; tx_failed env|].
  destruct (List.filter
              (fun c => InvitationCode.CodeID c =? InvitationView.CodeID ic)
              (tblInvitationCode (db w))) as [|c0 cs] eqn:Ef; simpl;
    [left; tx_failed env|].
  destruct (fault env COMMIT) as [m3|]; simpl; [left; tx_failed env|].
  right. split; [reflexivity|]. split; [discriminate|]. eauto.
Qed.

(** The first row of the ledger join decides the result. *)
Lemma invitation_result_inr env s code ic :
  invitation_result env s code = inr ic ->
  exists rest,
    select_invitation s code = ic :: rest
    /\ InvitationView.IsActive ic = true
    /\ InvitationView.IsUsed ic = false
    /\ is_expired env ic = false.
Proof.
  intros H.
  pose proof (invitation_result_cases env s code) as Hc. simpl in Hc.
  destruct (select_invitation s code) as [|ic0 rest].
  { rewrite Hc in H. discriminate. }
  destruct (InvitationView.IsActive ic0) eqn:Ea; simpl in Hc;
    [|rewrite Hc in H; discriminate].
  destruct (InvitationView.IsUsed ic0) eqn:Eu;
    [rewrite Hc in H; discriminate|].
  destruct (is_expired env ic0) eqn:Ee; rewrite Hc in H; [discriminate|].
  injection H as <-. eauto.
Qed.

Lemma invitation_result_inl env s code e :
  invitation_result env s code = inl e ->
  exists a, e = ApiErr a /\ In (statusCode a) service_statuses
            /\ assoc (errorCode a) ERROR_MESSAGES = Some (message a).
Proof.
  intros H.
  pose proof (invitation_result_cases env s code) as Hc. simpl in Hc.
  destruct (select_invitation s code) as [|ic0 rest].
  { rewrite Hc in H. injection H as <-. eexists. split; [reflexivity|].
    split; [simpl; auto|reflexivity]. }
  destruct (InvitationView.IsActive ic0); simpl in Hc.
  2:{ rewrite Hc in H. injection H as <-. eexists. split; [reflexivity|].
      split; [simpl; auto|reflexivity]. }
  destruct (InvitationView.IsUsed ic0).
  { rewrite Hc in H. injection H as <-. eexists. split; [reflexivity|].
    split; [simpl; auto|reflexivity]. }
  destruct (is_expired env ic0); rewrite Hc in H; [|discriminate].
  injection H as <-. eexists. split; [reflexivity|].
  split; [simpl; auto|reflexivity].
Qed.

(** A probe limited to one row is empty exactly when no row qualifies. *)
Lemma firstn_map_nil {A B} (f : A -> B) (l : list A) :
  firstn 1 (map f l) = [] <-> l = [].
Proof. destruct l; simpl; split; congruence. Qed.

Lemma filter_nil_iff {A} (p : A -> bool) (l : list A) :
  List.filter p l = [] <-> forall x, In x l -> p x = false.
Proof.
  induction l as [|x l IH]; simpl.
  - split; [intros _ y []|reflexivity].
  - destruct (p x) eqn:E.
    + split; [discriminate|]. intros H. specialize (H x (or_introl eq_refl)).
      congruence.
    + rewrite IH. split.
      * intros H y [<-|Hy]; auto.
      * intros H y Hy. apply H. auto.
Qed.

(** What a successful onboarding has established and done. *)
Lemma onboardAdmin_inr env v w o w' :
  onboardAdmin env v w = (inr o, w') ->
  exists ic h,
    invitation_result env (db w) (Candidate.invitationCode v) = inr ic
    /\ Candidate.roleID v = InvitationView.RoleID ic
    /\ select_admin_by_studentID (db w) (Candidate.studentID v) = []
    /\ select_admin_by_email (db w) (Candidate.email v) = []
    /\ select_role (db w) (Candidate.roleID v) <> []
    /\ (forall b, branch_given (Candidate.branchID v) = Some b ->
                  select_branch (db w) b <> [])
    /\ bcrypt_hash env (Candidate.password v) SALT_ROUNDS = Some h
    /\ unique_violation (db w) (new_admin_row env (mkAdminData v h)) = false
    /\ o = returning RETURNING_created (new_admin_row env (mkAdminData v h))
    /\ db w' = committed env (new_admin_row env (mkAdminData v h))
                 (InvitationView.CodeID ic) (db w)
    /\ trace w' = trace w ++ read_events v
                    ++ [BcryptHash (Candidate.password v);
                        Query TxBegin;
                        Query (InsAdmin (Candidate.studentID v)
                                 (Candidate.email v));
                        Query (UpdInvitationCode (InvitationView.CodeID ic));
                        Query TxCommit].
Proof.
  intros H. rewrite onboardAdmin_run in H. cbv zeta in H.
  destruct (invitation_result env (db w) (Candidate.invitationCode v))
    as [e|ic] eqn:Ei; [discriminate|].
  destruct (Candidate.roleID v =? InvitationView.RoleID ic) eqn:Er;
    simpl in H; [|discriminate].
  apply Z.eqb_eq in Er.
  destruct (select_admin_by_studentID (db w) (Candidate.studentID v))
    eqn:Es; [|discriminate].
  destruct (select_admin_by_email (db w) (Candidate.email v)) eqn:Em;
    [|discriminate].
  destruct (select_role (db w) (Candidate.roleID v)) eqn:Ero;
    [discriminate|].
  assert (forall b, branch_given (Candidate.branchID v) = Some b ->
                    select_branch (db w) b <> []) as Hb.
  { intros b Eb. rewrite Eb in H.
    destruct (select_branch (db w) b); [discriminate|discriminate]. }
  assert (exists h,
             bcrypt_hash env (Candidate.password v) SALT_ROUNDS = Some h
             /\ createAdminWithTransaction env (mkAdminData v h) ic
                  (logged w (read_events v
                             ++ [BcryptHash (Candidate.password v)]))
                = (inr o, w')) as (h & Eh & Hc).
  { destruct (branch_given (Candidate.branchID v)) as [b|].
    - destruct (select_branch (db w) b); [discriminate|].
      destruct (bcrypt_hash env (Candidate.password v) SALT_ROUNDS);
        [eauto|discriminate].
    - destruct (bcrypt_hash env (Candidate.password v) SALT_ROUNDS);
        [eauto|discriminate]. }
  exists ic, h.
  repeat (split; [solve [auto | congruence]|]).
  revert Hc. clear H.
  set (w0 := logged w (read_events v ++ [BcryptHash (Candidate.password v)])).
  unfold createAdminWithTransaction, pool_connect, client_BEGIN,
    client_COMMIT, client_ROLLBACK, client_release, insert_admin,
    update_invitation, driver_fault, committed.
  unfold_monad.
  destruct (fault env CONNECT); simpl; [discriminate|].
  destruct (fault env BEGIN); simpl; [rolled_back env|].
  destruct (fault env INSERT_ADMIN); simpl; [rolled_back env|].
  destruct (unique_violation (db w)
              (new_admin_row env (mkAdminData v h))) eqn:Eu;
    cbn -[returning get]; [rolled_back env|].
  rewrite get_created_AdminID.
  destruct (fault env UPDATE_CODE); simpl; [rolled_back env|].
  destruct (List.filter _ (tblInvitationCode (db w))); simpl;
    [rolled_back env|].
  destruct (fault env COMMIT); simpl; [rolled_back env|].
  intros Hc. injection Hc as <- <-. simpl.
  repeat split; try reflexivity.
  unfold read_events. repeat (rewrite <- app_assoc; simpl). reflexivity.
Qed.

(** What a failed onboarding has done: nothing to the tables; and its
    error is an APIError of the service layer, or the driver's error of a
    refused client or of a rejected ROLLBACK. *)
Lemma onboardAdmin_inl env v w e w' :
  onboardAdmin env v w = (inl e, w') ->
  db w' = db w
  /\ ((exists a, e = ApiErr a /\ In (statusCode a) service_statuses)
      \/ (exists m,
             e = JsError m
             /\ (fault env CONNECT = Some m \/ fault env ROLLBACK = Some m))).
Proof.
  intros H. rewrite onboardAdmin_run in H. cbv zeta in H.
  assert (forall h w0,
             db w0 = db w ->
             createAdminWithTransaction env (mkAdminData v h)
               match invitation_result env (db w)
                       (Candidate.invitationCode v) with
               | inr ic => ic
               | inl _ => InvitationView.mk 0 EmptyString 0 false false None
                            EmptyString
               end w0 = (inl e, w') ->
             db w' = db w
             /\ ((exists a, e = ApiErr a /\ In (statusCode a) service_statuses)
                 \/ (exists m,
                        e = JsError m
                        /\ (fault env CONNECT = Some m
                            \/ fault env ROLLBACK = Some m))))
    as Htx.
  { intros h w0 Hw0 Hc.
    destruct (createAdminWithTransaction_cases env (mkAdminData v h)
                match invitation_result env (db w)
                        (Candidate.invitationCode v) with
                | inr ic => ic
                | inl _ => InvitationView.mk 0 EmptyString 0 false false
                             None EmptyString
                end w0)
      as [(e1 & w1 & E & Hdb & He)|(_ & _ & w1 & E & _)];
      rewrite E in Hc; [|discriminate].
    injection Hc as <- <-. split; [congruence|].
    destruct He as [(msg & ->)|He]; [left|right; exact He].
    eexists. split; [reflexivity|]. simpl. auto. }
  destruct (invitation_result env (db w) (Candidate.invitationCode v))
    as [e0|ic] eqn:Ei.
  { injection H as <- <-. split; [reflexivity|]. left.
    destruct (invitation_result_inl _ _ _ _ Ei) as (a & -> & Ha & _). eauto. }
  split_run H;
    try (injection H as <- <-; split; [reflexivity|]; left;
         eexists; split; [reflexivity|]; simpl; auto);
    eapply Htx; try eassumption; reflexivity.
Qed.

(** ** Uniqueness probes *)

(** X1: the two probes answer true exactly when some admin has the student
    identifier, respectively the email; each issues its one lookup and
    changes nothing. *)
Theorem existence_probes_exact studentID email w :
  (exists b,
      checkStudentIDExists studentID w
      = (inr b, logged w [Query (SelAdminByStudentID studentID)])
      /\ (b = true <->
          exists a, In a (tblAdmin (db w)) /\ Admin.StudentID a = studentID))
  /\ (exists b,
         checkEmailExists email w
         = (inr b, logged w [Query (SelAdminByEmail email)])
         /\ (b = true <->
             exists a, In a (tblAdmin (db w)) /\ Admin.Email a = email)).
Proof.
  split.
  - rewrite checkStudentIDExists_run. eexists. split; [reflexivity|].
    unfold select_admin_by_studentID.
    destruct (List.filter (fun a => (Admin.StudentID a =? studentID)%string)
                (tblAdmin (db w))) as [|a l] eqn:Ef; simpl.
    + split; [discriminate|]. intros (a & Ha & Hs).
      rewrite filter_nil_iff in Ef. specialize (Ef a Ha). simpl in Ef.
      apply String.eqb_neq in Ef. congruence.
    + split; [|reflexivity]. intros _.
      assert (In a (List.filter
                      (fun a => (Admin.StudentID a =? studentID)%string)
                      (tblAdmin (db w)))) as Hin
          by (rewrite Ef; left; reflexivity).
      apply filter_In in Hin as [Hin Hs]. apply String.eqb_eq in Hs. eauto.
  - rewrite checkEmailExists_run. eexists. split; [reflexivity|].
    unfold select_admin_by_email.
    destruct (List.filter (fun a => (Admin.Email a =? email)%string)
                (tblAdmin (db w))) as [|a l] eqn:Ef; simpl.
    + split; [discriminate|]. intros (a & Ha & Hs).
      rewrite filter_nil_iff in Ef. specialize (Ef a Ha). simpl in Ef.
      apply String.eqb_neq in Ef. congruence.
    + split; [|reflexivity]. intros _.
      assert (In a (List.filter
                      (fun a => (Admin.Email a =? email)%string)
                      (tblAdmin (db w)))) as Hin
          by (rewrite Ef; left; reflexivity).
      apply filter_In in Hin as [Hin Hs]. apply String.eqb_eq in Hs. eauto.
Qed.

(** ** Onboarding: failure and success *)



(** A row of the ledger join comes from a row of the code table and the
    row of its role. *)
Lemma select_invitation_origin s code ic rest :
  select_invitation s code = ic :: rest ->
  exists c r,
    In c (tblInvitationCode s)
    /\ InvitationCode.Code c = code
    /\ In r (tblRole s)
    /\ Role.RoleID r = InvitationCode.RoleID c
    /\ ic = join_role c r.
Proof.
  intros H.
  assert (In ic (select_invitation s code)) as Hin
      by (rewrite H; left; reflexivity).
  unfold select_invitation in Hin.
  apply in_flat_map in Hin as (c & Hc & Hin).
  apply filter_In in Hc as [Hc Hcode]. apply String.eqb_eq in Hcode.
  apply in_map_iff in Hin as (r & <- & Hr).
  apply filter_In in Hr as [Hr Hrole]. apply Z.eqb_eq in Hrole.
  exists c, r. auto.
Qed.

(** X3: after a successful onboarding the Admin table has one more row,
    built from the candidate, carrying the digest of the password, the
    role the code is bound to and the code string; a row of the code
    table with that code string is used, its back-reference naming the new
    admin; the role of the new row exists and so does its branch when it
    has one; the Role and Branch tables are untouched. *)
Theorem onboardAdmin_success_state env v w o w' :
  onboardAdmin env v w = (inr o, w') ->
  exists a c h,
    tblAdmin (db w') = tblAdmin (db w) ++ [a]
    /\ Admin.StudentID a = Candidate.studentID v
    /\ Admin.Email a = Candidate.email v
    /\ Admin.FullName a = Candidate.fullName v
    /\ Admin.Phone a = Candidate.phone v
    /\ Admin.RoleID a = Candidate.roleID v
    /\ Admin.InvitationCode a = Candidate.invitationCode v
    /\ bcrypt_hash env (Candidate.password v) SALT_ROUNDS = Some h
    /\ Admin.PasswordHash a = h
    /\ o !! "AdminID" = Some (JNum (Admin.AdminID a))
    /\ In c (tblInvitationCode (db w'))
    /\ InvitationCode.Code c = Candidate.invitationCode v
    /\ InvitationCode.RoleID c = Admin.RoleID a
    /\ InvitationCode.IsUsed c = true
    /\ InvitationCode.UsedByAdminID c = Some (Admin.AdminID a)
    /\ (exists r, In r (tblRole (db w')) /\ Role.RoleID r = Admin.RoleID a)
    /\ (forall b, Admin.BranchID a = Some b ->
                  exists br, In br (tblBranch (db w'))
                             /\ Branch.BranchID br = b)
    /\ tblRole (db w') = tblRole (db w)
    /\ tblBranch (db w') = tblBranch (db w).
Proof.
  intros H.
  destruct (onboardAdmin_inr _ _ _ _ _ H)
    as (ic & h & Hi & Hr & _ & _ & Hrole & Hbr & Hh & _ & -> & Hdb & _).
  destruct (invitation_result_inr _ _ _ _ Hi) as (rest & Hsel & _).
  destruct (select_invitation_origin _ _ _ _ Hsel)
    as (c & r & Hc & Hcode & Hrin & Hrid & ->).
  set (a := new_admin_row env (mkAdminData v h)).
  exists a, (mark_used env (Some (Admin.AdminID a)) c), h.
  rewrite Hdb. unfold committed. cbn [db tblAdmin tblInvitationCode tblRole
    tblBranch].
  repeat (split; [reflexivity|]).
  split; [exact Hh|]. split; [reflexivity|]. split; [reflexivity|].
  split.
  { apply in_map_iff. exists c. split; [|exact Hc].
    unfold mark_used_where. simpl. by rewrite Z.eqb_refl. }
  split; [exact Hcode|].
  split; [simpl; simpl in Hr; congruence|].
  split; [reflexivity|]. split; [reflexivity|].
  split.
  { exists r. split; [exact Hrin|]. simpl. simpl in Hr. congruence. }
  split; [|split; reflexivity].
  intros b Hb. simpl in Hb. specialize (Hbr b Hb).
  destruct (select_branch (db w) b) as [|br l] eqn:Eb; [congruence|].
  assert (In br (select_branch (db w) b)) as Hin
      by (rewrite Eb; left; reflexivity).
  apply filter_In in Hin as [Hin Hid]. apply Z.eqb_eq in Hid. eauto.
Qed.

(** John's onboarding. *)
Lemma onboardAdmin_success_state_witness :
  exists a c h,
    tblAdmin (db (snd (onboardAdmin Sample.env Sample.john Sample.world)))
    = [Sample.alice; a]
    /\ Admin.Email a = "john@example.com"
    /\ Admin.PasswordHash a = h
    /\ InvitationCode.Code c = "INVITE2024ABC"
    /\ InvitationCode.UsedByAdminID c = Some (Admin.AdminID a).
Proof.
  destruct (onboardAdmin_success_state Sample.env Sample.john Sample.world
              (returning RETURNING_created Sample.john_row)
              (snd (onboardAdmin Sample.env Sample.john Sample.world)))
    as (a & c & h & H1 & _ & H3 & _ & _ & _ & _ & _ & H9 & _ & _ & H12 & _
        & _ & H15 & _).
  { assert (fst (onboardAdmin Sample.env Sample.john Sample.world)
            = inr (returning RETURNING_created Sample.john_row)) as E
        by (lazy -[returning get]; reflexivity).
    rewrite <- E. apply surjective_pairing. }
  exists a, c, h. auto.
Defined.

(** ** The invitation code is single-use *)

Lemma join_role_mark_used env usedBy codeID c r :
  join_role (mark_used_where env usedBy codeID c) r
  = view_used codeID (join_role c r).
Proof.
  unfold mark_used_where, view_used, join_role. simpl.
  destruct (InvitationCode.CodeID c =? codeID); reflexivity.
Qed.

Lemma select_invitation_committed env a codeID s code :
  select_invitation (committed env a codeID s) code
  = map (view_used codeID) (select_invitation s code).
Proof.
  unfold select_invitation, committed. cbn [tblInvitationCode tblRole].
  induction (tblInvitationCode s) as [|c codes IH]; [reflexivity|].
  cbn [map List.filter].
  assert (InvitationCode.Code
            (mark_used_where env (Some (Admin.AdminID a)) codeID c)
          = InvitationCode.Code c) as ->
      by (unfold mark_used_where;
          destruct (InvitationCode.CodeID c =? codeID); reflexivity).
  destruct (InvitationCode.Code c =? code)%string; [|exact IH].
  cbn [flat_map]. rewrite map_app, IH. f_equal.
  assert (InvitationCode.RoleID
            (mark_used_where env (Some (Admin.AdminID a)) codeID c)
          = InvitationCode.RoleID c) as ->
      by (unfold mark_used_where;
          destruct (InvitationCode.CodeID c =? codeID); reflexivity).
  rewrite map_map. apply map_ext. intros r. apply join_role_mark_used.
Qed.

(** X4: once an onboarding has succeeded, every later onboarding that
    presents the same invitation code string, whoever the candidate and
    whatever the clock, fails with INVITATION_CODE_ALREADY_USED after the
    lookup of the code, and changes nothing. *)
Theorem invitation_code_single_use env v w o w' env2 v2 :
  onboardAdmin env v w = (inr o, w') ->
  Candidate.invitationCode v2 = Candidate.invitationCode v ->
  onboardAdmin env2 v2 w'
  = (inl (ApiErr (createValidationError INVITATION_CODE_ALREADY_USED
                    "Invitation code has already been used")),
     logged w' [Query (SelInvitationCode (Candidate.invitationCode v))]).
Proof.
  intros H Hcode.
  destruct (onboardAdmin_inr _ _ _ _ _ H)
    as (ic & h & Hi & _ & _ & _ & _ & _ & _ & _ & _ & Hdb & _).
  destruct (invitation_result_inr _ _ _ _ Hi) as (rest & Hsel & Hact & _).
  rewrite onboardAdmin_run. cbv zeta. rewrite Hcode.
  pose proof (invitation_result_cases env2 (db w')
                (Candidate.invitationCode v)) as Hc.
  simpl in Hc. rewrite Hdb, select_invitation_committed, Hsel in Hc.
  cbn [map] in Hc. unfold view_used in Hc. rewrite Z.eqb_refl in Hc.
  cbn [InvitationView.IsActive InvitationView.IsUsed] in Hc.
  rewrite Hact in Hc. cbn [negb] in Hc.
  rewrite <- Hdb in Hc. rewrite Hc. reflexivity.
Qed.

(** John is onboarded; Alice's data with John's code is then refused. *)
Lemma invitation_code_single_use_witness :
  let w' := snd (onboardAdmin Sample.env Sample.john Sample.world) in
  fst (onboardAdmin Sample.env Sample.alice_again w')
  = inl (ApiErr (createValidationError INVITATION_CODE_ALREADY_USED
                   "Invitation code has already been used")).
Proof.
  intros w'.
  assert (onboardAdmin Sample.env Sample.john Sample.world
          = (inr (returning RETURNING_created Sample.john_row), w')) as E.
  { assert (fst (onboardAdmin Sample.env Sample.john Sample.world)
            = inr (returning RETURNING_created Sample.john_row)) as E
        by (lazy -[returning get]; reflexivity).
    rewrite <- E. apply surjective_pairing. }
  rewrite (invitation_code_single_use Sample.env Sample.john Sample.world _
             w' Sample.env Sample.alice_again E eq_refl).
  reflexivity.
Defined.

(** ** Uniqueness of admins *)

Lemma unique_violation_false s a :
  unique_violation s a = false ->
  ~ In (Admin.AdminID a) (map Admin.AdminID (tblAdmin s))
  /\ ~ In (Admin.StudentID a) (map Admin.StudentID (tblAdmin s))
  /\ ~ In (Admin.Email a) (map Admin.Email (tblAdmin s)).
Proof.
  unfold unique_violation. intros H.
  assert (forall x, In x (tblAdmin s) ->
                    Admin.AdminID x <> Admin.AdminID a
                    /\ Admin.StudentID x <> Admin.StudentID a
                    /\ Admin.Email x <> Admin.Email a) as Hall.
  { intros x Hx.
    destruct ((Admin.AdminID x =? Admin.AdminID a)
              || (Admin.StudentID x =? Admin.StudentID a)%string
              || (Admin.Email x =? Admin.Email a)%string) eqn:E.
    - exfalso. assert (existsb
                 (fun a0 =>
                    (Admin.AdminID a0 =? Admin.AdminID a)
                    || (Admin.StudentID a0 =? Admin.StudentID a)%string
                    || (Admin.Email a0 =? Admin.Email a)%string)
                 (tblAdmin s) = true) as Ht
          by (apply existsb_exists; eauto).
      congruence.
    - apply orb_false_iff in E as [E E3]. apply orb_false_iff in E as [E1 E2].
      apply Z.eqb_neq in E1. apply String.eqb_neq in E2, E3. auto. }
  repeat split; intros Hin; apply in_map_iff in Hin as (x & Hx & Hin);
    destruct (Hall x Hin) as (H1 & H2 & H3); congruence.
Qed.

Lemma NoDup_snoc {A} (l : list A) x : NoDup l -> ~ In x l -> NoDup (l ++ [x]).
Proof.
  intros Hl Hx. apply NoDup_app; repeat split.
  - exact Hl.
  - intros y Hy Hy'. apply list_elem_of_In in Hy, Hy'.
    destruct Hy' as [<-|[]]. contradiction.
  - apply NoDup_singleton.
Qed.

Lemma unique_admins_committed env a codeID s :
  unique_admins s -> unique_violation s a = false ->
  unique_admins (committed env a codeID s).
Proof.
  intros (H1 & H2 & H3) Hu.
  destruct (unique_violation_false _ _ Hu) as (N1 & N2 & N3).
  unfold unique_admins, committed. cbn [tblAdmin]. rewrite !map_app.
  cbn [map]. repeat split; apply NoDup_snoc; assumption.
Qed.

Lemma unique_admins_patched env id d newHash s :
  unique_admins s ->
  unique_admins
    (mkStore (map (patched_where env id d newHash) (tblAdmin s))
       (tblInvitationCode s) (tblRole s) (tblBranch s)).
Proof.
  intros (H1 & H2 & H3). unfold unique_admins. cbn [tblAdmin].
  rewrite !map_map.
  assert (forall (A : Type) (f : Admin.row -> A),
             (forall x, f (patched env d newHash x) = f x) ->
             map (fun x => f (patched_where env id d newHash x)) (tblAdmin s)
             = map f (tblAdmin s)) as Hm.
  { intros A f Hf. apply map_ext. intros x. unfold patched_where.
    destruct (Admin.AdminID x =? id); [apply Hf|reflexivity]. }
  rewrite !Hm by reflexivity. auto.
Qed.

(** X5: if no two admins share the numeric key, the student identifier or
    the email, then this still holds after any onboarding and after any
    profile update, successful or not. *)
Theorem unique_admins_preserved env w :
  unique_admins (db w) ->
  (forall v, unique_admins (db (snd (onboardAdmin env v w))))
  /\ (forall id d, unique_admins (db (snd (updateAdmin env id d w)))).
Proof.
  intros Hu. split.
  - intros v. destruct (onboardAdmin env v w) as [[e|o] w'] eqn:E.
    + cbn [snd]. rewrite (proj1 (onboardAdmin_inl _ _ _ _ _ E)). exact Hu.
    + cbn [snd].
      destruct (onboardAdmin_inr _ _ _ _ _ E)
        as (ic & h & _ & _ & _ & _ & _ & _ & _ & Hv & _ & -> & _).
      apply unique_admins_committed; assumption.
  - intros id d. rewrite updateAdmin_run. cbv zeta.
    destruct (List.filter (fun a => Admin.AdminID a =? id) (tblAdmin (db w)))
      as [|a rest]; [exact Hu|].
    destruct (supplied (UpdateData.password d)) as [p|].
    + destruct (UpdateData.oldPassword d); try exact Hu.
      destruct (bcrypt_compare env s (Admin.PasswordHash a)); [|exact Hu].
      destruct (bcrypt_hash env p SALT_ROUNDS); [|exact Hu].
      apply unique_admins_patched. exact Hu.
    + apply unique_admins_patched. exact Hu.
Qed.

Lemma unique_admins_preserved_witness :
  unique_admins (db Sample.world)
  /\ unique_admins
       (db (snd (onboardAdmin Sample.env Sample.john Sample.world)))
  /\ unique_admins
       (db (snd (updateAdmin Sample.env 1 Sample.rename Sample.world))).
Proof.
  assert (unique_admins (db Sample.world)) as Hu.
  { unfold unique_admins. simpl.
    repeat split; apply NoDup_singleton. }
  split; [exact Hu|].
  destruct (unique_admins_preserved Sample.env Sample.world Hu) as [H1 H2].
  split; [apply H1|apply H2].
Defined.

(** ** Login *)

Lemma select_admin_by_email_nil s email :
  select_admin_by_email s email = [] ->
  List.filter (fun a => (Admin.Email a =? email)%string) (tblAdmin s) = [].
Proof. unfold select_admin_by_email. apply firstn_map_nil. Qed.

(** X6: an admin who has just been onboarded can log in with the email and
    the password of the candidate, provided the bcrypt primitive accepts a
    password against its own digest; the login returns the key the
    onboarding returned. *)
Theorem onboard_then_login env v w o w' :
  onboardAdmin env v w = (inr o, w') ->
  (forall h, bcrypt_hash env (Candidate.password v) SALT_ROUNDS = Some h ->
             bcrypt_compare env (Candidate.password v) h = true) ->
  exists o2,
    fst (loginAdmin env (Candidate.email v) (Candidate.password v) w')
    = inr o2
    /\ o2 !! "AdminID" = o !! "AdminID"
    /\ o2 !! "AdminID" = Some (JNum (fresh_AdminID env))
    /\ o2 !! "Email" = Some (JStr (Candidate.email v)).
Proof.
  intros H Hb.
  destruct (onboardAdmin_inr _ _ _ _ _ H)
    as (ic & h & _ & _ & _ & Hm & _ & _ & Hh & _ & -> & Hdb & _).
  rewrite loginAdmin_run, Hdb. unfold committed. cbn [tblAdmin].
  rewrite List.filter_app, (select_admin_by_email_nil _ _ Hm).
  cbn [List.filter new_admin_row Admin.Email validatedData app].
  rewrite String.eqb_refl. cbn [fst].
  change (Admin.PasswordHash (new_admin_row env (mkAdminData v h))) with h.
  rewrite (Hb h Hh). eexists. split; [reflexivity|].
  repeat split; reflexivity.
Qed.

Lemma onboard_then_login_witness :
  let w' := snd (onboardAdmin Sample.env Sample.john Sample.world) in
  exists o2,
    fst (loginAdmin Sample.env "john@example.com" "SecurePass@123" w')
    = inr o2
    /\ o2 !! "AdminID" = Some (JNum 2).
Proof.
  intros w'.
  assert (onboardAdmin Sample.env Sample.john Sample.world
          = (inr (returning RETURNING_created Sample.john_row), w')) as E.
  { assert (fst (onboardAdmin Sample.env Sample.john Sample.world)
            = inr (returning RETURNING_created Sample.john_row)) as E
        by (lazy -[returning get]; reflexivity).
    rewrite <- E. apply surjective_pairing. }
  destruct (onboard_then_login Sample.env Sample.john Sample.world _ w' E)
    as (o2 & H1 & _ & H3 & _).
  { intros h Hh. injection Hh as <-. reflexivity. }
  exists o2. split; [exact H1|exact H3].
Defined.

(** X10: a login never changes a table; it succeeds exactly when the first
    row with the email carries a hash the password verifies against, and
    then returns that row's key, student identifier, email, name and
    role. *)
Theorem loginAdmin_reads_only env email password w :
  db (snd (loginAdmin env email password w)) = db w
  /\ ((exists o, fst (loginAdmin env email password w) = inr o) <->
      exists a rest,
        List.filter (fun x => (Admin.Email x =? email)%string)
          (tblAdmin (db w)) = a :: rest
        /\ bcrypt_compare env password (Admin.PasswordHash a) = true)
  /\ (forall o,
         fst (loginAdmin env email password w) = inr o ->
         exists a,
           In a (tblAdmin (db w))
           /\ Admin.Email a = email
           /\ o !! "AdminID" = Some (JNum (Admin.AdminID a))
           /\ o !! "StudentID" = Some (JStr (Admin.StudentID a))
           /\ o !! "Email" = Some (JStr email)
           /\ o !! "FullName" = Some (JStr (Admin.FullName a))
           /\ o !! "RoleID" = Some (JNum (Admin.RoleID a))).
Proof.
  rewrite loginAdmin_run.
  destruct (List.filter (fun x => (Admin.Email x =? email)%string)
              (tblAdmin (db w))) as [|a rest] eqn:Ef.
  - split; [reflexivity|]. split.
    + split; [intros [o Ho]; discriminate|].
      intros (a & rest & Hf & _). discriminate.
    + intros o Ho. discriminate.
  - split; [reflexivity|].
    assert (In a (tblAdmin (db w)) /\ Admin.Email a = email) as [Hin He].
    { assert (In a (List.filter
                      (fun x => (Admin.Email x =? email)%string)
                      (tblAdmin (db w)))) as Hin
          by (rewrite Ef; left; reflexivity).
      apply filter_In in Hin as [Hin He]. apply String.eqb_eq in He. auto. }
    cbn [fst].
    destruct (bcrypt_compare env password (Admin.PasswordHash a)) eqn:Ec.
    + split.
      * split; [|eauto]. intros _. exists a, rest. auto.
      * intros o Ho. injection Ho as <-. exists a.
        split; [exact Hin|]. split; [exact He|].
        rewrite <- He. repeat split; reflexivity.
    + split.
      * split; [intros [o Ho]; discriminate|].
        intros (a' & rest' & Hf & Hc'). injection Hf as <- _. congruence.
      * intros o Ho. discriminate.
Qed.

(** ** Profile update: re-authentication, failure, login afterwards *)

(** X8: a profile update that fails leaves every table as it was. *)
Theorem updateAdmin_failure_changes_nothing env id d w e w' :
  updateAdmin env id d w = (inl e, w') -> db w' = db w.
Proof.
  intros H. rewrite updateAdmin_run in H. cbv zeta in H.
  split_run H; injection H as _ <-; reflexivity.
Qed.

(** Alice's password change with a wrong old password. *)
Lemma updateAdmin_failure_changes_nothing_witness :
  db (snd (updateAdmin Sample.env 1
             (UpdateData.mk None None (Some "NewSecure@Pass789")
                (JStr "WrongPassword@123"))
             Sample.world))
  = Sample.store.
Proof.
  refine (updateAdmin_failure_changes_nothing Sample.env 1
            (UpdateData.mk None None (Some "NewSecure@Pass789")
               (JStr "WrongPassword@123"))
            Sample.world
            (ApiErr (createValidationError INVALID_INPUT
                       "Current password is incorrect"))
            _ _).
  rewrite updateAdmin_run. reflexivity.
Defined.

(** X7: a profile update hashes a new password, and changes the stored
    hash of any admin, only after the old password given with it has
    verified against the stored hash of the addressed admin. *)
Theorem updateAdmin_reauthenticates env id d w :
  let w' := snd (updateAdmin env id d w) in
  let verified :=
    exists a rest old,
      List.filter (fun x => Admin.AdminID x =? id) (tblAdmin (db w))
      = a :: rest
      /\ UpdateData.oldPassword d = JStr old
      /\ bcrypt_compare env old (Admin.PasswordHash a) = true in
  ((exists evs p, trace w' = trace w ++ evs /\ In (BcryptHash p) evs) ->
   verified)
  /\ (map Admin.PasswordHash (tblAdmin (db w'))
      <> map Admin.PasswordHash (tblAdmin (db w)) ->
      verified).
Proof.
  cbv zeta. rewrite updateAdmin_run. cbv zeta.
  assert (forall l : list Admin.row,
             map Admin.PasswordHash
               (map (patched_where env id d None) l)
             = map Admin.PasswordHash l) as Hnone.
  { intros l. rewrite map_map. apply map_ext. intros x.
    unfold patched_where. destruct (Admin.AdminID x =? id); reflexivity. }
  assert (forall (l evs : list Event) p,
             l ++ [Query (SelAdminHash id); Query (UpdAdmin id)] = l ++ evs ->
             In (BcryptHash p) evs -> False) as Hq2.
  { intros l evs p E Hin. apply app_inv_head in E. subst evs.
    simpl in Hin. intuition discriminate. }
  assert (forall (l evs : list Event) p,
             l ++ [Query (SelAdminHash id)] = l ++ evs ->
             In (BcryptHash p) evs -> False) as Hq1.
  { intros l evs p E Hin. apply app_inv_head in E. subst evs.
    simpl in Hin. intuition discriminate. }
  assert (forall (l evs : list Event) p x y,
             l ++ [Query (SelAdminHash id); BcryptCompare x y] = l ++ evs ->
             In (BcryptHash p) evs -> False) as Hq3.
  { intros l evs p x y E Hin. apply app_inv_head in E. subst evs.
    simpl in Hin. intuition discriminate. }
  destruct (List.filter (fun x => Admin.AdminID x =? id) (tblAdmin (db w)))
    as [|a rest].
  { cbn [snd logged trace db]. split.
    - intros (evs & p & E & Hin). exfalso. eauto.
    - intros Hne. congruence. }
  destruct (supplied (UpdateData.password d)) as [p|].
  2:{ cbn [snd updated_world trace db tblAdmin]. split.
      - intros (evs & p & E & Hin). exfalso. eauto.
      - intros Hne. rewrite Hnone in Hne. congruence. }
  destruct (UpdateData.oldPassword d) as [| |b|z|old|ms];
    try (cbn [snd logged trace db]; split;
         [intros (evs & p' & E & Hin); exfalso; eapply Hq3; eassumption
         |intros Hne; apply False_ind, Hne; reflexivity]).
  destruct (bcrypt_compare env old (Admin.PasswordHash a)) eqn:Ec.
  - split; intros _; exists a, rest, old; auto.
  - cbn [snd logged trace db]. split.
    + intros (evs & p' & E & Hin). exfalso. eauto.
    + intros Hne. congruence.
Qed.

Lemma updateAdmin_reauthenticates_witness :
  exists a rest old,
    List.filter (fun x => Admin.AdminID x =? 1) (tblAdmin Sample.store)
    = a :: rest
    /\ UpdateData.oldPassword Sample.change_password = JStr old
    /\ bcrypt_compare Sample.env old (Admin.PasswordHash a) = true.
Proof.
  refine (proj2 (updateAdmin_reauthenticates Sample.env 1
                   Sample.change_password Sample.world) _).
  rewrite updateAdmin_run. simpl. discriminate.
Defined.

(** X9: after a successful password change the admin logs in with the new
    password, provided the bcrypt primitive accepts a password against its
    own digest and the admin's row is the first one with its email. *)
Theorem password_change_then_login env id d w o w' a rest p :
  updateAdmin env id d w = (inr o, w') ->
  supplied (UpdateData.password d) = Some p ->
  List.filter (fun x => (Admin.Email x =? Admin.Email a)%string)
    (tblAdmin (db w)) = a :: rest ->
  Admin.AdminID a = id ->
  (forall h, bcrypt_hash env p SALT_ROUNDS = Some h ->
             bcrypt_compare env p h = true) ->
  exists o2,
    fst (loginAdmin env (Admin.Email a) p w') = inr o2
    /\ o2 !! "AdminID" = Some (JNum id).
Proof.
  intros H Hp Hf Hid Hb. rewrite updateAdmin_run in H. cbv zeta in H.
  rewrite Hp in H.
  destruct (List.filter (fun x => Admin.AdminID x =? id) (tblAdmin (db w)))
    as [|a0 rest0]; [discriminate|].
  destruct (UpdateData.oldPassword d); try discriminate.
  destruct (bcrypt_compare env s (Admin.PasswordHash a0)); [|discriminate].
  destruct (bcrypt_hash env p SALT_ROUNDS) as [h|] eqn:Eh; [|discriminate].
  injection H as _ <-.
  rewrite loginAdmin_run. unfold updated_world. cbn [db tblAdmin].
  assert (forall l,
             List.filter (fun x => (Admin.Email x =? Admin.Email a)%string)
               (map (patched_where env id d (Some h)) l)
             = map (patched_where env id d (Some h))
                 (List.filter
                    (fun x => (Admin.Email x =? Admin.Email a)%string) l))
    as Hfm.
  { induction l as [|x l IH]; [reflexivity|]. cbn [map List.filter].
    assert (Admin.Email (patched_where env id d (Some h) x) = Admin.Email x)
      as -> by (unfold patched_where;
                destruct (Admin.AdminID x =? id); reflexivity).
    destruct (Admin.Email x =? Admin.Email a)%string; cbn [map];
      congruence. }
  rewrite Hfm, Hf. cbn [map fst].
  assert (patched_where env id d (Some h) a = patched env d (Some h) a)
    as -> by (unfold patched_where; rewrite Hid, Z.eqb_refl; reflexivity).
  change (Admin.PasswordHash (patched env d (Some h) a)) with h.
  rewrite (Hb h eq_refl). eexists. split; [reflexivity|].
  subst id. reflexivity.
Qed.

Lemma password_change_then_login_witness :
  let w' := snd (updateAdmin Sample.env 1 Sample.change_password
                   Sample.world) in
  exists o2,
    fst (loginAdmin Sample.env "alice@example.com" "NewSecure@Pass789" w')
    = inr o2
    /\ o2 !! "AdminID" = Some (JNum 1).
Proof.
  intros w'.
  assert (updateAdmin Sample.env 1 Sample.change_password Sample.world
          = (inr (returning RETURNING_updated Sample.alice_changed), w'))
    as E by (subst w'; rewrite updateAdmin_run; reflexivity).
  refine (password_change_then_login Sample.env 1 Sample.change_password
            Sample.world _ w' Sample.alice [] "NewSecure@Pass789" E _ _ _ _).
  - reflexivity.
  - reflexivity.
  - reflexivity.
  - intros h Hh. injection Hh as <-. reflexivity.
Defined.

(** ** Tokens *)

Lemma generateJWT_run rt penv secret span t0 admin :
  JWT_SECRET penv = Some secret ->
  truthy (JStr secret) = true ->
  timespan rt (env_or (JWT_EXPIRY penv) "24h") = Some span ->
  generateJWT rt penv t0 admin
  = inr (Jwt.Signed secret
           (Jwt.mkClaims (get admin "AdminID") (get admin "StudentID")
              (get admin "Email") (get admin "RoleID")
              (get admin "FullName") "gfg-event-management" "admin-api"
              ("admin-" ++ template rt (get admin "AdminID"))%string
              (t0 / 1000 + span))).
Proof.
  intros Hs Ht Hspan. unfold generateJWT, jwt_sign.
  rewrite Hs. cbn [of_opt_string]. rewrite Ht. cbn [negb].
  rewrite Hspan. reflexivity.
Qed.

(** X11: a token issued for an admin verifies under the same secret at
    every moment before its expiry, and the claims it yields are the
    admin's key, student identifier, email, role and name, the subject
    naming the key and the expiry lying one time span after the issuing;
    the span is that of JWT_EXPIRY, or of 24h when the variable is unset
    or empty. *)
Theorem token_round_trip rt penv secret span t0 t1 admin :
  JWT_SECRET penv = Some secret ->
  truthy (JStr secret) = true ->
  timespan rt (env_or (JWT_EXPIRY penv) "24h") = Some span ->
  t1 / 1000 < t0 / 1000 + span ->
  exists token c,
    generateJWT rt penv t0 admin = inr token
    /\ verifyJWT (Some secret) t1 token = inr c
    /\ Jwt.adminID c = get admin "AdminID"
    /\ Jwt.studentID c = get admin "StudentID"
    /\ Jwt.email c = get admin "Email"
    /\ Jwt.roleID c = get admin "RoleID"
    /\ Jwt.fullName c = get admin "FullName"
    /\ Jwt.sub c = ("admin-" ++ template rt (get admin "AdminID"))%string
    /\ Jwt.exp c = t0 / 1000 + span.
Proof.
  intros Hs Ht Hspan Hlt.
  rewrite (generateJWT_run rt penv secret span t0 admin Hs Ht Hspan).
  eexists _, _. split; [reflexivity|]. split.
  - unfold verifyJWT. cbn [of_opt_string]. rewrite Ht. cbn [negb].
    change (default EmptyString (Some secret)) with secret.
    unfold Jwt.verify. rewrite String.eqb_refl. cbn [negb Jwt.exp].
    apply Z.leb_gt in Hlt. rewrite Hlt. reflexivity.
  - repeat split; reflexivity.
Qed.

(** Alice's token, issued at the sample clock with the default span, one
    hour later. *)
Lemma token_round_trip_witness :
  exists token c,
    generateJWT Deployment.runtime Deployment.penv (clock Sample.env)
      (returning SELECT_login Sample.alice) = inr token
    /\ verifyJWT (Some "s3cret") (clock Sample.env + 3600000) token = inr c
    /\ Jwt.adminID c = JNum 1
    /\ Jwt.sub c = "admin-1"
    /\ Jwt.exp c = 1700086400.
Proof.
  destruct (token_round_trip Deployment.runtime Deployment.penv "s3cret"
              86400 (clock Sample.env) (clock Sample.env + 3600000)
              (returning SELECT_login Sample.alice))
    as (token & c & H1 & H2 & H3 & _ & _ & _ & _ & H8 & H9);
    try reflexivity.
  exists token, c. rewrite H3, H8, H9. repeat split; try assumption.
Defined.

(** X12: a token issued for an admin is rejected from its expiry on, and
    at any time under any other secret; both rejections are INTERNAL_ERROR
    with status 500. *)
Theorem token_rejected_when_stale_or_forged rt penv secret span t0 admin :
  JWT_SECRET penv = Some secret ->
  truthy (JStr secret) = true ->
  timespan rt (env_or (JWT_EXPIRY penv) "24h") = Some span ->
  exists token,
    generateJWT rt penv t0 admin = inr token
    /\ (forall t1,
           t0 / 1000 + span <= t1 / 1000 ->
           verifyJWT (Some secret) t1 token
           = inl (ApiErr (mkAPIError 500 INTERNAL_ERROR
                            "JWT verification failed: jwt expired")))
    /\ (forall other t1,
           other <> secret ->
           truthy (JStr other) = true ->
           verifyJWT (Some other) t1 token
           = inl (ApiErr (mkAPIError 500 INTERNAL_ERROR
                            "JWT verification failed: invalid signature"))).
Proof.
  intros Hs Ht Hspan.
  rewrite (generateJWT_run rt penv secret span t0 admin Hs Ht Hspan).
  eexists. split; [reflexivity|]. split.
  - intros t1 Hle. unfold verifyJWT. cbn [of_opt_string]. rewrite Ht.
    cbn [negb]. change (default EmptyString (Some secret)) with secret.
    unfold Jwt.verify. rewrite String.eqb_refl. cbn [negb Jwt.exp].
    apply Z.leb_le in Hle. rewrite Hle. reflexivity.
  - intros other t1 Hne Hto. unfold verifyJWT. cbn [of_opt_string].
    rewrite Hto. cbn [negb].
    change (default EmptyString (Some other)) with other.
    unfold Jwt.verify.
    assert ((secret =? other)%string = false) as ->
        by (apply String.eqb_neq; congruence).
    reflexivity.
Qed.

Lemma token_rejected_when_stale_or_forged_witness :
  exists token,
    generateJWT Deployment.runtime Deployment.penv (clock Sample.env)
      (returning SELECT_login Sample.alice) = inr token
    /\ verifyJWT (Some "s3cret") (clock Sample.env + 86400000) token
       = inl (ApiErr (mkAPIError 500 INTERNAL_ERROR
                        "JWT verification failed: jwt expired"))
    /\ verifyJWT (Some "guess") (clock Sample.env) token
       = inl (ApiErr (mkAPIError 500 INTERNAL_ERROR
                        "JWT verification failed: invalid signature")).
Proof.
  destruct (token_rejected_when_stale_or_forged Deployment.runtime
              Deployment.penv "s3cret" 86400 (clock Sample.env)
              (returning SELECT_login Sample.alice))
    as (token & H1 & H2 & H3); try reflexivity.
  exists token. split; [exact H1|]. split.
  - apply H2. vm_compute. discriminate.
  - apply H3; [discriminate|reflexivity].
Defined.

(** ** Handlers *)

(** X13: when JWT_SECRET is not configured, an onboarding whose service
    call succeeded is answered with INTERNAL_ERROR although the new admin
    is stored and the invitation code is consumed. *)
Theorem onboardAdminHandler_secret_unset rt penv env v w o w' :
  truthy (of_opt_string (JWT_SECRET penv)) = false ->
  onboardAdmin env v w = (inr o, w') ->
  onboardAdminHandler rt penv env v w
  = (inl (ApiErr (createServerError INTERNAL_ERROR
                    "JWT_SECRET not configured in environment variables")),
     w')
  /\ exists a c,
       tblAdmin (db w') = tblAdmin (db w) ++ [a]
       /\ Admin.Email a = Candidate.email v
       /\ In c (tblInvitationCode (db w'))
       /\ InvitationCode.Code c = Candidate.invitationCode v
       /\ InvitationCode.IsUsed c = true.
Proof.
  intros Hs H. split.
  - unfold onboardAdminHandler. unfold bind at 1. rewrite H.
    unfold bind at 1, sync, generateJWT. rewrite Hs. reflexivity.
  - destruct (onboardAdmin_inr _ _ _ _ _ H)
      as (ic & h & Hi & _ & _ & _ & _ & _ & _ & _ & _ & Hdb & _).
    destruct (invitation_result_inr _ _ _ _ Hi) as (rest & Hsel & _).
    destruct (select_invitation_origin _ _ _ _ Hsel)
      as (c & r & Hc & Hcode & _ & _ & ->).
    exists (new_admin_row env (mkAdminData v h)),
      (mark_used env (Some (fresh_AdminID env)) c).
    rewrite Hdb. unfold committed. cbn [db tblAdmin tblInvitationCode].
    split; [reflexivity|]. split; [reflexivity|]. split.
    + apply in_map_iff. exists c. split; [|exact Hc].
      unfold mark_used_where. simpl. by rewrite Z.eqb_refl.
    + split; [exact Hcode|reflexivity].
Qed.

Lemma onboardAdminHandler_secret_unset_witness :
  let r := onboardAdminHandler Deployment.runtime Deployment.penv_no_secret
             Sample.env Sample.john Sample.world in
  fst r
  = inl (ApiErr (createServerError INTERNAL_ERROR
                   "JWT_SECRET not configured in environment variables"))
  /\ tblAdmin (db (snd r)) = [Sample.alice; Sample.john_row].
Proof.
  intros r.
  assert (onboardAdmin Sample.env Sample.john Sample.world
          = (inr (returning RETURNING_created Sample.john_row),
             snd (onboardAdmin Sample.env Sample.john Sample.world))) as E.
  { assert (fst (onboardAdmin Sample.env Sample.john Sample.world)
            = inr (returning RETURNING_created Sample.john_row)) as E
        by (lazy -[returning get]; reflexivity).
    rewrite <- E. apply surjective_pairing. }
  destruct (onboardAdminHandler_secret_unset Deployment.runtime
              Deployment.penv_no_secret Sample.env Sample.john Sample.world
              _ _ eq_refl E) as [Hr _].
  subst r. rewrite Hr. split; reflexivity.
Defined.

(** X14: with the secret configured and a readable expiry, a successful
    onboarding is answered with status 201, the admin's public fields
    under their response names and no password hash, and a Bearer token
    that verifies to the new admin's key and email and whose announced
    expiry is that of the token. *)
Theorem onboardAdminHandler_success rt penv env v w o w' secret span :
  onboardAdmin env v w = (inr o, w') ->
  JWT_SECRET penv = Some secret ->
  truthy (JStr secret) = true ->
  timespan rt (env_or (JWT_EXPIRY penv) "24h") = Some span ->
  0 < span ->
  exists tr c,
    onboardAdminHandler rt penv env v w
    = (inr (mkResponse 201 true "Admin onboarded successfully"
              (admin_json o) (Some tr)),
       w')
    /\ TokenResponse.type tr = "Bearer"
    /\ verifyJWT (Some secret) (clock env) (TokenResponse.token tr) = inr c
    /\ Jwt.adminID c = JNum (fresh_AdminID env)
    /\ Jwt.email c = JStr (Candidate.email v)
    /\ TokenResponse.expiresAt tr = toISOString rt (Jwt.exp c * 1000)
    /\ admin_json o !! "adminID" = Some (JNum (fresh_AdminID env))
    /\ admin_json o !! "email" = Some (JStr (Candidate.email v))
    /\ admin_json o !! "passwordHash" = None
    /\ admin_json o !! "PasswordHash" = None.
Proof.
  intros H Hs Ht Hspan Hpos.
  destruct (onboardAdmin_inr _ _ _ _ _ H)
    as (ic & h & _ & _ & _ & _ & _ & _ & _ & _ & Ho & _).
  unfold onboardAdminHandler. unfold bind at 1. rewrite H.
  unfold bind at 1, sync at 1.
  rewrite (generateJWT_run rt penv secret span (clock env) o Hs Ht Hspan).
  unfold ret at 1. unfold bind at 1, sync, createTokenResponse, jwt_decode,
    ret.
  eexists _, _. split; [reflexivity|]. split; [reflexivity|].
  cbn [TokenResponse.token TokenResponse.expiresAt]. split.
  - unfold verifyJWT. cbn [of_opt_string]. rewrite Ht. cbn [negb].
    change (default EmptyString (Some secret)) with secret.
    unfold Jwt.verify. rewrite String.eqb_refl. cbn [negb Jwt.exp].
    assert ((clock env / 1000 + span <=? clock env / 1000) = false) as ->
        by (apply Z.leb_gt; lia).
    reflexivity.
  - subst o. repeat split; reflexivity.
Qed.

Lemma onboardAdminHandler_success_witness :
  exists res,
    fst (onboardAdminHandler Deployment.runtime Deployment.penv Sample.env
           Sample.john Sample.world) = inr res
    /\ res_status res = 201
    /\ res_admin res !! "adminID" = Some (JNum 2)
    /\ res_admin res !! "PasswordHash" = None.
Proof.
  assert (onboardAdmin Sample.env Sample.john Sample.world
          = (inr (returning RETURNING_created Sample.john_row),
             snd (onboardAdmin Sample.env Sample.john Sample.world))) as E.
  { assert (fst (onboardAdmin Sample.env Sample.john Sample.world)
            = inr (returning RETURNING_created Sample.john_row)) as E
        by (lazy -[returning get]; reflexivity).
    rewrite <- E. apply surjective_pairing. }
  destruct (onboardAdminHandler_success Deployment.runtime Deployment.penv
              Sample.env Sample.john Sample.world _ _ "s3cret" 86400 E)
    as (tr & c & Hr & _ & _ & _ & _ & _ & Hid & _ & _ & Hph);
    try reflexivity.
  eexists. rewrite Hr. split; [reflexivity|]. split; [reflexivity|].
  split; [exact Hid|exact Hph].
Defined.

(** ** Input middlewares *)

Lemma next_error_handed_on {A} (thrown : Exn) :
  exists e,
    @next_error A thrown = inl e
    /\ (has_statusCode thrown = true -> e = thrown)
    /\ (has_statusCode thrown = false ->
        e = ApiErr (mkAPIError 400 INVALID_INPUT (exn_message thrown)))
    /\ has_statusCode e = true.
Proof.
  unfold next_error. destruct (has_statusCode thrown) eqn:E.
  - exists thrown. repeat split; [discriminate|exact E].
  - eexists. repeat split. discriminate.
Qed.

(** X15: once the email has passed its validator, the login middleware
    accepts exactly a non-empty string as password and hands it on
    unchanged; anything else is answered with MISSING_FIELD and the message
    "Password is required" (the message "Password cannot be empty" of the
    second check is never produced). *)
Theorem validateAdminLoginInput_password validateEmail body e :
  validateEmail (LoginBody.email body) = inr e ->
  validateAdminLoginInput validateEmail body
  = match LoginBody.password body with
    | JStr p =>
        if (p =? EmptyString)%string
        then inl (ApiErr (createValidationError MISSING_FIELD
                            "Password is required"))
        else inr (LoginData.mk e p)
    | _ => inl (ApiErr (createValidationError MISSING_FIELD
                          "Password is required"))
    end.
Proof.
  intros He. unfold validateAdminLoginInput, validate_login_body.
  rewrite He.
  destruct (LoginBody.password body) as [| |b|z|p|ms]; try reflexivity.
  - destruct b; reflexivity.
  - simpl. destruct (z =? 0); reflexivity.
  - destruct p as [|c p]; reflexivity.
Qed.

Lemma validateAdminLoginInput_password_witness :
  validateAdminLoginInput (fun v => inr "alice@example.com")
    (LoginBody.mk (JStr "alice@example.com") (JStr EmptyString))
  = inl (ApiErr (createValidationError MISSING_FIELD "Password is required"))
  /\ validateAdminLoginInput (fun v => inr "alice@example.com")
       (LoginBody.mk (JStr "alice@example.com") (JStr "SecurePass@123"))
     = inr (LoginData.mk "alice@example.com" "SecurePass@123").
Proof.
  split.
  - exact (validateAdminLoginInput_password
             (fun v => inr "alice@example.com")
             (LoginBody.mk (JStr "alice@example.com") (JStr EmptyString))
             "alice@example.com" eq_refl).
  - exact (validateAdminLoginInput_password
             (fun v => inr "alice@example.com")
             (LoginBody.mk (JStr "alice@example.com")
                (JStr "SecurePass@123"))
             "alice@example.com" eq_refl).
Defined.

(** X16: what the three validating middlewares hand the error middleware
    when the body of their try block throws: a thrown value with a truthy
    statusCode is passed on unchanged, whether or not it is an APIError;
    any other is wrapped as a 400 INVALID_INPUT carrying its message.  So
    whatever is handed on has a truthy statusCode. *)
Theorem validation_middlewares_pass_on_or_wrap :
  let handed_on (thrown e : Exn) :=
    (has_statusCode thrown = true -> e = thrown)
    /\ (has_statusCode thrown = false ->
        e = ApiErr (mkAPIError 400 INVALID_INPUT (exn_message thrown)))
    /\ has_statusCode e = true in
  (forall V body thrown,
      validate_update_body V body = inl thrown ->
      exists e,
        validateAdminUpdateInput V body = inl e /\ handed_on thrown e)
  /\ (forall V body thrown,
         validate_onboarding_body V body = inl thrown ->
         exists e,
           validateAdminOnboardingInput V body = inl e
           /\ handed_on thrown e)
  /\ (forall validateEmail body thrown,
         validate_login_body validateEmail body = inl thrown ->
         exists e,
           validateAdminLoginInput validateEmail body = inl e
           /\ handed_on thrown e).
Proof.
  cbv zeta. split; [|split].
  - intros V body thrown H. unfold validateAdminUpdateInput. rewrite H.
    apply (@next_error_handed_on UpdateData.t).
  - intros V body thrown H. unfold validateAdminOnboardingInput. rewrite H.
    apply next_error_handed_on.
  - intros ve body thrown H. unfold validateAdminLoginInput. rewrite H.
    apply next_error_handed_on.
Qed.

(** X17: the sanitizing middleware lets a request pass exactly when its
    body is an object with at least one key; an empty object is answered
    with MISSING_FIELD, any other value with INVALID_INPUT. *)
Theorem sanitizeAdminInput_passes b :
  (sanitizeAdminInput b = inr tt <-> exists o, b = BodyObject o /\ o <> ∅)
  /\ (b = BodyObject ∅ ->
      sanitizeAdminInput b
      = inl (ApiErr (createValidationError MISSING_FIELD
                       "Request body cannot be empty")))
  /\ (forall v, b = BodyValue v ->
      exists a, sanitizeAdminInput b = inl (ApiErr a)
                /\ statusCode a = 400).
Proof.
  split; [|split].
  - unfold sanitizeAdminInput. destruct b as [o|v].
    + cbn [body_falsy body_not_object orb body_keys_length].
      destruct (Z.of_nat (size o) =? 0) eqn:E.
      * split; [discriminate|]. intros (o' & Ho & Hne).
        injection Ho as <-. exfalso. apply Hne.
        apply Z.eqb_eq in E. apply map_size_empty_iff. lia.
      * split; [|reflexivity]. intros _. exists o. split; [reflexivity|].
        intros ->. rewrite map_size_empty in E. discriminate.
    + split.
      * destruct v as [| |[]|z|s|ms]; simpl; try discriminate.
        -- destruct (z =? 0); discriminate.
        -- destruct s; discriminate.
      * intros (o & Ho & _). discriminate.
  - intros ->. reflexivity.
  - intros v ->. unfold sanitizeAdminInput.
    destruct (body_falsy (BodyValue v) || body_not_object (BodyValue v)).
    + eexists. split; reflexivity.
    + cbn [body_keys_length]. eexists. split; reflexivity.
Qed.

Lemma sanitizeAdminInput_passes_witness :
  sanitizeAdminInput (BodyObject {[ "fullName" := JStr "Alice R. Roe" ]})
  = inr tt.
Proof.
  apply (proj1 (sanitizeAdminInput_passes
                  (BodyObject {[ "fullName" := JStr "Alice R. Roe" ]}))).
  eexists. split; [reflexivity|].
  intros H.
  assert (({[ "fullName" := JStr "Alice R. Roe" ]} : JsObj) !! "fullName"
          = (∅ : JsObj) !! "fullName") as E by (rewrite H; reflexivity).
  rewrite lookup_singleton_eq, lookup_empty in E. discriminate.
Defined.

(** X18: what the update middleware stores in [req.validated]: a field is
    there exactly when the body supplies it (neither absent nor null) and
    is then the validator's result; a password comes with the old password
    of the body, which is truthy, and without a password there is no old
    password; at least one of the three fields is there. *)
Theorem validateAdminUpdateInput_validated V body d :
  validateAdminUpdateInput V body = inr d ->
  (UpdateData.fullName d = None <-> provided (Body.fullName body) = false)
  /\ (forall s, UpdateData.fullName d = Some s ->
                validateFullName V (Body.fullName body) = inr s)
  /\ (UpdateData.phone d = None <-> provided (Body.phone body) = false)
  /\ (forall s, UpdateData.phone d = Some s ->
                validatePhone V (Body.phone body) = inr s)
  /\ (UpdateData.password d = None <->
      provided (Body.password body) = false)
  /\ (forall p, UpdateData.password d = Some p ->
                validatePassword V (Body.password body) = inr p
                /\ truthy (Body.oldPassword body) = true
                /\ UpdateData.oldPassword d = Body.oldPassword body)
  /\ (UpdateData.password d = None -> UpdateData.oldPassword d = JUndefined)
  /\ (UpdateData.fullName d <> None \/ UpdateData.phone d <> None
      \/ UpdateData.password d <> None).
Proof.
  unfold validateAdminUpdateInput, validate_update_body, validate_optional.
  intros H.
  destruct (provided (Body.fullName body)) eqn:Ef.
  - destruct (validateFullName V (Body.fullName body)) as [e|f] eqn:Evf.
    { destruct (has_statusCode e); discriminate. }
    destruct (provided (Body.phone body)) eqn:Ep.
    + destruct (validatePhone V (Body.phone body)) as [e|ph] eqn:Evp.
      { destruct (has_statusCode e); discriminate. }
      destruct (provided (Body.password body)) eqn:Epw.
      * destruct (truthy (Body.oldPassword body)) eqn:Eo; cbn [negb] in H;
          [|discriminate].
        destruct (validatePassword V (Body.password body)) as [e|pw] eqn:Evw.
        { destruct (has_statusCode e); discriminate. }
        simpl in H. injection H as <-. simpl.
        repeat split; try congruence; auto.
      * simpl in H. injection H as <-. simpl.
        repeat split; try congruence; auto.
    + destruct (provided (Body.password body)) eqn:Epw.
      * destruct (truthy (Body.oldPassword body)) eqn:Eo; cbn [negb] in H;
          [|discriminate].
        destruct (validatePassword V (Body.password body)) as [e|pw] eqn:Evw.
        { destruct (has_statusCode e); discriminate. }
        simpl in H. injection H as <-. simpl.
        repeat split; try congruence; auto.
      * simpl in H. injection H as <-. simpl.
        repeat split; try congruence; auto.
  - destruct (provided (Body.phone body)) eqn:Ep.
    + destruct (validatePhone V (Body.phone body)) as [e|ph] eqn:Evp.
      { destruct (has_statusCode e); discriminate. }
      destruct (provided (Body.password body)) eqn:Epw.
      * destruct (truthy (Body.oldPassword body)) eqn:Eo; cbn [negb] in H;
          [|discriminate].
        destruct (validatePassword V (Body.password body)) as [e|pw] eqn:Evw.
        { destruct (has_statusCode e); discriminate. }
        simpl in H. injection H as <-. simpl.
        repeat split; try congruence; auto.
      * simpl in H. injection H as <-. simpl.
        repeat split; try congruence; auto.
    + destruct (provided (Body.password body)) eqn:Epw.
      * destruct (truthy (Body.oldPassword body)) eqn:Eo; cbn [negb] in H;
          [|discriminate].
        destruct (validatePassword V (Body.password body)) as [e|pw] eqn:Evw.
        { destruct (has_statusCode e); discriminate. }
        simpl in H. injection H as <-. simpl.
        repeat split; try congruence; auto.
      * simpl in H. discriminate.
Qed.

Lemma validateAdminUpdateInput_validated_witness :
  exists d,
    validateAdminUpdateInput SpecValidators.validators
      (Body.mk JUndefined JNull (JStr "NewSecure@Pass789")
         (JStr "SecurePass@123")) = inr d
    /\ UpdateData.phone d = None
    /\ UpdateData.oldPassword d = JStr "SecurePass@123".
Proof.
  eexists. split; [reflexivity|].
  destruct (validateAdminUpdateInput_validated SpecValidators.validators
              (Body.mk JUndefined JNull (JStr "NewSecure@Pass789")
                 (JStr "SecurePass@123")) _ eq_refl)
    as (_ & _ & H3 & _ & _ & H6 & _).
  split.
  - apply H3. reflexivity.
  - apply (H6 "NewSecure@Pass789"). reflexivity.
Defined.

(** A validator that throws a value with a statusCode which is no
    APIError: the login middleware passes it on as it is.  A validator
    that throws a plain Error: the middleware wraps it. *)
Lemma validation_middlewares_pass_on_or_wrap_witness :
  validateAdminLoginInput
    (fun v => inl (Foreign (JNum 503) "Service Unavailable"))
    (LoginBody.mk JUndefined JUndefined)
  = inl (Foreign (JNum 503) "Service Unavailable")
  /\ validateAdminLoginInput
       (fun v => inl (JsError "email is not defined"))
       (LoginBody.mk JUndefined JUndefined)
     = inl (ApiErr (mkAPIError 400 INVALID_INPUT "email is not defined")).
Proof.
  destruct validation_middlewares_pass_on_or_wrap as (_ & _ & H).
  split.
  - destruct (H (fun v => inl (Foreign (JNum 503) "Service Unavailable"))
                (LoginBody.mk JUndefined JUndefined)
                (Foreign (JNum 503) "Service Unavailable") eq_refl)
      as (e & He & Hp & _).
    rewrite He. f_equal. exact (Hp eq_refl).
  - destruct (H (fun v => inl (JsError "email is not defined"))
                (LoginBody.mk JUndefined JUndefined)
                (JsError "email is not defined") eq_refl)
      as (e & He & _ & Hw & _).
    rewrite He. f_equal. exact (Hw eq_refl).
Defined.

(** X19: a body that supplies none of fullName, phone and password is
    refused by the update middleware with INVALID_INPUT, whatever the
    validators and whatever else the body holds (an old password alone, or
    unknown keys); such a body, not being empty, passes the sanitizing
    middleware. *)
Theorem update_without_recognised_field V o :
  o <> ∅ ->
  provided (get o "fullName") = false ->
  provided (get o "phone") = false ->
  provided (get o "password") = false ->
  sanitizeAdminInput (BodyObject o) = inr tt
  /\ validateAdminUpdateInput V (update_body o)
     = inl (ApiErr (createValidationError INVALID_INPUT
                      "At least one field (fullName, phone, or password) must be provided")).
Proof.
  intros Hne Hf Hp Hw. split.
  - unfold sanitizeAdminInput.
    cbn [body_falsy body_not_object orb body_keys_length].
    destruct (Z.of_nat (size o) =? 0) eqn:E; [|reflexivity].
    exfalso. apply Hne. apply Z.eqb_eq in E. apply map_size_empty_iff. lia.
  - unfold validateAdminUpdateInput, validate_update_body, validate_optional,
      update_body.
    cbn [Body.fullName Body.phone Body.password Body.oldPassword].
    rewrite Hf, Hp, Hw. reflexivity.
Qed.

Lemma update_without_recognised_field_witness :
  validateAdminUpdateInput SpecValidators.validators
    (update_body {[ "oldPassword" := JStr "SecurePass@123" ]})
  = inl (ApiErr (createValidationError INVALID_INPUT
                   "At least one field (fullName, phone, or password) must be provided")).
Proof.
  refine (proj2 (update_without_recognised_field SpecValidators.validators
                   {[ "oldPassword" := JStr "SecurePass@123" ]} _ _ _ _)).
  - intros H.
    assert (({[ "oldPassword" := JStr "SecurePass@123" ]} : JsObj)
              !! "oldPassword" = (∅ : JsObj) !! "oldPassword") as E
        by (rewrite H; reflexivity).
    rewrite lookup_singleton_eq, lookup_empty in E. discriminate.
  - reflexivity.
  - reflexivity.
  - reflexivity.
Defined.

(** X20: an old password that is truthy but not a string (a number, a
    boolean) passes the update middleware; for an existing admin the
    update then fails inside the password comparison and is answered with
    status 500, DATABASE_ERROR, before any hashing or write. *)
Theorem update_route_non_string_old_password V env id body w a rest p :
  provided (Body.fullName body) = false ->
  provided (Body.phone body) = false ->
  provided (Body.password body) = true ->
  validatePassword V (Body.password body) = inr p ->
  truthy (JStr p) = true ->
  truthy (Body.oldPassword body) = true ->
  not_string (Body.oldPassword body) = true ->
  0 < id ->
  List.filter (fun x => Admin.AdminID x =? id) (tblAdmin (db w)) = a :: rest ->
  update_route V env (Some id) body w
  = (inl (ApiErr (mkAPIError 500 DATABASE_ERROR
                    "Error updating admin details")),
     logged w [Query (SelAdminHash id);
               BcryptCompare (Body.oldPassword body) (Admin.PasswordHash a)]).
Proof.
  intros Hf Hp Hw Hv Ht Ho Hn Hid Hrow.
  unfold update_route, validateAdminUpdateInput, validate_update_body,
    validate_optional.
  rewrite Hf, Hp, Hw, Ho, Hv. cbn [negb].
  change (keys_length
            (UpdateData.mk None None (Some p) (Body.oldPassword body)) =? 0)
    with false.
  cbv iota. unfold updateAdminHandler.
  assert ((id <=? 0) = false) as -> by (apply Z.leb_gt; exact Hid).
  rewrite updateAdmin_run. cbv zeta. rewrite Hrow.
  cbn [UpdateData.password UpdateData.oldPassword supplied]. rewrite Ht.
  destruct (Body.oldPassword body); try reflexivity. discriminate.
Qed.

Lemma update_route_non_string_old_password_witness :
  update_route SpecValidators.validators Sample.env (Some 1)
    Deployment.body_numeric_old Sample.world
  = (inl (ApiErr (mkAPIError 500 DATABASE_ERROR
                    "Error updating admin details")),
     mkWorld Sample.store None
       [Query (SelAdminHash 1);
        BcryptCompare (JNum 123) "$2b$12$SecurePass@123"]).
Proof.
  exact (update_route_non_string_old_password SpecValidators.validators
           Sample.env 1 Deployment.body_numeric_old Sample.world
           Sample.alice [] "NewSecure@Pass789"
           eq_refl eq_refl eq_refl eq_refl eq_refl eq_refl eq_refl eq_refl
           eq_refl).
Defined.

(** X21: the onboarding middleware hands on a candidate exactly when every
    validator accepts its field; the candidate's fields are the
    validators' results, and it has a branch exactly when the body
    supplies one (neither absent nor null), the branch validator not being
    consulted otherwise. *)
Theorem validateAdminOnboardingInput_accepts V body c :
  validateAdminOnboardingInput V body = inr c <->
  Onboarding.validateStudentID V (OnboardBody.studentID body)
  = inr (Candidate.studentID c)
  /\ Onboarding.validateFullName V (OnboardBody.fullName body)
     = inr (Candidate.fullName c)
  /\ Onboarding.validateEmail V (OnboardBody.email body)
     = inr (Candidate.email c)
  /\ Onboarding.validatePassword V (OnboardBody.password body)
     = inr (Candidate.password c)
  /\ Onboarding.validatePhone V (OnboardBody.phone body)
     = inr (Candidate.phone c)
  /\ Onboarding.validatePositiveInteger V (OnboardBody.roleID body) "RoleID"
     = inr (Candidate.roleID c)
  /\ Onboarding.validateGraduationYear V (OnboardBody.graduationYear body)
     = inr (Candidate.graduationYear c)
  /\ Onboarding.validateInvitationCodeFormat V
       (OnboardBody.invitationCode body)
     = inr (Candidate.invitationCode c)
  /\ (if provided (OnboardBody.branchID body)
      then exists b,
          Onboarding.validatePositiveInteger V (OnboardBody.branchID body)
            "BranchID" = inr b
          /\ Candidate.branchID c = Some b
      else Candidate.branchID c = None).
Proof.
  unfold validateAdminOnboardingInput, validate_onboarding_body, and_then,
    next_error.
  split.
  - intros H.
    destruct (Onboarding.validateStudentID V (OnboardBody.studentID body))
      as [e|x1]; [destruct (has_statusCode e); discriminate|].
    destruct (Onboarding.validateFullName V (OnboardBody.fullName body))
      as [e|x2]; [destruct (has_statusCode e); discriminate|].
    destruct (Onboarding.validateEmail V (OnboardBody.email body))
      as [e|x3]; [destruct (has_statusCode e); discriminate|].
    destruct (Onboarding.validatePassword V (OnboardBody.password body))
      as [e|x4]; [destruct (has_statusCode e); discriminate|].
    destruct (Onboarding.validatePhone V (OnboardBody.phone body))
      as [e|x5]; [destruct (has_statusCode e); discriminate|].
    destruct (Onboarding.validatePositiveInteger V (OnboardBody.roleID body)
                "RoleID")
      as [e|x6]; [destruct (has_statusCode e); discriminate|].
    destruct (Onboarding.validateGraduationYear V
                (OnboardBody.graduationYear body))
      as [e|x7]; [destruct (has_statusCode e); discriminate|].
    destruct (Onboarding.validateInvitationCodeFormat V
                (OnboardBody.invitationCode body))
      as [e|x8]; [destruct (has_statusCode e); discriminate|].
    destruct (provided (OnboardBody.branchID body)).
    + destruct (Onboarding.validatePositiveInteger V
                  (OnboardBody.branchID body) "BranchID")
        as [e|x9]; [destruct (has_statusCode e); discriminate|].
      injection H as <-. simpl. repeat split; eauto.
    + injection H as <-. simpl. repeat split; eauto.
  - intros (H1 & H2 & H3 & H4 & H5 & H6 & H7 & H8 & H9).
    rewrite H1, H2, H3, H4, H5, H6, H7, H8.
    destruct c. simpl in *.
    destruct (provided (OnboardBody.branchID body)).
    + destruct H9 as (b & -> & ->). reflexivity.
    + subst. reflexivity.
Qed.

(** ** The error middleware *)

(** X22: outside development mode the answer to an error that is not an
    APIError does not depend on the error's message: the response carries
    one of four fixed messages and no originalError detail. *)
Theorem globalErrorHandler_hides_message penv err m :
  as_APIError err = None ->
  strict_eq_string (of_opt_string (NODE_ENV penv)) "development" = false ->
  globalErrorHandler penv (with_message m err) = globalErrorHandler penv err
  /\ In (er_message (globalErrorHandler penv err))
       ["Resource already exists (duplicate entry)";
        "Invalid reference to related resource";
        "Invalid JSON in request body";
        "Internal server error"]
  /\ In (er_status (globalErrorHandler penv err)) [409; 400; 500]
  /\ forall x, er_details (globalErrorHandler penv err) <> OriginalError x.
Proof.
  intros Ha Hd. unfold globalErrorHandler, with_message.
  cbn [as_APIError err_code is_SyntaxError err_status has_body err_message].
  rewrite Ha, Hd.
  destruct (strict_eq_string (err_code err) "23505").
  { simpl. repeat split; auto; discriminate. }
  destruct (strict_eq_string (err_code err) "23503").
  { simpl. repeat split; auto; discriminate. }
  destruct (is_SyntaxError err && strict_eq_num (err_status err) 400
            && has_body err).
  { simpl. repeat split; auto 6; discriminate. }
  simpl. repeat split; auto 6; discriminate.
Qed.

(** A lost connection in production: the address in the driver's message
    does not reach the client. *)
Lemma globalErrorHandler_hides_message_witness :
  globalErrorHandler Deployment.penv Deployment.connection_lost
  = mkErrorResponse 500 INTERNAL_ERROR "Internal server error" DetailsNull
  /\ globalErrorHandler Deployment.penv
       (with_message "anything else" Deployment.connection_lost)
     = globalErrorHandler Deployment.penv Deployment.connection_lost.
Proof.
  split; [reflexivity|].
  apply (globalErrorHandler_hides_message Deployment.penv
           Deployment.connection_lost "anything else"); reflexivity.
Defined.

Lemma answered_api penv a :
  In (statusCode a) service_statuses -> answered_in_kind penv (ApiErr a).
Proof. intros H. exists a. repeat split. exact H. Qed.

(** X23: every failure of login and of profile update is an APIError with
    status 400, 404, 409 or 500, which the error middleware answers with
    that error's own status, code and message.  So is every failure of
    onboarding, except when no client could be obtained or the ROLLBACK
    was rejected: then the failure is the driver's error, which the error
    middleware answers with 500 INTERNAL_ERROR "Internal server error". *)
Theorem service_failures_answered penv env w :
  (forall v e w',
      onboardAdmin env v w = (inl e, w') ->
      answered_in_kind penv e
      \/ (exists m,
             e = JsError m
             /\ (fault env CONNECT = Some m \/ fault env ROLLBACK = Some m)
             /\ er_status (globalErrorHandler penv (thrown_of e)) = 500
             /\ er_code (globalErrorHandler penv (thrown_of e))
                = INTERNAL_ERROR
             /\ er_message (globalErrorHandler penv (thrown_of e))
                = "Internal server error"))
  /\ (fault env CONNECT = None ->
      fault env ROLLBACK = None ->
      forall v e w',
        onboardAdmin env v w = (inl e, w') -> answered_in_kind penv e)
  /\ (forall email password e w',
         loginAdmin env email password w = (inl e, w') ->
         answered_in_kind penv e)
  /\ (forall id d e w',
         updateAdmin env id d w = (inl e, w') -> answered_in_kind penv e).
Proof.
  split; [|split; [|split]].
  - intros v e w' H.
    destruct (onboardAdmin_inl _ _ _ _ _ H)
      as (_ & [(a & -> & Ha)|(m & -> & Hm)]).
    + left. apply answered_api. exact Ha.
    + right. exists m. repeat split. exact Hm.
  - intros Hc Hr v e w' H.
    destruct (onboardAdmin_inl _ _ _ _ _ H)
      as (_ & [(a & -> & Ha)|(m & -> & [Hm|Hm])]).
    + apply answered_api. exact Ha.
    + congruence.
    + congruence.
  - intros email password e w' H. rewrite loginAdmin_run in H.
    split_run H; injection H as <- _; apply answered_api; simpl; auto.
  - intros id d e w' H. rewrite updateAdmin_run in H. cbv zeta in H.
    split_run H; injection H as <- _;
      try (apply answered_api; simpl; auto);
      destruct (fits (AdminID_type env) id);
      apply answered_api; simpl; auto.
Qed.

(** Bob, who has no account, tries to log in: the middleware answers 400
    INVALID_INPUT with the message of the service.  John's onboarding
    fails at COMMIT in a deployment where the ROLLBACK goes through: the
    answer is 500 TRANSACTION_FAILED. *)
Lemma service_failures_answered_witness :
  (exists e,
      fst (loginAdmin Sample.env "bob@example.com" "SecurePass@123"
             Sample.world) = inl e
      /\ globalErrorHandler Deployment.penv (thrown_of e)
         = mkErrorResponse 400 INVALID_INPUT "Invalid email or password"
             DetailsNull)
  /\ (exists e,
         fst (onboardAdmin Sample.env_commit_fails Sample.john Sample.world)
         = inl e
         /\ globalErrorHandler Deployment.penv (thrown_of e)
            = mkErrorResponse 500 TRANSACTION_FAILED
                "Connection terminated unexpectedly" DetailsNull).
Proof.
  split.
  - destruct (service_failures_answered Deployment.penv Sample.env
                Sample.world) as (_ & _ & H & _).
    destruct (H "bob@example.com" "SecurePass@123"
                (ApiErr (createValidationError INVALID_INPUT
                           "Invalid email or password"))
                (logged Sample.world [Query (SelLogin "bob@example.com")]))
      as (a & Ha & _ & Hr).
    { rewrite loginAdmin_run. reflexivity. }
    eexists. split; [rewrite loginAdmin_run; reflexivity|].
    rewrite Hr. injection Ha as <-. reflexivity.
  - destruct (service_failures_answered Deployment.penv
                Sample.env_commit_fails Sample.world) as (_ & H & _).
    destruct (H eq_refl eq_refl Sample.john _ _ john_commit_fails)
      as (a & Ha & _ & Hr).
    injection Ha as <-.
    eexists. split; [rewrite john_commit_fails; reflexivity|].
    rewrite Hr. reflexivity.
Defined.

(** ** The message table *)

(** X24: a failure of the ledger check, of the role validator or of the
    branch validator whose code is not DATABASE_ERROR carries the message
    the table of constants/errorCodes.js gives for its code.  (The
    DATABASE_ERROR failures are those of the catch clauses, with texts of
    their own; the table's text for that code is "Database error
    occurred".) *)
Theorem typed_reference_failures_use_table_messages env w :
  (forall code a,
      fst (validateInvitationCode env code w) = inl (ApiErr a) ->
      errorCode a <> DATABASE_ERROR ->
      assoc (errorCode a) ERROR_MESSAGES = Some (message a))
  /\ (forall roleID a,
         fst (validateRole roleID w) = inl (ApiErr a) ->
         errorCode a <> DATABASE_ERROR ->
         assoc (errorCode a) ERROR_MESSAGES = Some (message a))
  /\ (forall branchID a,
         fst (validateBranch branchID w) = inl (ApiErr a) ->
         errorCode a <> DATABASE_ERROR ->
         assoc (errorCode a) ERROR_MESSAGES = Some (message a))
  /\ assoc DATABASE_ERROR ERROR_MESSAGES = Some "Database error occurred".
Proof.
  split; [|split; [|split]].
  - intros code a H _. rewrite validateInvitationCode_run in H.
    cbn [fst] in H.
    destruct (invitation_result_inl _ _ _ _ H) as (a' & Ha & _ & Hm).
    injection Ha as <-. exact Hm.
  - intros roleID a H _. rewrite validateRole_run in H. cbn [fst] in H.
    destruct (select_role (db w) roleID); [|discriminate].
    injection H as <-. reflexivity.
  - intros branchID a H _.
    destruct (branch_given branchID) as [b|] eqn:Eb.
    + rewrite (validateBranch_run _ b) in H by exact Eb. cbn [fst] in H.
      destruct (select_branch (db w) b); [|discriminate].
      injection H as <-. reflexivity.
    + unfold validateBranch in H. rewrite Eb in H. discriminate.
  - reflexivity.
Qed.

Lemma typed_reference_failures_use_table_messages_witness :
  assoc INVITATION_CODE_INACTIVE ERROR_MESSAGES
  = Some "Invitation code is inactive".
Proof.
  destruct (typed_reference_failures_use_table_messages Sample.env
              Sample.world) as (H & _).
  refine (H "INVITE2022OLD"
            (createValidationError INVITATION_CODE_INACTIVE
               "Invitation code is inactive") eq_refl _).
  discriminate.
Defined.

(** ** The atomic creation: what it does not check, how it ends *)

Lemma marked_rows_bound env usedBy codeID (codes : list InvitationCode.row) c :
  In c (map (mark_used_where env usedBy codeID) codes) ->
  InvitationCode.CodeID c = codeID ->
  InvitationCode.IsUsed c = true /\ InvitationCode.UsedByAdminID c = usedBy.
Proof.
  intros Hin Hid. apply in_map_iff in Hin as (c0 & <- & _).
  unfold mark_used_where in *.
  destruct (InvitationCode.CodeID c0 =? codeID) eqn:E.
  - split; reflexivity.
  - apply Z.eqb_neq in E. contradiction.
Qed.

(** X25: the atomic creation does not look at the used flag of the code it
    is given: when no statement fails and the new row violates no
    uniqueness constraint, it commits for any existing code identifier,
    and every row with that identifier, one that was already used
    included, ends up used with its back-reference naming the new
    admin. *)
Theorem createAdminWithTransaction_ignores_used_flag env adminData ic w :
  (forall st, fault env st = None) ->
  unique_violation (db w) (new_admin_row env adminData) = false ->
  (exists c, In c (tblInvitationCode (db w))
             /\ InvitationCode.CodeID c = InvitationView.CodeID ic) ->
  exists o w',
    createAdminWithTransaction env adminData ic w = (inr o, w')
    /\ tblAdmin (db w')
       = tblAdmin (db w) ++ [new_admin_row env adminData]
    /\ forall c',
         In c' (tblInvitationCode (db w')) ->
         InvitationCode.CodeID c' = InvitationView.CodeID ic ->
         InvitationCode.IsUsed c' = true
         /\ InvitationCode.UsedByAdminID c' = Some (fresh_AdminID env).
Proof.
  intros Hf Hu (c & Hc & Hid).
  unfold createAdminWithTransaction, pool_connect, client_BEGIN,
    client_COMMIT, client_ROLLBACK, client_release, insert_admin,
    update_invitation, driver_fault.
  unfold_monad. simpl. rewrite !Hf. simpl. rewrite Hu.
  cbn -[returning get]. rewrite get_created_AdminID, ?Hf. simpl.
  destruct (List.filter
              (fun c0 => InvitationCode.CodeID c0 =? InvitationView.CodeID ic)
              (tblInvitationCode (db w))) as [|c0 cs] eqn:Ef.
  { exfalso. rewrite filter_nil_iff in Ef. specialize (Ef c Hc).
    simpl in Ef. apply Z.eqb_neq in Ef. contradiction. }
  simpl. rewrite ?Hf. simpl. eexists _, _. split; [reflexivity|].
  split; [reflexivity|]. simpl. intros c' Hin Hc'.
  eapply marked_rows_bound; eassumption.
Qed.

(** The sample code INVITE2022OLD was used by admin 1; the atomic creation
    run for John with the row of that code binds it to admin 2. *)
Lemma createAdminWithTransaction_ignores_used_flag_witness :
  InvitationCode.UsedByAdminID Sample.spent = Some 1
  /\ exists o w',
       createAdminWithTransaction Sample.env Replay.john_data
         Replay.stale_row Sample.world = (inr o, w')
       /\ forall c',
            In c' (tblInvitationCode (db w')) ->
            InvitationCode.CodeID c' = 8 ->
            InvitationCode.IsUsed c' = true
            /\ InvitationCode.UsedByAdminID c' = Some 2.
Proof.
  split; [reflexivity|].
  destruct (createAdminWithTransaction_ignores_used_flag Sample.env
              Replay.john_data Replay.stale_row Sample.world)
    as (o & w' & H1 & _ & H3).
  - reflexivity.
  - reflexivity.
  - exists Sample.spent. split; [right; left; reflexivity|reflexivity].
  - exists o, w'. split; [exact H1|exact H3].
Defined.

(** X26: the statements the atomic creation issues.  When the pool hands
    out no client the run fails with the driver's error and has issued
    nothing.  Otherwise BEGIN comes first; a failing run ends with a
    ROLLBACK and has issued no other; a successful run issues BEGIN,
    INSERT, UPDATE, COMMIT and no ROLLBACK. *)
Theorem createAdminWithTransaction_statements env adminData ic w :
  match createAdminWithTransaction env adminData ic w with
  | (inl e, w') =>
      match fault env CONNECT with
      | Some m => e = JsError m /\ trace w' = trace w
      | None =>
          exists evs,
            trace w' = trace w ++ Query TxBegin :: evs ++ [Query TxRollback]
            /\ ~ In (Query TxRollback) evs
      end
  | (inr _, w') =>
      fault env CONNECT = None
      /\ trace w'
         = trace w
           ++ [Query TxBegin;
               Query (InsAdmin
                        (Candidate.studentID (validatedData adminData))
                        (Candidate.email (validatedData adminData)));
               Query (UpdInvitationCode (InvitationView.CodeID ic));
               Query TxCommit]
  end.
Proof.
  unfold createAdminWithTransaction, pool_connect, client_BEGIN,
    client_COMMIT, client_ROLLBACK, client_release, insert_admin,
    update_invitation, driver_fault.
  unfold_monad.
  destruct (fault env CONNECT); simpl; [split; reflexivity|].
  destruct (fault env BEGIN); simpl.
  { destruct (fault env ROLLBACK); simpl; exists [];
      (split; [rewrite <- app_assoc; reflexivity|tauto]). }
  destruct (fault env INSERT_ADMIN); simpl.
  { destruct (fault env ROLLBACK); simpl; eexists [_];
      (split; [repeat (rewrite <- app_assoc; simpl); reflexivity|]);
      simpl; intuition discriminate. }
  destruct (unique_violation (db w) (new_admin_row env adminData));
    cbn -[returning get].
  { destruct (fault env ROLLBACK); simpl; eexists [_];
      (split; [repeat (rewrite <- app_assoc; simpl); reflexivity|]);
      simpl; intuition discriminate. }
  rewrite get_created_AdminID.
  destruct (fault env UPDATE_CODE); simpl.
  { destruct (fault env ROLLBACK); simpl; eexists [_; _];
      (split; [repeat (rewrite <- app_assoc; simpl); reflexivity|]);
      simpl; intuition discriminate. }
  destruct (List.filter _ (tblInvitationCode (db w))); simpl.
  { destruct (fault env ROLLBACK); simpl; eexists [_; _];
      (split; [repeat (rewrite <- app_assoc; simpl); reflexivity|]);
      simpl; intuition discriminate. }
  destruct (fault env COMMIT); simpl.
  { destruct (fault env ROLLBACK); simpl; eexists [_; _; _];
      (split; [repeat (rewrite <- app_assoc; simpl); reflexivity|]);
      simpl; intuition discriminate. }
  split; [reflexivity|].
  repeat (rewrite <- app_assoc; simpl). reflexivity.
Qed.

(** ** The update handler *)

(** X28: the update handler refuses an adminId that is not a positive
    number with INVALID_INPUT before anything is looked up; when the
    service succeeds it answers with status 200, no token, the admin's
    key, the refreshed update timestamp and no password hash. *)
Theorem updateAdminHandler_json_outcomes env id d w :
  (id = None \/ (exists n, id = Some n /\ n <= 0) ->
   updateAdminHandler_json env id d w
   = (inl (ApiErr (createValidationError INVALID_INPUT "Invalid admin ID")),
      w))
  /\ (forall n o w',
         id = Some n -> 0 < n ->
         updateAdmin env n d w = (inr o, w') ->
         updateAdminHandler_json env id d w
         = (inr (mkResponse 200 true "Admin details updated successfully"
                   (admin_json_updated o) None),
            w')
         /\ admin_json_updated o !! "adminID" = Some (JNum n)
         /\ admin_json_updated o !! "updatedAt" = Some (JDate (clock env))
         /\ admin_json_updated o !! "PasswordHash" = None
         /\ admin_json_updated o !! "passwordHash" = None).
Proof.
  split.
  - intros [->|(n & -> & Hn)]; unfold updateAdminHandler_json,
      updateAdminHandler, bind, throw; [reflexivity|].
    assert ((n <=? 0) = true) as -> by (apply Z.leb_le; exact Hn).
    reflexivity.
  - intros n o w' -> Hn H. split.
    + unfold updateAdminHandler_json, updateAdminHandler, bind, ret.
      assert ((n <=? 0) = false) as -> by (apply Z.leb_gt; exact Hn).
      rewrite H. reflexivity.
    + rewrite updateAdmin_run in H. cbv zeta in H.
      destruct (List.filter (fun a => Admin.AdminID a =? n)
                  (tblAdmin (db w))) as [|a rest] eqn:Ef; [discriminate|].
      assert (Admin.AdminID a = n) as Hid.
      { assert (In a (List.filter (fun a => Admin.AdminID a =? n)
                        (tblAdmin (db w)))) as Hin
            by (rewrite Ef; left; reflexivity).
        apply filter_In in Hin as [_ Hin]. apply Z.eqb_eq in Hin.
        exact Hin. }
      split_run H; injection H as <- _; rewrite <- Hid;
        repeat split; reflexivity.
Qed.

Lemma updateAdminHandler_json_outcomes_witness :
  updateAdminHandler_json Sample.env (Some 0) Sample.rename Sample.world
  = (inl (ApiErr (createValidationError INVALID_INPUT "Invalid admin ID")),
     Sample.world)
  /\ res_admin_updatedAt_of
       (fst (updateAdminHandler_json Sample.env (Some 1) Sample.rename
               Sample.world))
     = Some (JDate 1700000000000).
Proof.
  destruct (updateAdminHandler_json_outcomes Sample.env (Some 0)
              Sample.rename Sample.world) as [H0 _].
  destruct (updateAdminHandler_json_outcomes Sample.env (Some 1)
              Sample.rename Sample.world) as [_ H1].
  split.
  - apply H0. right. exists 0. split; [reflexivity|lia].
  - destruct (H1 1 (returning RETURNING_updated Sample.alice_renamed)
                (snd (updateAdmin Sample.env 1 Sample.rename Sample.world))
                eq_refl) as (Hr & _ & Hu & _).
    + lia.
    + rewrite updateAdmin_run. reflexivity.
    + rewrite Hr. cbn [fst res_admin_updatedAt_of res_admin]. exact Hu.
Defined.

(** ** Probes after onboarding *)

(** X29: after a successful onboarding both uniqueness probes answer true
    for the candidate's student identifier and email; before it both
    answered false. *)
Theorem onboard_then_probes env v w o w' :
  onboardAdmin env v w = (inr o, w') ->
  fst (checkStudentIDExists (Candidate.studentID v) w) = inr false
  /\ fst (checkEmailExists (Candidate.email v) w) = inr false
  /\ fst (checkStudentIDExists (Candidate.studentID v) w') = inr true
  /\ fst (checkEmailExists (Candidate.email v) w') = inr true.
Proof.
  intros H.
  destruct (onboardAdmin_inr _ _ _ _ _ H)
    as (ic & h & _ & _ & Hs & Hm & _ & _ & _ & _ & _ & Hdb & _).
  rewrite !checkStudentIDExists_run, !checkEmailExists_run. cbn [fst].
  rewrite Hs, Hm, Hdb.
  unfold select_admin_by_studentID, select_admin_by_email, committed.
  cbn [tblAdmin]. rewrite !List.filter_app.
  cbn [List.filter new_admin_row Admin.StudentID Admin.Email validatedData].
  rewrite !String.eqb_refl.
  destruct (List.filter _ (tblAdmin (db w)));
    destruct (List.filter _ (tblAdmin (db w))); repeat split; reflexivity.
Qed.

Lemma onboard_then_probes_witness :
  let w' := snd (onboardAdmin Sample.env Sample.john Sample.world) in
  fst (checkEmailExists "john@example.com" Sample.world) = inr false
  /\ fst (checkEmailExists "john@example.com" w') = inr true.
Proof.
  intros w'.
  assert (onboardAdmin Sample.env Sample.john Sample.world
          = (inr (returning RETURNING_created Sample.john_row), w')) as E.
  { assert (fst (onboardAdmin Sample.env Sample.john Sample.world)
            = inr (returning RETURNING_created Sample.john_row)) as E
        by (lazy -[returning get]; reflexivity).
    rewrite <- E. apply surjective_pairing. }
  destruct (onboard_then_probes Sample.env Sample.john Sample.world _ w' E)
    as (_ & H2 & _ & H4).
  split; [exact H2|exact H4].
Defined.

(** ** The login handler *)

(** X27: a login whose password verifies is answered with status 200, the
    admin's public fields and a Bearer token that verifies, under the
    configured secret, to the key and the role of the stored row; no table
    changes. *)
Theorem loginAdminHandler_success rt penv env d w a rest secret span :
  List.filter (fun x => (Admin.Email x =? LoginData.email d)%string)
    (tblAdmin (db w)) = a :: rest ->
  bcrypt_compare env (LoginData.password d) (Admin.PasswordHash a) = true ->
  JWT_SECRET penv = Some secret ->
  truthy (JStr secret) = true ->
  timespan rt (env_or (JWT_EXPIRY penv) "24h") = Some span ->
  0 < span ->
  exists res tr c w',
    loginAdminHandler rt penv env d w = (inr res, w')
    /\ db w' = db w
    /\ res_status res = 200
    /\ res_token res = Some tr
    /\ TokenResponse.type tr = "Bearer"
    /\ verifyJWT (Some secret) (clock env) (TokenResponse.token tr) = inr c
    /\ Jwt.adminID c = JNum (Admin.AdminID a)
    /\ Jwt.roleID c = JNum (Admin.RoleID a)
    /\ res_admin res !! "adminID" = Some (JNum (Admin.AdminID a))
    /\ res_admin res !! "email" = Some (JStr (Admin.Email a))
    /\ res_admin res !! "PasswordHash" = None
    /\ res_admin res !! "passwordHash" = None.
Proof.
  intros Hf Hc Hs Ht Hspan Hpos.
  unfold loginAdminHandler. unfold bind at 1.
  rewrite loginAdmin_run, Hf, Hc.
  unfold bind at 1, sync at 1.
  rewrite (generateJWT_run rt penv secret span (clock env) _ Hs Ht Hspan).
  unfold ret at 1. unfold bind at 1, sync, createTokenResponse, jwt_decode,
    ret.
  eexists _, _, _, _. split; [reflexivity|].
  split; [reflexivity|]. split; [reflexivity|]. split; [reflexivity|].
  split; [reflexivity|]. cbn [TokenResponse.token res_admin]. split.
  - unfold verifyJWT. cbn [of_opt_string]. rewrite Ht. cbn [negb].
    change (default EmptyString (Some secret)) with secret.
    unfold Jwt.verify. rewrite String.eqb_refl. cbn [negb Jwt.exp].
    assert ((clock env / 1000 + span <=? clock env / 1000) = false) as ->
        by (apply Z.leb_gt; lia).
    reflexivity.
  - repeat split; reflexivity.
Qed.

Lemma loginAdminHandler_success_witness :
  exists res,
    fst (loginAdminHandler Deployment.runtime Deployment.penv Sample.env
           (LoginData.mk "alice@example.com" "SecurePass@123") Sample.world)
    = inr res
    /\ res_status res = 200
    /\ res_admin res !! "adminID" = Some (JNum 1).
Proof.
  destruct (loginAdminHandler_success Deployment.runtime Deployment.penv
              Sample.env (LoginData.mk "alice@example.com" "SecurePass@123")
              Sample.world Sample.alice [] "s3cret" 86400)
    as (res & tr & c & w' & Hr & _ & Hst & _ & _ & _ & _ & _ & Hid & _);
    try reflexivity.
  exists res. rewrite Hr. split; [reflexivity|]. split; assumption.
Defined.
